(** * kids-gallery: the made-at validator, the visibility/expiry state
      machine, the invite token and the invite page gate.

    A shallow embedding of the page-level logic of the repository:
    - [src/unnamed/part_001] (upload page): [parseArtworkMadeAt];
    - [src/app/manage/page.tsx] (and its copy [src/unnamed/part_002]):
      [isExpired], [StatusBadge], [makeToken], [togglePublic],
      [extendTwoWeeks], [deleteArtwork] and the per-card [extendEnabled];
    - [src/app/gallery/page.tsx]: [daysLeft] and the per-card [leftText];
    - [src/unnamed/part_001] (invite page): [loadAll].

    JavaScript strings are sequences of UTF-16 code units; numbers that the
    code handles are integers far below 2^53, so they are modelled in [Z].
    The built-in [Date] follows the ECMAScript definitions (Day, MakeDay,
    TimeClip, ...) in a time zone with a fixed offset [tza] from UTC. *)

From Stdlib Require Import ZArith List Bool String Ascii Lia.
From Stdlib Require Import Strings.Byte DecimalString.
From stdpp Require Import gmap.
Import ListNotations.

Local Open Scope Z_scope.

(* ===================================================================== *)
(** ** JavaScript built-ins used by the pages *)
(* ===================================================================== *)

Module JS.

(** A string is its sequence of UTF-16 code units. *)
Definition code_unit := N.
Definition jsstring := list code_unit.

(** What a throwing built-in does to the caller: the only exception the
    modelled code can raise is the RangeError of [toISOString]. *)
Inductive completion (A : Type) : Type :=
| Normal (a : A)
| ThrowRangeError.
Arguments Normal {A} a.
Arguments ThrowRangeError {A}.

(** *** Time values (ECMAScript, "Time Values and Time Range") *)

Definition msPerSecond : Z := 1000.
Definition msPerMinute : Z := 60000.
Definition msPerHour : Z := 3600000.
Definition msPerDay : Z := 86400000.
Definition maxTime : Z := 8640000000000000.

Definition Day (t : Z) : Z := t / msPerDay.
Definition TimeWithinDay (t : Z) : Z := t mod msPerDay.

Definition DaysInYear (y : Z) : Z :=
  if negb (y mod 4 =? 0) then 365
  else if negb (y mod 100 =? 0) then 366
  else if negb (y mod 400 =? 0) then 365
  else 366.

Definition DayFromYear (y : Z) : Z :=
  365 * (y - 1970) + (y - 1969) / 4 - (y - 1901) / 100 + (y - 1601) / 400.

Definition TimeFromYear (y : Z) : Z := msPerDay * DayFromYear y.

(** The year whose first day is the last one not after day [d]: the
    estimate from the mean year length is off by at most one. *)
Definition YearFromDay (d : Z) : Z :=
  let y := 1970 + (d * 400) / 146097 in
  if d <? DayFromYear y then y - 1
  else if DayFromYear (y + 1) <=? d then y + 1
  else y.

Definition YearFromTime (t : Z) : Z := YearFromDay (Day t).

Definition InLeapYear (t : Z) : Z :=
  if DaysInYear (YearFromTime t) =? 366 then 1 else 0.

Definition DayWithinYear (t : Z) : Z := Day t - DayFromYear (YearFromTime t).

(** Number of days of the year before month [m] (0 = January). *)
Definition monthStart (leap m : Z) : Z :=
  match m with
  | 0 => 0
  | 1 => 31
  | 2 => 59 + leap
  | 3 => 90 + leap
  | 4 => 120 + leap
  | 5 => 151 + leap
  | 6 => 181 + leap
  | 7 => 212 + leap
  | 8 => 243 + leap
  | 9 => 273 + leap
  | 10 => 304 + leap
  | _ => 334 + leap
  end.

Definition monthOfDay (leap dwy : Z) : Z :=
  if dwy <? 31 then 0
  else if dwy <? 59 + leap then 1
  else if dwy <? 90 + leap then 2
  else if dwy <? 120 + leap then 3
  else if dwy <? 151 + leap then 4
  else if dwy <? 181 + leap then 5
  else if dwy <? 212 + leap then 6
  else if dwy <? 243 + leap then 7
  else if dwy <? 273 + leap then 8
  else if dwy <? 304 + leap then 9
  else if dwy <? 334 + leap then 10
  else 11.

(** Length of month [m] (0 = January) of year [y]. *)
Definition DaysInMonth (y m : Z) : Z :=
  match m with
  | 1 => if DaysInYear y =? 366 then 29 else 28
  | 3 | 5 | 8 | 10 => 30
  | _ => 31
  end.

Definition MonthFromTime (t : Z) : Z := monthOfDay (InLeapYear t) (DayWithinYear t).

Definition DateFromTime (t : Z) : Z :=
  DayWithinYear t - monthStart (InLeapYear t) (MonthFromTime t) + 1.

Definition HourFromTime (t : Z) : Z := (t / msPerHour) mod 24.
Definition MinFromTime (t : Z) : Z := (t / msPerMinute) mod 60.
Definition SecFromTime (t : Z) : Z := (t / msPerSecond) mod 60.
Definition msFromTime (t : Z) : Z := t mod msPerSecond.

Definition MakeTime (hour min sec ms : Z) : Z :=
  hour * msPerHour + min * msPerMinute + sec * msPerSecond + ms.

(** [MakeDay]: the day number of the first of month [month mod 12] of year
    [year + floor (month / 12)], plus [date - 1]. *)
Definition MakeDay (year month date : Z) : Z :=
  let ym := year + month / 12 in
  let mn := month mod 12 in
  let leap := if DaysInYear ym =? 366 then 1 else 0 in
  DayFromYear ym + monthStart leap mn + date - 1.

Definition MakeDate (day time : Z) : Z := day * msPerDay + time.

(** A Date object holds a time value or NaN ([None]). *)
Definition Date := option Z.

Definition TimeClip (t : Z) : Date :=
  if maxTime <? Z.abs t then None else Some t.

(** *** Strings *)

(** WhiteSpace and LineTerminator code points: what [trim] strips and what
    the regular expression class [\s] matches. *)
Definition is_white_space (c : code_unit) : bool :=
  ((9 <=? c) && (c <=? 13) || (c =? 32) || (c =? 160) || (c =? 5760)
   || (8192 <=? c) && (c <=? 8202) || (c =? 8232) || (c =? 8233)
   || (c =? 8239) || (c =? 8287) || (c =? 12288) || (c =? 65279))%N.

Fixpoint trimStart (s : jsstring) : jsstring :=
  match s with
  | c :: r => if is_white_space c then trimStart r else s
  | [] => []
  end.

Definition trimEnd (s : jsstring) : jsstring := rev (trimStart (rev s)).
Definition trim (s : jsstring) : jsstring := trimEnd (trimStart s).

(** The regular expression class [\d] (no unicode flag): 0-9. *)
Definition is_digit (c : code_unit) : bool := ((48 <=? c) && (c <=? 57))%N.
Definition digit_value (c : code_unit) : Z := Z.of_N c - 48.

(** [Number] applied to a string of decimal digits. *)
Definition Number_of_digits (ds : jsstring) : Z :=
  fold_left (fun acc c => 10 * acc + digit_value c) ds 0.

Fixpoint startsWith (p s : jsstring) : bool :=
  match p, s with
  | [], _ => true
  | a :: p', b :: s' => (a =? b)%N && startsWith p' s'
  | _ :: _, [] => false
  end.

(** String literals of the source, written in UTF-8 in this file, as the
    code units the program sees. *)
Fixpoint utf16_of_utf8 (bs : list N) : jsstring :=
  match bs with
  | [] => []
  | b0 :: r0 =>
    if (b0 <? 128)%N then b0 :: utf16_of_utf8 r0
    else match r0 with
    | [] => [65533%N]
    | b1 :: r1 =>
      if (b0 <? 224)%N then ((b0 - 192) * 64 + (b1 - 128))%N :: utf16_of_utf8 r1
      else match r1 with
      | [] => [65533%N]
      | b2 :: r2 =>
        if (b0 <? 240)%N
        then ((b0 - 224) * 4096 + (b1 - 128) * 64 + (b2 - 128))%N :: utf16_of_utf8 r2
        else match r2 with
        | [] => [65533%N]
        | b3 :: r3 =>
          let cp := ((b0 - 240) * 262144 + (b1 - 128) * 4096
                     + (b2 - 128) * 64 + (b3 - 128) - 65536)%N in
          (55296 + cp / 1024)%N :: (56320 + cp mod 1024)%N :: utf16_of_utf8 r3
        end
      end
    end
  end.

Definition lit (s : string) : jsstring :=
  utf16_of_utf8 (map N_of_ascii (list_ascii_of_string s)).
Arguments lit : simpl never.

(** [n] written with exactly [width] decimal digits (0 <= n < 10^width). *)
Fixpoint pad (width : nat) (n : Z) : jsstring :=
  match width with
  | O => []
  | S w => pad w (n / 10) ++ [Z.to_N (48 + n mod 10)]
  end.

(** Number-to-string conversion of an integer, as in a template literal. *)
Definition ToString (n : Z) : jsstring :=
  lit (DecimalString.NilZero.string_of_int (Z.to_int n)).

(** [String(x)] and template interpolation of a number; [None] is NaN. *)
Definition String_of_number (x : option Z) : jsstring :=
  match x with
  | None => lit "NaN"
  | Some n => ToString n
  end.

(** [s.padStart(maxLength, filler)] *)
Definition padStart (s : jsstring) (maxLength : nat) (filler : jsstring)
  : jsstring :=
  if (maxLength <=? length s)%nat then s
  else
    match filler with
    | [] => s
    | _ :: _ =>
      let fillLen := (maxLength - length s)%nat in
      take fillLen (concat (repeat filler fillLen)) ++ s
    end.

(** [Math.ceil (a / b)] for integers [a] and [b > 0]. *)
Definition ceil_div (a b : Z) : Z := - ((- a) / b).

(** *** Date objects *)

(** [toISOString]: the UTC fields, or a RangeError on an invalid date. *)
Definition toISOString (d : Date) : completion jsstring :=
  match d with
  | None => ThrowRangeError
  | Some t =>
    let y := YearFromTime t in
    let year :=
      if (0 <=? y) && (y <=? 9999) then pad 4 y
      else (if y <? 0 then lit "-" else lit "+") ++ pad 6 (Z.abs y) in
    Normal (year ++ lit "-" ++ pad 2 (MonthFromTime t + 1) ++ lit "-"
            ++ pad 2 (DateFromTime t) ++ lit "T" ++ pad 2 (HourFromTime t)
            ++ lit ":" ++ pad 2 (MinFromTime t) ++ lit ":"
            ++ pad 2 (SecFromTime t) ++ lit "." ++ pad 3 (msFromTime t)
            ++ lit "Z")
  end.

(** The year a Date built from fields takes for [year]. *)
Definition full_year (year : Z) : Z :=
  if (0 <=? year) && (year <=? 99) then 1900 + year else year.

(** [new Date(value)] *)
Definition Date_of_value (v : Z) : Date := TimeClip v.

Section LocalTime.

(** Offset of local time from UTC, in milliseconds (a zone without
    daylight saving changes; Asia/Seoul is [9 * msPerHour]). *)
Variable tza : Z.

Definition LocalTime (t : Z) : Z := t + tza.
Definition UTC (t : Z) : Z := t - tza.

(** [new Date(year, month, date, hours, minutes, seconds, ms)]: years 0 to
    99 stand for 1900 to 1999. *)
Definition Date_of_fields (year month date hours minutes seconds ms : Z) : Date :=
  let yr := full_year year in
  TimeClip (UTC (MakeDate (MakeDay yr month date)
                          (MakeTime hours minutes seconds ms))).

(** [getDate()]; [None] is NaN. *)
Definition getDate (d : Date) : option Z :=
  match d with
  | None => None
  | Some t => Some (DateFromTime (LocalTime t))
  end.

(** [getFullYear()] and [getMonth()]; [None] is NaN. *)
Definition getFullYear (d : Date) : option Z :=
  match d with
  | None => None
  | Some t => Some (YearFromTime (LocalTime t))
  end.

Definition getMonth (d : Date) : option Z :=
  match d with
  | None => None
  | Some t => Some (MonthFromTime (LocalTime t))
  end.

(** [setDate(dt)] *)
Definition setDate (d : Date) (dt : option Z) : Date :=
  match d, dt with
  | Some t0, Some n =>
    let t := LocalTime t0 in
    TimeClip (UTC (MakeDate (MakeDay (YearFromTime t) (MonthFromTime t) n)
                            (TimeWithinDay t)))
  | _, _ => None
  end.

(** [setHours(hour, min, sec, ms)] *)
Definition setHours (d : Date) (hour min sec ms : Z) : Date :=
  match d with
  | None => None
  | Some t0 =>
    let t := LocalTime t0 in
    TimeClip (UTC (MakeDate (Day t) (MakeTime hour min sec ms)))
  end.

End LocalTime.

End JS.

(* ===================================================================== *)
(** ** Upload page: the made-at validator *)
(* ===================================================================== *)

Module Upload.
Import JS.

(** [(\d{n})]: exactly [n] digits at the head; the group and the rest. *)
Fixpoint take_digits (n : nat) (s : jsstring) : option (jsstring * jsstring) :=
  match n with
  | O => Some ([], s)
  | S n' =>
    match s with
    | c :: r =>
      if is_digit c
      then '(ds, rest) ← take_digits n' r; Some (c :: ds, rest)
      else None
    | [] => None
    end
  end.

(** One literal character. *)
Definition take_char (c : code_unit) (s : jsstring) : option jsstring :=
  match s with
  | a :: r => if (a =? c)%N then Some r else None
  | [] => None
  end.

(** [\s+] followed by a digit: greedy, at least one. *)
Definition take_spaces (s : jsstring) : option jsstring :=
  match s with
  | c :: r => if is_white_space c then Some (trimStart r) else None
  | [] => None
  end.

(** [/^(\d{4})-(\d{2})-(\d{2})\s+(\d{2}):(\d{2})$/.exec(t)]: the five
    groups, or [None] for null. *)
Definition made_at_regex_exec (t : jsstring)
  : option (jsstring * jsstring * jsstring * jsstring * jsstring) :=
  '(g1, r) ← take_digits 4 t;
  r ← take_char 45%N r;
  '(g2, r) ← take_digits 2 r;
  r ← take_char 45%N r;
  '(g3, r) ← take_digits 2 r;
  r ← take_spaces r;
  '(g4, r) ← take_digits 2 r;
  r ← take_char 58%N r;
  '(g5, r) ← take_digits 2 r;
  match r with
  | [] => Some (g1, g2, g3, g4, g5)
  | _ :: _ => None
  end.

Record result := { iso : option jsstring; error : option jsstring }.

Definition err_pattern : jsstring := 
  Eval vm_compute in lit "형식은 YYYY-MM-DD 24:00 입니다.".
Definition err_month : jsstring := 
  Eval vm_compute in lit "월(mm)이 올바르지 않습니다.".
Definition err_day : jsstring := 
  Eval vm_compute in lit "일(dd)이 올바르지 않습니다.".
Definition err_minutes : jsstring := 
  Eval vm_compute in lit "분은 00만 허용합니다. (예: 24:00)".
Definition err_hours : jsstring := 
  Eval vm_compute in lit "시간은 00~24만 허용합니다.".
Definition err_date : jsstring := 
  Eval vm_compute in lit "날짜가 올바르지 않습니다.".

Definition rejected (msg : jsstring) : result :=
  {| iso := None; error := Some msg |}.

Section LocalTime.
Variable tza : Z.

(** [formatNowForInput()]; [now] is the instant of [new Date()]. *)
Definition formatNowForInput (now : Z) : jsstring :=
  let d := Date_of_value now in
  let yyyy := getFullYear tza d in
  let mm := padStart (String_of_number ((fun m => m + 1) <$> getMonth tza d)) 2
             (lit "0") in
  let dd := padStart (String_of_number (getDate tza d)) 2 (lit "0") in
  String_of_number yyyy ++ lit "-" ++ mm ++ lit "-" ++ dd ++ lit " 24:00".

Definition parseArtworkMadeAt (input : jsstring) : completion result :=
  let t := trim input in
  match made_at_regex_exec t with
  | None => Normal (rejected err_pattern)
  | Some (m1, m2, m3, m4, m5) =>
    let yyyy := Number_of_digits m1 in
    let mm := Number_of_digits m2 in
    let dd := Number_of_digits m3 in
    let hh := Number_of_digits m4 in
    let mi := Number_of_digits m5 in
    if (mm <? 1) || (12 <? mm) then Normal (rejected err_month)
    else if (dd <? 1) || (31 <? dd) then Normal (rejected err_day)
    else if negb (mi =? 0) then Normal (rejected err_minutes)
    else if negb ((hh =? 24) || ((0 <=? hh) && (hh <=? 23)))
    then Normal (rejected err_hours)
    else
      let base := Date_of_fields tza yyyy (mm - 1) dd 0 0 0 0 in
      match base with
      | None => Normal (rejected err_date)
      | Some _ =>
        let '(base, hh) :=
          if hh =? 24
          then (setDate tza base (Z.add 1 <$> getDate tza base), 0)
          else (base, hh) in
        let base := setHours tza base hh 0 0 0 in
        match toISOString base with
        | Normal s => Normal {| iso := Some s; error := None |}
        | ThrowRangeError => ThrowRangeError
        end
      end
  end.

(** *** The upload form and its handler *)

(** A [File]: only its name is read. *)
Record File := { file_name : jsstring }.

Inductive tone := tone_ok | tone_err | tone_info.

Record UploadForm := {
  kidName : jsstring;
  title : jsstring;
  file : option File;
  useNow : bool;
  madeAtInput : jsstring;
  madeAtError : option jsstring;
  busy : bool;
  msg : jsstring;
  msgTone : tone;
  preview : option jsstring;
  redirectIn : option Z
}.

(** The row that the page inserts into [artworks]. *)
Record NewArtwork := {
  family_id : jsstring;
  kid_name : jsstring;
  new_title : jsstring;
  private_image_path : jsstring;
  public_image_path : jsstring;
  is_public : bool;
  artwork_made_at : jsstring
}.

(** What [upload] does outside the form, in order. *)
Inductive effect :=
| alert (text : jsstring)
| select_profile
| storage_upload (filePath : jsstring)
| insert_artwork (row : NewArtwork).

(** The answer to [from("profiles").select("family_id").single()]:
    [prof_family] is [None] when there is no row and [Some None] when the
    row has a null [family_id]. *)
Record profile_response := {
  prof_family : option (option jsstring);
  prof_error : option jsstring
}.

Definition truthy (s : jsstring) : bool :=
  match s with
  | [] => false
  | _ :: _ => true
  end.

(** [canSubmit] *)
Definition canSubmit (f : UploadForm) : bool :=
  if negb (truthy (trim (kidName f))) || negb (truthy (trim (title f)))
     || negb (bool_decide (is_Some (file f)))
  then false
  else if negb (useNow f)
          && match madeAtError f with
             | Some e => truthy e
             | None => false
             end
  then false
  else true.

(** [name.split(".").pop()]: what follows the last dot, the whole name
    when it has none. *)
Fixpoint after_last_dot (s : jsstring) : jsstring :=
  match s with
  | [] => []
  | c :: r =>
    if existsb (N.eqb 46) r then after_last_dot r
    else if (c =? 46)%N then r else s
  end.

(** The effect on [useNow] and [madeAtInput]: it keeps [madeAtError]. *)
Definition setMadeAtError (e : option jsstring) (f : UploadForm) : UploadForm :=
  {| kidName := kidName f; title := title f; file := file f;
     useNow := useNow f; madeAtInput := madeAtInput f;
     madeAtError := e; busy := busy f; msg := msg f; msgTone := msgTone f;
     preview := preview f; redirectIn := redirectIn f |}.

Definition madeAtError_effect (f : UploadForm) : completion UploadForm :=
  if useNow f then Normal (setMadeAtError None f)
  else
    match parseArtworkMadeAt (madeAtInput f) with
    | Normal parsed => Normal (setMadeAtError (error parsed) f)
    | ThrowRangeError => ThrowRangeError
    end.

(** One run of the effect on [redirectIn]: nothing, the move to the
    manage page, or a timer whose callback sets [redirectIn] to [next]. *)
Inductive redirect_action :=
| no_action
| router_replace (path : jsstring)
| setTimeout_tick (delay : Z) (next : option Z).

Definition redirect_effect (redirectIn : option Z) : redirect_action :=
  match redirectIn with
  | None => no_action
  | Some v =>
    if v <=? 0 then router_replace (lit "/manage")
    else setTimeout_tick 1000 (Some (v - 1))
  end.

(** The effect runs again each time a timer has changed [redirectIn]:
    the delays waited and the page moved to, if any. [None] when [fuel]
    runs of the effect do not reach the end. *)
Fixpoint countdown (fuel : nat) (redirectIn : option Z)
  : option (list Z * option jsstring) :=
  match fuel with
  | O => None
  | S fuel =>
    match redirect_effect redirectIn with
    | no_action => Some ([], None)
    | router_replace path => Some ([], Some path)
    | setTimeout_tick delay next =>
      '(waited, path) ← countdown fuel next;
      Some (delay :: waited, path)
    end
  end.

Section Handler.

Variable getPublicUrl : jsstring -> jsstring.
(** The instants of [new Date()], of [Date.now()] for the file path and of
    the [new Date()] of the reset; [random_hex] is
    [Math.random().toString(16).slice(2)]. *)
Variables now1 now2 now3 : Z.
Variable random_hex : jsstring.

(** How [upload] ends: it returns, or its promise rejects with a
    RangeError. [canSubmit] makes sure that there is a file when its name
    is read. *)
Inductive upload_outcome :=
| Uploaded (f : UploadForm) (effects : list effect)
| UploadRejected (f : UploadForm) (effects : list effect).

Definition with_busy (b : bool) (t : tone) (m : jsstring) (f : UploadForm)
  : UploadForm :=
  {| kidName := kidName f; title := title f; file := file f;
     useNow := useNow f; madeAtInput := madeAtInput f;
     madeAtError := madeAtError f; busy := b; msg := m; msgTone := t;
     preview := preview f; redirectIn := redirectIn f |}.

Definition upload (prof : profile_response) (up_err db_err : option jsstring)
  (f : UploadForm) : upload_outcome :=
  if negb (canSubmit f)
  then Uploaded f
         [alert (lit "아이 이름, 제목, 사진 파일을 입력하고 작품제작일 형식을 확인해줘.")]
  else
    let made_at : completion (jsstring + jsstring) :=
      if useNow f
      then match toISOString (Date_of_value now1) with
           | Normal s => Normal (inl s)
           | ThrowRangeError => ThrowRangeError
           end
      else match parseArtworkMadeAt (madeAtInput f) with
           | ThrowRangeError => ThrowRangeError
           | Normal parsed =>
             let no_iso := match iso parsed with
                           | Some s => negb (truthy s)
                           | None => true
                           end in
             let has_error := match error parsed with
                              | Some e => truthy e
                              | None => false
                              end in
             if has_error || no_iso
             then Normal (inr (default (lit "작품제작일 형식이 올바르지 않습니다.")
                                       (error parsed)))
             else Normal (inl (default [] (iso parsed)))
           end in
    match made_at with
    | ThrowRangeError => UploadRejected f []
    | Normal (inr text) => Uploaded f [alert text]
    | Normal (inl artwork_made_at) =>
      let f := with_busy true tone_info (lit "업로드 중...") f in
      let family :=
        match prof_error prof, prof_family prof with
        | None, Some (Some fam) => if truthy fam then Some fam else None
        | _, _ => None
        end in
      match family with
      | None =>
        Uploaded
          (with_busy false tone_err
             (lit "❌ 가족 정보(profiles)가 없어서 저장할 수 없어. 로그인 상태를 확인해줘.") f)
          [select_profile]
      | Some fam =>
        let name := match file f with
                    | Some fl => file_name fl
                    | None => []
                    end in
        let ext := if truthy (after_last_dot name) then after_last_dot name
                   else lit "jpg" in
        let filePath :=
          ToString now2 ++ lit "-" ++ random_hex ++ lit "." ++ ext in
        match up_err with
        | Some message =>
          Uploaded (with_busy false tone_err
                      (lit "❌ 업로드 실패: " ++ message) f)
                   [select_profile; storage_upload filePath]
        | None =>
          let publicUrl := getPublicUrl filePath in
          let row :=
            {| family_id := fam; kid_name := trim (kidName f);
               new_title := trim (title f);
               private_image_path := publicUrl;
               public_image_path := publicUrl;
               is_public := false;
               artwork_made_at := artwork_made_at |} in
          let sent := [select_profile; storage_upload filePath;
                       insert_artwork row] in
          match db_err with
          | Some message =>
            Uploaded (with_busy false tone_err
                        (lit "❌ DB 저장 실패: " ++ message) f)
                     sent
          | None =>
            Uploaded
              {| kidName := []; title := []; file := None; useNow := true;
                 madeAtInput := formatNowForInput now3;
                 madeAtError := madeAtError f; busy := false;
                 msg := lit "✅ 업로드 완료! 곧 가족 전시관으로 이동해요.";
                 msgTone := tone_ok; preview := None;
                 redirectIn := Some 2 |}
              sent
          end
        end
      end
    end.

End Handler.

End LocalTime.

(** The shape [YYYY-MM-DD HH:MM] in words: five groups of digits, the
    separators, and a non-empty run of white space before the time. *)
Definition all_digits (n : nat) (g : jsstring) : Prop :=
  length g = n /\ Forall (fun c => is_digit c = true) g.

Definition made_at_pattern (t Y M D H MI : jsstring) : Prop :=
  exists ws : jsstring,
    t = Y ++ [45%N] ++ M ++ [45%N] ++ D ++ ws ++ H ++ [58%N] ++ MI
    /\ all_digits 4 Y /\ all_digits 2 M /\ all_digits 2 D
    /\ all_digits 2 H /\ all_digits 2 MI
    /\ ws <> [] /\ Forall (fun c => is_white_space c = true) ws.

(** The rules applied to the fields of a well-shaped input, in the order
    of the list [field_rules]. *)
Inductive rule := MonthRule | DayRule | MinutesRule | HoursRule.

Definition field_rules : list rule := [MonthRule; DayRule; MinutesRule; HoursRule].

Definition rule_holds (r : rule) (mm dd hh mi : Z) : bool :=
  match r with
  | MonthRule => (1 <=? mm) && (mm <=? 12)
  | DayRule => (1 <=? dd) && (dd <=? 31)
  | MinutesRule => mi =? 0
  | HoursRule => ((0 <=? hh) && (hh <=? 23)) || (hh =? 24)
  end.

Definition rule_message (r : rule) : jsstring :=
  match r with
  | MonthRule => err_month
  | DayRule => err_day
  | MinutesRule => err_minutes
  | HoursRule => err_hours
  end.

Definition first_broken_rule (mm dd hh mi : Z) : option rule :=
  find (fun r => negb (rule_holds r mm dd hh mi)) field_rules.

End Upload.

(* ===================================================================== *)
(** ** Manage page: expiry, token, publish / extend / delete *)
(* ===================================================================== *)

Module Manage.
Import JS.

Record Artwork := {
  id : jsstring;
  kid_name : jsstring;
  title : jsstring;
  private_image_path : jsstring;
  created_at : jsstring;
  is_public : bool;
  public_until : option jsstring;
  artwork_made_at : option jsstring
}.

Definition TWO_WEEKS_MS : Z := 14 * 24 * 60 * 60 * 1000.

Definition toISO (d : Date) : completion jsstring := toISOString d.

(** Truthiness of a string, and of a [string | null]. *)
Definition truthy (s : jsstring) : bool :=
  match s with
  | [] => false
  | _ :: _ => true
  end.

Definition truthy_opt (s : option jsstring) : bool :=
  match s with
  | None => false
  | Some v => truthy v
  end.

(** The computed visibility state; [StatusBadge] shows it. *)
Inductive visibility := Private | PublicExpired | PublicActive.

Definition badge_text (v : visibility) : jsstring :=
  match v with
  | Private => lit "비공개"
  | PublicExpired => lit "전시만료"
  | PublicActive => lit "공개중"
  end.

Section Clock.

(** [new Date(iso).getTime()] for a string; [None] is NaN. *)
Variable Date_parse : jsstring -> option Z.
(** [Date.now()] *)
Variable now : Z.

Definition isExpired (art : Artwork) : bool :=
  if negb (is_public art) then false
  else
    match public_until art with
    | None => false
    | Some iso =>
      if negb (truthy iso) then false
      else
        match Date_parse iso with
        | Some t => t <=? now
        | None => false
        end
    end.

Definition StatusBadge (art : Artwork) : visibility :=
  let expired := isExpired art in
  if negb (is_public art) then Private
  else if expired then PublicExpired
  else PublicActive.

(** Per card, in the list rendering. *)
Definition card_busy (busyId : option jsstring) (a : Artwork) : bool :=
  bool_decide (busyId = Some (id a)).

Definition extendEnabled (a : Artwork) : bool :=
  let expired := isExpired a in
  is_public a && expired.

(** The [disabled] attribute of the extend button. *)
Definition extend_button_disabled (busyId : option jsstring) (a : Artwork) : bool :=
  negb (extendEnabled a) || card_busy busyId a.

End Clock.

(** *** Invite token *)

Definition alphabet : jsstring :=
  Eval vm_compute in
    lit "ABCDEFGHJKLMNPQRSTUVWXYZabcdefghijkmnopqrstuvwxyz23456789".

(** [s[i]] appended to a string: out of range it is [undefined]. *)
Definition char_at (s : jsstring) (i : N) : jsstring :=
  match nth_error s (N.to_nat i) with
  | Some c => [c]
  | None => lit "undefined"
  end.

(** The symbol one random byte selects. *)
Definition token_symbol (b : byte) : jsstring :=
  char_at alphabet (Byte.to_N b mod N.of_nat (length alphabet)).

(** [makeToken(len)]; [random i] is the byte that
    [crypto.getRandomValues] puts at index [i]. *)
Definition makeToken (random : nat -> byte) (len : nat) : jsstring :=
  let bytes := map random (seq 0 len) in
  fold_left (fun out b => out ++ token_symbol b) bytes [].

(** *** Page state and the remote service *)

Record Page := {
  items : list Artwork;
  msg : jsstring;
  busyId : option jsstring;
  myFamilyId : option jsstring;
  (** delays of the pending [setTimeout(() => setMsg(""), delay)] *)
  timers : list Z
}.

Definition setItems (v : list Artwork) (pg : Page) : Page :=
  {| items := v; msg := msg pg; busyId := busyId pg;
     myFamilyId := myFamilyId pg; timers := timers pg |}.
Definition setMsg (v : jsstring) (pg : Page) : Page :=
  {| items := items pg; msg := v; busyId := busyId pg;
     myFamilyId := myFamilyId pg; timers := timers pg |}.
Definition setBusyId (v : option jsstring) (pg : Page) : Page :=
  {| items := items pg; msg := msg pg; busyId := v;
     myFamilyId := myFamilyId pg; timers := timers pg |}.
Definition setTimeout_clearMsg (delay : Z) (pg : Page) : Page :=
  {| items := items pg; msg := msg pg; busyId := busyId pg;
     myFamilyId := myFamilyId pg; timers := timers pg ++ [delay] |}.

(** The requests the page sends, in the order it sends them. *)
Inductive call :=
| UpdateArtwork (art_id : jsstring) (payload_is_public : bool)
                (payload_public_until : option jsstring)
| DeleteArtwork (art_id : jsstring)
| RemoveObject (path : jsstring)
| SelectArtworks (family_id : jsstring).

(** The hosted service: the [artworks] table by record id, the objects of
    the [artworks] bucket, and the log of requests received. *)
Record World := {
  artworks : gmap jsstring Artwork;
  bucket : gset jsstring;
  log : list call
}.

Definition with_payload (p_public : bool) (p_until : option jsstring)
  (r : Artwork) : Artwork :=
  {| id := id r; kid_name := kid_name r; title := title r;
     private_image_path := private_image_path r; created_at := created_at r;
     is_public := p_public; public_until := p_until;
     artwork_made_at := artwork_made_at r |}.

(** [from("artworks").update(payload).eq("id", id)]; [err] is the error
    the service answers ([None]: success). A refused request changes
    nothing. *)
Definition remote_update (err : option jsstring) (art_id : jsstring)
  (p_public : bool) (p_until : option jsstring) (w : World) : World :=
  {| artworks :=
       match err with
       | None => alter (with_payload p_public p_until) art_id (artworks w)
       | Some _ => artworks w
       end;
     bucket := bucket w;
     log := log w ++ [UpdateArtwork art_id p_public p_until] |}.

(** [from("artworks").delete().eq("id", id)] *)
Definition remote_delete (err : option jsstring) (art_id : jsstring)
  (w : World) : World :=
  {| artworks :=
       match err with
       | None => delete art_id (artworks w)
       | Some _ => artworks w
       end;
     bucket := bucket w;
     log := log w ++ [DeleteArtwork art_id] |}.

(** [storage.from("artworks").remove([path])] *)
Definition remote_remove (err : option jsstring) (path : jsstring)
  (w : World) : World :=
  {| artworks := artworks w;
     bucket :=
       match err with
       | None => bucket w ∖ {[ path ]}
       | Some _ => bucket w
       end;
     log := log w ++ [RemoveObject path] |}.

(** The answer to the select of [load]: [data] and [error]. *)
Record select_response := {
  data : option (list Artwork);
  error : option jsstring
}.

Definition remote_select (family_id : jsstring) (w : World) : World :=
  {| artworks := artworks w; bucket := bucket w;
     log := log w ++ [SelectArtworks family_id] |}.

(** How an async handler ends: it returns, or its promise rejects with the
    RangeError of [toISOString]. *)
Inductive outcome :=
| Done (pg : Page) (w : World)
| Rejected (pg : Page) (w : World).

Definition load (resp : select_response) (familyId : jsstring)
  (pg : Page) (w : World) : Page * World :=
  let pg := setMsg (lit "불러오는 중...") pg in
  let w := remote_select familyId w in
  match error resp with
  | Some message => (setMsg (lit "❌ 조회 실패: " ++ message) pg, w)
  | None =>
    let pg := setItems (default [] (data resp)) pg in
    (setMsg [] pg, w)
  end.

Section Handlers.

Variable now : Z.

(** After a successful update: [if (myFamilyId) await load(myFamilyId)],
    then the busy mark and the message are cleared. *)
Definition reload_and_finish (load_resp : select_response)
  (pg : Page) (w : World) : outcome :=
  let '(pg, w) :=
    match myFamilyId pg with
    | Some f => if truthy f then load load_resp f pg w else (pg, w)
    | None => (pg, w)
    end in
  let pg := setBusyId None pg in
  Done (setMsg [] pg) w.

Definition togglePublic (upd_err : option jsstring)
  (load_resp : select_response) (art : Artwork) (pg : Page) (w : World)
  : outcome :=
  let next := negb (is_public art) in
  let pg := setBusyId (Some (id art)) pg in
  let pg := setMsg (lit "변경 중...") pg in
  let payload_until : completion (option jsstring) :=
    if next
    then match toISO (Date_of_value (now + TWO_WEEKS_MS)) with
         | Normal s => Normal (Some s)
         | ThrowRangeError => ThrowRangeError
         end
    else Normal None in
  match payload_until with
  | ThrowRangeError => Rejected pg w
  | Normal p_until =>
    let w := remote_update upd_err (id art) next p_until w in
    match upd_err with
    | Some message =>
      let pg := setMsg (lit "❌ 변경 실패: " ++ message) pg in
      Done (setBusyId None pg) w
    | None => reload_and_finish load_resp pg w
    end
  end.

Definition extendTwoWeeks (upd_err : option jsstring)
  (load_resp : select_response) (art : Artwork) (pg : Page) (w : World)
  : outcome :=
  let pg := setBusyId (Some (id art)) pg in
  let pg := setMsg (lit "기간 연장 중...") pg in
  match toISO (Date_of_value (now + TWO_WEEKS_MS)) with
  | ThrowRangeError => Rejected pg w
  | Normal s =>
    let w := remote_update upd_err (id art) true (Some s) w in
    match upd_err with
    | Some message =>
      let pg := setMsg (lit "❌ 연장 실패: " ++ message) pg in
      Done (setBusyId None pg) w
    | None => reload_and_finish load_resp pg w
    end
  end.

End Handlers.

Section Delete.

(** The [try { new URL(raw) ... } catch { ... }] part of
    [getStoragePathFromPrivateImagePath], a function of the built-in URL
    parser and [decodeURIComponent]. *)
Variable url_storage_path : jsstring -> jsstring.

Definition getStoragePathFromPrivateImagePath (privateImagePath : jsstring)
  : jsstring :=
  let raw := trim privateImagePath in
  if negb (truthy raw) then []
  else if negb (startsWith (lit "http://") raw)
          && negb (startsWith (lit "https://") raw) then raw
  else url_storage_path raw.

(** [confirmed] is the answer to the confirm dialog; [st_err] and [db_err]
    are the errors of the storage and of the database request. *)
Definition deleteArtwork (confirmed : bool) (st_err db_err : option jsstring)
  (art : Artwork) (pg : Page) (w : World) : Page * World :=
  if negb confirmed then (pg, w)
  else
    let pg := setBusyId (Some (id art)) pg in
    let pg := setMsg (lit "삭제 중...") pg in
    let storagePath := getStoragePathFromPrivateImagePath (private_image_path art) in
    let '(pg, w) :=
      if truthy storagePath
      then
        let w := remote_remove st_err storagePath w in
        match st_err with
        | Some message =>
          (setMsg (lit "⚠️ 사진 삭제 실패(그래도 DB는 지울게): " ++ message) pg, w)
        | None => (pg, w)
        end
      else (setMsg (lit "⚠️ 사진 경로를 못 찾아서 DB만 지울게요.") pg, w) in
    let w := remote_delete db_err (id art) w in
    match db_err with
    | Some message =>
      let pg := setMsg (lit "❌ DB 삭제 실패: " ++ message) pg in
      (setBusyId None pg, w)
    | None =>
      let pg :=
        setItems (filter (fun x => id x <> id art) (items pg)) pg in
      let pg := setBusyId None pg in
      let pg := setMsg (lit "✅ 삭제 완료") pg in
      (setTimeout_clearMsg 1200 pg, w)
    end.

End Delete.

(** *** Invite code and guestbook *)

Record Entry := {
  entry_id : jsstring;
  display_name : jsstring;
  content : jsstring;
  entry_created_at : jsstring
}.

(** The states [inviteToken], [inviteBusy], [entries] and
    [guestbookBusy] of the page, next to [Page]. *)
Record Panel := {
  inviteToken : jsstring;
  inviteBusy : bool;
  entries : list Entry;
  guestbookBusy : bool
}.

Definition setInviteToken (v : jsstring) (pn : Panel) : Panel :=
  {| inviteToken := v; inviteBusy := inviteBusy pn; entries := entries pn;
     guestbookBusy := guestbookBusy pn |}.
Definition setInviteBusy (v : bool) (pn : Panel) : Panel :=
  {| inviteToken := inviteToken pn; inviteBusy := v; entries := entries pn;
     guestbookBusy := guestbookBusy pn |}.
Definition setEntries (v : list Entry) (pn : Panel) : Panel :=
  {| inviteToken := inviteToken pn; inviteBusy := inviteBusy pn; entries := v;
     guestbookBusy := guestbookBusy pn |}.
Definition setGuestbookBusy (v : bool) (pn : Panel) : Panel :=
  {| inviteToken := inviteToken pn; inviteBusy := inviteBusy pn;
     entries := entries pn; guestbookBusy := v |}.
Definition setMyFamilyId (v : option jsstring) (pg : Page) : Page :=
  {| items := items pg; msg := msg pg; busyId := busyId pg;
     myFamilyId := v; timers := timers pg |}.

(** The requests of this part of the page. *)
Inductive invite_call :=
| auth_getUser
| select_profile (user_id : jsstring)
| upsert_profile (user_id family_id invite_token : jsstring)
| get_guestbook_entries_by_token (p_token : jsstring)
| delete_guestbook_entry (p_id : jsstring).

(** The answer of [auth.getUser()]: [u.user?.id] and the error. *)
Record user_response := {
  user_id_of : option jsstring;
  user_error : option jsstring
}.

Record profile_row := {
  row_family_id : option jsstring;
  row_invite_token : option jsstring
}.

(** The answer of the profile select with [maybeSingle()]. *)
Record profile_response := {
  profile_data : option profile_row;
  profile_error : option jsstring
}.

(** The answer of the upsert followed by a select. *)
Record upsert_response := {
  upsert_data : option (list profile_row);
  upsert_error : option jsstring
}.

Record guestbook_response := {
  guestbook_data : option (list Entry);
  guestbook_error : option jsstring
}.

(** The result of [fetchMyProfile]. *)
Record my_profile := {
  family_id : option jsstring;
  invite_token : option jsstring;
  uid : option jsstring;
  profile_failure : option jsstring
}.

Definition fetchMyProfile (u : user_response) (p : profile_response)
  : my_profile * list invite_call :=
  let uid := user_id_of u in
  if bool_decide (is_Some (user_error u)) || negb (truthy_opt uid)
  then ({| family_id := None; invite_token := None; uid := None;
           profile_failure := Some (lit "로그인 사용자 정보를 찾지 못했어요.") |},
        [auth_getUser])
  else
    let calls := [auth_getUser; select_profile (default [] uid)] in
    match profile_error p with
    | Some message =>
      ({| family_id := None; invite_token := None; uid := uid;
          profile_failure := Some message |}, calls)
    | None =>
      ({| family_id := profile_data p ≫= row_family_id;
          invite_token := profile_data p ≫= row_invite_token;
          uid := uid; profile_failure := None |}, calls)
    end.

(** The result of [saveInviteToken]: [ok] and [error]. *)
Definition saveInviteToken (resp : upsert_response) (next : jsstring)
  (prof_uid prof_family_id : jsstring)
  : bool * option jsstring * list invite_call :=
  let calls := [upsert_profile prof_uid prof_family_id next] in
  match upsert_error resp with
  | Some message => (false, Some message, calls)
  | None =>
    match upsert_data resp with
    | Some (first :: _) =>
      if bool_decide (row_invite_token first = Some next)
      then (true, None, calls)
      else (false, Some (lit "저장 결과 확인 실패"), calls)
    | _ => (false, Some (lit "저장 결과 확인 실패"), calls)
    end
  end.

Definition loadGuestbook (resp : guestbook_response) (token : jsstring)
  (pg : Page) (pn : Panel) : Page * Panel * list invite_call :=
  if negb (truthy token) then (pg, pn, [])
  else
    let pn := setGuestbookBusy true pn in
    let calls := [get_guestbook_entries_by_token token] in
    match guestbook_error resp with
    | Some message =>
      let pn := setEntries [] pn in
      let pg := setMsg (lit "⚠️ 방명록 조회 실패: " ++ message) pg in
      (pg, setGuestbookBusy false pn, calls)
    | None =>
      let pn := setEntries (default [] (guestbook_data resp)) pn in
      (pg, setGuestbookBusy false pn, calls)
    end.


Definition createOrRegenerateInvite (random : nat -> byte)
  (u : user_response) (p : profile_response) (saved_resp : upsert_response)
  (gb : guestbook_response) (pg : Page) (pn : Panel)
  : Page * Panel * list invite_call :=
  let pn := setInviteBusy true pn in
  let pg := setMsg (lit "초대코드 처리 중...") pg in
  let '(prof, calls) := fetchMyProfile u p in
  if truthy_opt (profile_failure prof) || negb (truthy_opt (family_id prof))
     || negb (truthy_opt (uid prof))
  then
    let pg := setMsg (lit "❌ 초대코드 저장 실패: "
                      ++ default (lit "profiles 정보 없음") (profile_failure prof))
                     pg in
    (pg, setInviteBusy false pn, calls)
  else
    let pg := setMyFamilyId (family_id prof) pg in
    let next := makeToken random 28 in
    let '(saved_ok, saved_error, calls2) :=
      saveInviteToken saved_resp next (default [] (uid prof))
                      (default [] (family_id prof)) in
    if negb saved_ok
    then
      let pg := setMsg (lit "❌ 초대코드 저장 실패: "
                        ++ default (lit "unknown") saved_error) pg in
      (pg, setInviteBusy false pn, calls ++ calls2)
    else
      let pn := setInviteToken next pn in
      let '(pg, pn, calls3) := loadGuestbook gb next pg pn in
      let pg := setMsg (lit "✅ 초대코드가 준비됐어요.") pg in
      let pn := setInviteBusy false pn in
      (setTimeout_clearMsg 1200 pg, pn, calls ++ calls2 ++ calls3).

(** The effect that starts the page; [session] tells whether
    [getSession] found one. Beside the states and the requests it gives
    the path of [router.replace], if any. *)
Definition run (session : bool) (u : user_response) (p : profile_response)
  (resp : select_response) (gb : guestbook_response)
  (pg : Page) (pn : Panel) (w : World)
  : Page * Panel * World * list invite_call * option jsstring :=
  if negb session then (pg, pn, w, [], Some (lit "/login"))
  else
    let '(prof, calls) := fetchMyProfile u p in
    if truthy_opt (profile_failure prof) || negb (truthy_opt (family_id prof))
    then
      let pg := setMsg (lit "⚠️ 프로필 조회 실패: "
                        ++ default (lit "unknown") (profile_failure prof)) pg in
      (pg, pn, w, calls, None)
    else
      let pg := setMyFamilyId (family_id prof) pg in
      let t := default [] (invite_token prof) in
      let pn := setInviteToken t pn in
      let '(pg, w) := load resp (default [] (family_id prof)) pg w in
      if truthy t
      then
        let '(pg, pn, calls2) := loadGuestbook gb t pg pn in
        (pg, pn, w, calls ++ calls2, None)
      else (pg, pn, w, calls, None).

(** [inviteLink]; [origin] is [window.location.origin], [None] where
    there is no window. *)
Definition inviteLink (origin : option jsstring) (pn : Panel) : jsstring :=
  if negb (truthy (inviteToken pn)) then []
  else
    match origin with
    | None => lit "/invite/" ++ inviteToken pn
    | Some o => o ++ lit "/invite/" ++ inviteToken pn
    end.

(** [s.includes(sub)] *)
Fixpoint includes (s sub : jsstring) : bool :=
  startsWith sub s
  || match s with
     | [] => false
     | _ :: r => includes r sub
     end.

Section Search.

(** [String.prototype.toLowerCase] *)
Variable toLowerCase : jsstring -> jsstring.

(** [filtered]: the cards shown for the search text [q]. *)
Definition filtered (q : jsstring) (pg : Page) : list Artwork :=
  let t := toLowerCase (trim q) in
  if negb (truthy t) then items pg
  else
    List.filter
      (fun a => includes (toLowerCase (kid_name a)) t
                || includes (toLowerCase (title a)) t)
      (items pg).

End Search.

(** *** Notions used to state the properties of the page *)

(** A private artwork has no public deadline. *)
Definition private_has_no_deadline (a : Artwork) : Prop :=
  is_public a = false -> public_until a = None.

Definition world_of (o : outcome) : World :=
  match o with
  | Done _ w => w
  | Rejected _ w => w
  end.

Definition page_of (o : outcome) : Page :=
  match o with
  | Done pg _ => pg
  | Rejected pg _ => pg
  end.

(** The 256 values of a byte, and those among them that select the
    symbol [c]. *)
Definition byte_values : list byte :=
  omap (fun n => Byte.of_nat n) (seq 0 256).

Definition selecting (c : code_unit) : list byte :=
  filter (fun b => token_symbol b = [c]) byte_values.

End Manage.

(* ===================================================================== *)
(** ** Gallery page: days left *)
(* ===================================================================== *)

Module Gallery.
Import JS.

Record Artwork := {
  id : jsstring;
  kid_name : jsstring;
  title : jsstring;
  public_image_path : jsstring;
  private_image_path : jsstring;
  created_at : jsstring;
  public_until : option jsstring
}.

Section Clock.

Variable Date_parse : jsstring -> option Z.
Variable now : Z.

Definition daysLeft (iso : option jsstring) : option Z :=
  match iso with
  | None => None
  | Some s =>
    if negb (Manage.truthy s) then None
    else
      match Date_parse s with
      | None => None
      | Some v =>
        let t := v - now in
        let d := ceil_div t (24 * 60 * 60 * 1000) in
        Some d
      end
  end.

(** The text of the pill on a card; the empty string shows no pill. *)
Definition leftText (a : Artwork) : jsstring :=
  let left := daysLeft (public_until a) in
  match left with
  | None => []
  | Some l => if l <=? 0 then lit "오늘 종료" else ToString l ++ lit "일 남음"
  end.

End Clock.

End Gallery.

(* ===================================================================== *)
(** ** Invite page: loading by token *)
(* ===================================================================== *)

Module Invite.
Import JS.

Record Entry := {
  entry_id : jsstring;
  display_name : jsstring;
  content : jsstring;
  entry_created_at : jsstring
}.

Record ArtworkRowFromRPC := {
  row_id : jsstring;
  row_kid_name : jsstring;
  row_title : jsstring;
  private_image_path : jsstring;
  row_created_at : jsstring;
  row_artwork_made_at : option jsstring
}.

Record ArtworkView := {
  id : jsstring;
  kid_name : jsstring;
  title : jsstring;
  image_url : jsstring;
  created_at : jsstring;
  artwork_made_at : option jsstring
}.

Record Page := {
  artworks : list ArtworkView;
  entries : list Entry;
  status : jsstring;
  debug : jsstring;
  loading : bool
}.

Definition setArtworks (v : list ArtworkView) (pg : Page) : Page :=
  {| artworks := v; entries := entries pg; status := status pg;
     debug := debug pg; loading := loading pg |}.
Definition setEntries (v : list Entry) (pg : Page) : Page :=
  {| artworks := artworks pg; entries := v; status := status pg;
     debug := debug pg; loading := loading pg |}.
Definition setStatus (v : jsstring) (pg : Page) : Page :=
  {| artworks := artworks pg; entries := entries pg; status := v;
     debug := debug pg; loading := loading pg |}.
Definition setDebug (f : jsstring -> jsstring) (pg : Page) : Page :=
  {| artworks := artworks pg; entries := entries pg; status := status pg;
     debug := f (debug pg); loading := loading pg |}.
Definition setLoading (v : bool) (pg : Page) : Page :=
  {| artworks := artworks pg; entries := entries pg; status := status pg;
     debug := debug pg; loading := v |}.

(** The remote procedures the page calls, with their [p_token]. *)
Inductive call :=
| get_artworks_by_token (p_token : jsstring)
| get_guestbook_entries_by_token (p_token : jsstring).

Record response (A : Type) := {
  data : option (list A);
  error : option jsstring
}.
Arguments data {A} r.
Arguments error {A} r.

Record load_result := { ok : bool; count : Z }.

(** [(prev) => (prev ? prev : "") + line] *)
Definition append_debug (line : jsstring) (prev : jsstring) : jsstring :=
  (if Manage.truthy prev then prev else []) ++ line.

Definition status_invalid_link : jsstring := 
  Eval vm_compute in lit "❌ 초대 링크가 올바르지 않습니다.".

Section Page.

(** [supabase.storage.from("artworks").getPublicUrl(v).data.publicUrl] *)
Variable getPublicUrl : jsstring -> jsstring.
(** The [token] of the route. *)
Variable token : jsstring.

Definition toImageUrlFromRow (a : ArtworkRowFromRPC) : jsstring :=
  let v := trim (private_image_path a) in
  if negb (Manage.truthy v) then []
  else if startsWith (lit "http://") v || startsWith (lit "https://") v then v
  else getPublicUrl v.

(** [loadArtworks] up to its [await]: the request is sent. *)
Definition loadArtworks_send (calls : list call) : list call :=
  calls ++ [get_artworks_by_token token].

(** [loadArtworks] from the answer on. *)
Definition loadArtworks_resume (resp : response ArtworkRowFromRPC) (pg : Page)
  : Page * load_result :=
  match error resp with
  | Some message =>
    let pg := setArtworks [] pg in
    let pg := setDebug (append_debug
                ([10%N] ++ lit "[get_artworks_by_token] " ++ message)) pg in
    (pg, {| ok := false; count := 0 |})
  | None =>
    let rows := default [] (data resp) in
    let mapped :=
      map (fun a =>
             {| id := row_id a; kid_name := row_kid_name a;
                title := row_title a; image_url := toImageUrlFromRow a;
                created_at := row_created_at a;
                artwork_made_at := row_artwork_made_at a |}) rows in
    (setArtworks mapped pg, {| ok := true; count := Z.of_nat (length mapped) |})
  end.

Definition loadGuestbook_send (calls : list call) : list call :=
  calls ++ [get_guestbook_entries_by_token token].

Definition loadGuestbook_resume (resp : response Entry) (pg : Page)
  : Page * load_result :=
  match error resp with
  | Some message =>
    let pg := setEntries [] pg in
    let pg := setDebug (append_debug
                ([10%N] ++ lit "[get_guestbook_entries_by_token] " ++ message)) pg in
    (pg, {| ok := false; count := 0 |})
  | None =>
    let list := default [] (data resp) in
    (setEntries list pg, {| ok := true; count := Z.of_nat (length list) |})
  end.

(** [loadAll]. [Promise.all] starts [loadGuestbook] and then
    [loadArtworks]; [guest_first] tells which answer arrives first. The
    result is the page and the calls issued so far. *)
Definition loadAll (guest_resp : response Entry)
  (art_resp : response ArtworkRowFromRPC) (guest_first : bool)
  (pg : Page) (calls : list call) : Page * list call :=
  if negb (Manage.truthy token) || (Z.of_nat (length (trim token)) <? 6)
  then
    let pg := setLoading false pg in
    let pg := setStatus status_invalid_link pg in
    let pg := setDebug (append_debug
                ([10%N] ++ lit "[token] invalid or missing: " ++ [34%N]
                 ++ token ++ [34%N])) pg in
    let pg := setArtworks [] pg in
    (setEntries [] pg, calls)
  else
    let pg := setLoading true pg in
    let pg := setStatus (lit "불러오는 중...") pg in
    let pg := setDebug (fun _ => []) pg in
    let calls := loadArtworks_send (loadGuestbook_send calls) in
    let '(pg, guestRes, artRes) :=
      if guest_first
      then
        let '(pg, g) := loadGuestbook_resume guest_resp pg in
        let '(pg, a) := loadArtworks_resume art_resp pg in
        (pg, g, a)
      else
        let '(pg, a) := loadArtworks_resume art_resp pg in
        let '(pg, g) := loadGuestbook_resume guest_resp pg in
        (pg, g, a) in
    if negb (ok guestRes) || negb (ok artRes)
    then
      let pg := setLoading false pg in
      (setStatus (lit "❌ 초대 링크를 불러오지 못했습니다. (아래 디버그를 확인)") pg, calls)
    else
      let pg :=
        if count artRes =? 0 then setStatus (lit "표시할 작품이 아직 없어요.") pg
        else setStatus [] pg in
      (setLoading false pg, calls).

(** *** Leaving a guestbook message *)

(** The answer of [add_guestbook_entry]: an error, or the row created. *)
Inductive add_answer :=
| AddFailed (message : jsstring)
| AddReturned (row : Entry).

(** The form of the page, next to [Page]: the states [name], [content]
    and [submitBusy]. *)
Record Form := {
  name : jsstring;
  form_content : jsstring;
  submitBusy : bool
}.

(** What [submit] does outside the page state. *)
Inductive effect :=
| alert (text : jsstring)
| add_guestbook_entry (p_token p_display_name p_content : jsstring)
| setTimeout_clearStatus (delay : Z).

Definition submit (answer : add_answer) (pg : Page) (fm : Form)
  : Page * Form * list effect :=
  if submitBusy fm then (pg, fm, [])
  else if negb (Manage.truthy token)
  then (pg, fm, [alert (lit "초대 링크가 올바르지 않습니다.")])
  else if negb (Manage.truthy (trim (name fm)))
          || negb (Manage.truthy (trim (form_content fm)))
  then (pg, fm, [alert (lit "이름과 내용을 입력해 주세요.")])
  else
    let pg := setStatus (lit "등록 중...") pg in
    let request :=
      add_guestbook_entry token (trim (name fm)) (trim (form_content fm)) in
    match answer with
    | AddFailed message =>
      let pg := setStatus (lit "❌ 등록 실패: " ++ message) pg in
      let pg := setDebug (append_debug
                  ([10%N] ++ lit "[add_guestbook_entry] " ++ message)) pg in
      (pg, {| name := name fm; form_content := form_content fm; submitBusy := false |},
       [request])
    | AddReturned newEntry =>
      let pg := setEntries (newEntry :: entries pg) pg in
      let pg := setStatus (lit "✅ 남겼어요!") pg in
      (pg, {| name := []; form_content := []; submitBusy := false |},
       [request; setTimeout_clearStatus 1200])
    end.

End Page.

End Invite.

(* ===================================================================== *)
(** ** Login page *)
(* ===================================================================== *)

Module Login.
Import JS.

Definition FIXED_DOMAIN : jsstring := lit "love.you".

(** The class [[a-z0-9._-]]. *)
Definition is_id_char (c : code_unit) : bool :=
  ((97 <=? c) && (c <=? 122) || (48 <=? c) && (c <=? 57)
   || (c =? 46) || (c =? 95) || (c =? 45))%N.

(** Greedy [[a-z0-9._-]{0,n}]: the code units matched and the rest. *)
Fixpoint take_id_chars (n : nat) (s : jsstring) : jsstring * jsstring :=
  match n, s with
  | S n', c :: r =>
    if is_id_char c
    then let '(m, rest) := take_id_chars n' r in (c :: m, rest)
    else ([], s)
  | _, _ => ([], s)
  end.

(** [/^[a-z0-9._-]{3,30}$/.test(u)]. The [$] matches at the end of the
    input only, so giving back matched code units never helps: the test
    is decided by the greedy match. *)
Definition id_regex_test (u : jsstring) : bool :=
  let '(m, rest) := take_id_chars 30 u in
  (3 <=? length m)%nat && negb (Manage.truthy rest).

Definition err_username : jsstring :=
  Eval vm_compute in
    lit "아이디는 영문/숫자/._- 만 가능하며 3~30자로 입력해줘.".

(** The state of the page. *)
Record Page := {
  username : jsstring;
  password : jsstring;
  message : jsstring;
  busy : bool
}.

Definition setMessage (v : jsstring) (pg : Page) : Page :=
  {| username := username pg; password := password pg; message := v;
     busy := busy pg |}.
Definition setBusy (v : bool) (pg : Page) : Page :=
  {| username := username pg; password := password pg;
     message := message pg; busy := v |}.

Inductive effect :=
| signInWithPassword (email password : jsstring)
| router_replace (path : jsstring).

Section Lower.

(** [String.prototype.toLowerCase] *)
Variable toLowerCase : jsstring -> jsstring.

(** [usernameToEmail]: [inl message] is [throw new Error(message)]. *)
Definition usernameToEmail (username : jsstring) : jsstring + jsstring :=
  let u := toLowerCase (trim username) in
  if negb (id_regex_test u) then inl err_username
  else inr (u ++ lit "@" ++ FIXED_DOMAIN).

(** [handleLogin]; [sign_error] is the error of the sign-in answer. *)
Definition handleLogin (sign_error : option jsstring) (pg : Page)
  : Page * list effect :=
  if negb (Manage.truthy (username pg)) || negb (Manage.truthy (password pg))
  then (setMessage (lit "아이디/비밀번호를 입력해줘.") pg, [])
  else
    match usernameToEmail (username pg) with
    | inl e_message => (setMessage e_message pg, [])
    | inr email =>
      let pg := setBusy true pg in
      let pg := setMessage (lit "로그인 중...") pg in
      let sent := [signInWithPassword email (password pg)] in
      match sign_error with
      | Some _ =>
        let pg := setMessage (lit "❌ 로그인 실패: 아이디/비밀번호를 확인해줘.") pg in
        (setBusy false pg, sent)
      | None =>
        let pg := setMessage (lit "✅ 로그인 성공! 이동 중...") pg in
        (pg, sent ++ [router_replace (lit "/")])
      end
    end.

End Lower.

End Login.

(* ===================================================================== *)
(** ** Password page *)
(* ===================================================================== *)

Module Password.
Import JS.

Record Page := {
  pw1 : jsstring;
  pw2 : jsstring;
  msg : jsstring;
  saving : bool
}.

Definition setMsg (v : jsstring) (pg : Page) : Page :=
  {| pw1 := pw1 pg; pw2 := pw2 pg; msg := v; saving := saving pg |}.
Definition setSaving (v : bool) (pg : Page) : Page :=
  {| pw1 := pw1 pg; pw2 := pw2 pg; msg := msg pg; saving := v |}.

Inductive effect :=
| updateUser (password : jsstring)
(** [timerRef.current = window.setTimeout(() => router.replace(path), delay)] *)
| setTimeout_replace (delay : Z) (path : jsstring).

(** [onSave]; [error] is the error of the answer of [updateUser]. *)
Definition onSave (error : option jsstring) (pg : Page) : Page * list effect :=
  if saving pg then (pg, [])
  else
    let pg := setMsg [] pg in
    if Z.of_nat (length (pw1 pg)) <? 8
    then (setMsg (lit "비밀번호는 8자 이상 권장") pg, [])
    else if negb (bool_decide (pw1 pg = pw2 pg))
    then (setMsg (lit "비밀번호가 일치하지 않습니다.") pg, [])
    else
      let pg := setSaving true pg in
      let sent := [updateUser (pw1 pg)] in
      match error with
      | Some error_message =>
        let pg := setSaving false pg in
        (setMsg (lit "변경 실패: " ++ error_message) pg, sent)
      | None =>
        let pg := setMsg (lit "✅ 비밀번호가 변경되었습니다. 잠시 후 메인으로 이동합니다…") pg in
        (setSaving false pg, sent ++ [setTimeout_replace 1200 (lit "/")])
      end.

End Password.

(* ===================================================================== *)
(** ** The date-time string format *)
(* ===================================================================== *)

Module DateString.
Import JS Upload.

(** [Date.parse] on the one format the language fixes and [toISOString]
    writes for years 0 to 9999, [YYYY-MM-DDTHH:mm:ss.sssZ]; every other
    string, the empty one included, is NaN here. It stands for the
    built-in parser wherever a concrete one is needed. *)
Definition Date_parse_iso (s : jsstring) : option Z :=
  '(g1, r) ← take_digits 4 s;
  r ← take_char 45%N r;
  '(g2, r) ← take_digits 2 r;
  r ← take_char 45%N r;
  '(g3, r) ← take_digits 2 r;
  r ← take_char 84%N r;
  '(g4, r) ← take_digits 2 r;
  r ← take_char 58%N r;
  '(g5, r) ← take_digits 2 r;
  r ← take_char 58%N r;
  '(g6, r) ← take_digits 2 r;
  r ← take_char 46%N r;
  '(g7, r) ← take_digits 3 r;
  r ← take_char 90%N r;
  match r with
  | _ :: _ => None
  | [] =>
    let y := Number_of_digits g1 in
    let mo := Number_of_digits g2 in
    let d := Number_of_digits g3 in
    let h := Number_of_digits g4 in
    let mi := Number_of_digits g5 in
    let sec := Number_of_digits g6 in
    let ms := Number_of_digits g7 in
    if (1 <=? mo) && (mo <=? 12) && (1 <=? d) && (d <=? DaysInMonth y (mo - 1))
       && ((h <=? 23) && (mi <=? 59) && (sec <=? 59)
           || (h =? 24) && (mi =? 0) && (sec =? 0) && (ms =? 0))
    then TimeClip (MakeDate (MakeDay y (mo - 1) d) (MakeTime h mi sec ms))
    else None
  end.

End DateString.

(* ===================================================================== *)
(** ** Sample data *)
(* ===================================================================== *)

Module Samples.
Import JS.

(** Asia/Seoul. *)
Definition kst : Z := 9 * msPerHour.

(** 2024-01-16T00:00:00.000Z *)
Definition now0 : Z := 1705363200000.

(** A private drawing, as the upload page stores it. *)
Definition drawing : Manage.Artwork :=
  {| Manage.id := lit "a1";
     Manage.kid_name := lit "Mina";
     Manage.title := lit "Sun";
     Manage.private_image_path := lit "1705190400000-ab12.jpg";
     Manage.created_at := lit "2024-01-14T00:00:00.000Z";
     Manage.is_public := false;
     Manage.public_until := None;
     Manage.artwork_made_at := None |}.

(** The same drawing, public until 2024-01-15. *)
Definition shown : Manage.Artwork :=
  Manage.with_payload true (Some (lit "2024-01-15T00:00:00.000Z")) drawing.

(** The same drawing, public without a deadline. *)
Definition open_ended : Manage.Artwork :=
  Manage.with_payload true None drawing.

Definition page0 : Manage.Page :=
  {| Manage.items := [drawing];
     Manage.msg := [];
     Manage.busyId := None;
     Manage.myFamilyId := Some (lit "fam");
     Manage.timers := [] |}.

Definition world0 : Manage.World :=
  {| Manage.artworks := {[ lit "a1" := drawing ]};
     Manage.bucket := {[ lit "1705190400000-ab12.jpg" ]};
     Manage.log := [] |}.

(** An upload form ready to be submitted with a typed date. *)
Definition upload_form : Upload.UploadForm :=
  {| Upload.kidName := lit " Mina ";
     Upload.title := lit "Sun";
     Upload.file := Some {| Upload.file_name := lit "sun.png" |};
     Upload.useNow := false;
     Upload.madeAtInput := lit "2024-01-15 24:00";
     Upload.madeAtError := None;
     Upload.busy := false;
     Upload.msg := [];
     Upload.msgTone := Upload.tone_info;
     Upload.preview := None;
     Upload.redirectIn := None |}.

Definition load0 : Manage.select_response :=
  {| Manage.data := Some [drawing]; Manage.error := None |}.

(** The invite panel before a code was made. *)
Definition panel0 : Manage.Panel :=
  {| Manage.inviteToken := [];
     Manage.inviteBusy := false;
     Manage.entries := [];
     Manage.guestbookBusy := false |}.

(** A signed-in user whose profile names a family. *)
Definition user0 : Manage.user_response :=
  {| Manage.user_id_of := Some (lit "u1"); Manage.user_error := None |}.

Definition profile0 : Manage.profile_response :=
  {| Manage.profile_data :=
       Some {| Manage.row_family_id := Some (lit "fam");
               Manage.row_invite_token := None |};
     Manage.profile_error := None |}.

(** The random bytes 0, 1, 2, ... *)
Definition counting (i : nat) : byte :=
  default Byte.x00 (Byte.of_nat i).

(** The service stored the token and echoes the row. *)
Definition saved0 : Manage.upsert_response :=
  {| Manage.upsert_data :=
       Some [{| Manage.row_family_id := Some (lit "fam");
                Manage.row_invite_token :=
                  Some (Manage.makeToken counting 28) |}];
     Manage.upsert_error := None |}.

Definition greeting : Manage.Entry :=
  {| Manage.entry_id := lit "e1";
     Manage.display_name := lit "Gran";
     Manage.content := lit "Lovely!";
     Manage.entry_created_at := lit "2024-01-16T00:00:00.000Z" |}.

Definition guestbook0 : Manage.guestbook_response :=
  {| Manage.guestbook_data := Some [greeting];
     Manage.guestbook_error := None |}.

(** The drawing [shown], as the gallery reads it. *)
Definition hung : Gallery.Artwork :=
  {| Gallery.id := lit "a1";
     Gallery.kid_name := lit "Mina";
     Gallery.title := lit "Sun";
     Gallery.public_image_path := lit "1705190400000-ab12.jpg";
     Gallery.private_image_path := lit "1705190400000-ab12.jpg";
     Gallery.created_at := lit "2024-01-14T00:00:00.000Z";
     Gallery.public_until := Some (lit "2024-01-15T00:00:00.000Z") |}.

(** Lower case of the letters A to Z: what [toLowerCase] does on text
    with no other cased letter. *)
Definition lower_ascii (s : JS.jsstring) : JS.jsstring :=
  map (fun c => if ((65 <=? c) && (c <=? 90))%N then (c + 32)%N else c) s.

Definition login_form : Login.Page :=
  {| Login.username := lit " Rangmin ";
     Login.password := lit "secret-1";
     Login.message := [];
     Login.busy := false |}.

Definition password_form : Password.Page :=
  {| Password.pw1 := lit "new-secret";
     Password.pw2 := lit "new-secret";
     Password.msg := [];
     Password.saving := false |}.

End Samples.

(* ===================================================================== *)
(** ** Facts about the calendar arithmetic *)
(* ===================================================================== *)

Module JSFacts.
Import JS.

Ltac euclid := Z.to_euclidean_division_equations; lia.

Lemma DaysInYear_cases y : DaysInYear y = 365 \/ DaysInYear y = 366.
Proof.
  unfold DaysInYear.
  destruct (y mod 4 =? 0), (y mod 100 =? 0), (y mod 400 =? 0); cbn; auto.
Qed.

Lemma DayFromYear_succ y : DayFromYear (y + 1) = DayFromYear y + DaysInYear y.
Proof.
  unfold DayFromYear, DaysInYear.
  destruct (Z.eqb_spec (y mod 4) 0); cbn [negb]; [|euclid].
  destruct (Z.eqb_spec (y mod 100) 0); cbn [negb]; [|euclid].
  destruct (Z.eqb_spec (y mod 400) 0); cbn [negb]; euclid.
Qed.

Lemma DayFromYear_mono a b : a <= b -> DayFromYear a <= DayFromYear b.
Proof. intros Hab. unfold DayFromYear. euclid. Qed.

(** [YearFromDay] meets the defining property of YearFromTime: the year
    that contains the day. *)
Lemma YearFromDay_spec d :
  DayFromYear (YearFromDay d) <= d < DayFromYear (YearFromDay d + 1).
Proof.
  unfold YearFromDay.
  set (y := 1970 + d * 400 / 146097).
  destruct (Z.ltb_spec d (DayFromYear y)) as [Hlt|Hge].
  - replace (y - 1 + 1) with y by lia. split; [|lia].
    unfold DayFromYear in *. subst y. euclid.
  - destruct (Z.leb_spec (DayFromYear (y + 1)) d) as [Hle|Hgt]; [|lia].
    split; [lia|]. unfold DayFromYear in *. subst y. euclid.
Qed.

Lemma YearFromDay_unique d y :
  DayFromYear y <= d < DayFromYear (y + 1) -> YearFromDay d = y.
Proof.
  intros Hy. pose proof (YearFromDay_spec d) as Hs.
  destruct (Z.lt_trichotomy (YearFromDay d) y) as [Hlt|[Heq|Hgt]]; [|exact Heq|].
  - pose proof (DayFromYear_mono (YearFromDay d + 1) y ltac:(lia)). lia.
  - pose proof (DayFromYear_mono (y + 1) (YearFromDay d) ltac:(lia)). lia.
Qed.

Lemma Day_MakeDate d time :
  0 <= time < msPerDay -> Day (MakeDate d time) = d.
Proof. unfold Day, MakeDate, msPerDay. intros H. euclid. Qed.

Lemma TimeWithinDay_MakeDate d time :
  0 <= time < msPerDay -> TimeWithinDay (MakeDate d time) = time.
Proof. unfold TimeWithinDay, MakeDate, msPerDay. intros H. euclid. Qed.

Lemma MakeDate_Day_TimeWithinDay t : MakeDate (Day t) (TimeWithinDay t) = t.
Proof. unfold MakeDate, Day, TimeWithinDay, msPerDay. euclid. Qed.

Lemma monthOfDay_range leap dwy : 0 <= monthOfDay leap dwy <= 11.
Proof.
  unfold monthOfDay.
  repeat match goal with |- context [if ?b then _ else _] => destruct b end; lia.
Qed.

(** Building a day from the fields of a time gives its day back, whatever
    date of the month is asked for. *)
Lemma MakeDay_of_fields t n :
  MakeDay (YearFromTime t) (MonthFromTime t) n = Day t + (n - DateFromTime t).
Proof.
  unfold MakeDay, DateFromTime, DayWithinYear.
  pose proof (monthOfDay_range (InLeapYear t) (DayWithinYear t)) as Hm.
  fold (MonthFromTime t) in Hm.
  replace (MonthFromTime t / 12) with 0 by euclid.
  replace (MonthFromTime t mod 12) with (MonthFromTime t) by euclid.
  rewrite Z.add_0_r. fold (InLeapYear t). lia.
Qed.

Lemma leap_cases y :
  let leap := if DaysInYear y =? 366 then 1 else 0 in
  (leap = 0 /\ DaysInYear y = 365) \/ (leap = 1 /\ DaysInYear y = 366).
Proof.
  destruct (DaysInYear_cases y) as [E|E]; rewrite E; cbn; auto.
Qed.

Ltac month_cases m :=
  let Hc := fresh "Hc" in
  assert (Hc : m = 0 \/ m = 1 \/ m = 2 \/ m = 3 \/ m = 4 \/ m = 5 \/ m = 6
               \/ m = 7 \/ m = 8 \/ m = 9 \/ m = 10 \/ m = 11) by lia;
  repeat (destruct Hc as [Hc|Hc]; [subst m|]); [..|subst m].

Ltac split_ltb :=
  repeat match goal with
         | |- context [?a <? ?b] => destruct (Z.ltb_spec a b); try lia
         end.

(** The calendar fields of the day that [MakeDay] builds from a year, a
    month and a date from 1 to 31: a date past the end of the month falls
    in the following month. *)
Lemma fields_of_MakeDay y m d time :
  0 <= m <= 11 -> 1 <= d <= 31 -> 0 <= time < msPerDay ->
  let t := MakeDate (MakeDay y m d) time in
  YearFromTime t = y
  /\ (d <= DaysInMonth y m -> MonthFromTime t = m /\ DateFromTime t = d)
  /\ (DaysInMonth y m < d ->
      MonthFromTime t = m + 1 /\ DateFromTime t = d - DaysInMonth y m).
Proof.
  intros Hm Hd Htime t.
  assert (Hday : Day t = MakeDay y m d) by (apply Day_MakeDate; exact Htime).
  assert (Hmk : MakeDay y m d
                = DayFromYear y
                  + monthStart (if DaysInYear y =? 366 then 1 else 0) m + d - 1).
  { unfold MakeDay. replace (m / 12) with 0 by euclid.
    replace (m mod 12) with m by euclid. rewrite Z.add_0_r. reflexivity. }
  pose proof (leap_cases y) as Hleap. cbv zeta in Hleap.
  assert (Hyear : YearFromTime t = y).
  { unfold YearFromTime. rewrite Hday, Hmk. apply YearFromDay_unique.
    rewrite DayFromYear_succ.
    destruct Hleap as [[-> ->]|[-> ->]]; month_cases m; cbn [monthStart]; lia. }
  split; [exact Hyear|].
  unfold DateFromTime, MonthFromTime, DayWithinYear, InLeapYear.
  rewrite Hyear, Hday, Hmk. unfold DaysInMonth.
  destruct Hleap as [[-> E]|[-> E]]; rewrite E; cbn [Z.eqb Pos.eqb];
    month_cases m; cbn [monthStart]; unfold monthOfDay;
    (split; intros Hlen; split_ltb; cbn [monthStart]; lia).
Qed.

Lemma MakeDay_in_year y m d :
  0 <= m <= 11 ->
  MakeDay y m d
  = DayFromYear y + monthStart (if DaysInYear y =? 366 then 1 else 0) m + d - 1.
Proof.
  intros Hm. unfold MakeDay. replace (m / 12) with 0 by euclid.
  replace (m mod 12) with m by euclid. rewrite Z.add_0_r. reflexivity.
Qed.

(** The same one day further: for a date from 1 to 32 the day still falls
    in the month or in the one that follows, which after December is the
    January of the next year. *)
Lemma fields_of_MakeDay_next y m d time :
  0 <= m <= 11 -> 1 <= d <= 32 -> 0 <= time < msPerDay ->
  let t := MakeDate (MakeDay y m d) time in
  (d <= DaysInMonth y m ->
   YearFromTime t = y /\ MonthFromTime t = m /\ DateFromTime t = d)
  /\ (DaysInMonth y m < d -> m <= 10 ->
      YearFromTime t = y /\ MonthFromTime t = m + 1
      /\ DateFromTime t = d - DaysInMonth y m)
  /\ (DaysInMonth y m < d -> m = 11 ->
      YearFromTime t = y + 1 /\ MonthFromTime t = 0 /\ DateFromTime t = 1).
Proof.
  intros Hm Hd Htime t. subst t.
  assert (Hlen : 28 <= DaysInMonth y m <= 31
                 /\ (m = 11 -> DaysInMonth y m = 31)).
  { unfold DaysInMonth. destruct (DaysInYear y =? 366);
      month_cases m; cbn; lia. }
  destruct (Z.le_gt_cases d 31) as [H31|H32].
  - destruct (fields_of_MakeDay y m d time Hm ltac:(lia) Htime)
      as (Hy & Hin & Hover). cbv zeta in Hy, Hin, Hover.
    split; [intros H; split; [exact Hy|exact (Hin H)]|].
    split; [intros H _; split; [exact Hy|exact (Hover H)]|].
    intros H E. lia.
  - assert (d = 32) by lia. subst d.
    split; [lia|]. split.
    + intros _ Hm10.
      assert (E : MakeDay y m 32
                  = MakeDay y (m + 1) (32 - DaysInMonth y m)).
      { rewrite !MakeDay_in_year by lia. unfold DaysInMonth.
        destruct (DaysInYear y =? 366); month_cases m; try lia;
          match goal with
          | |- context [monthStart _ (?a + 1)] =>
            let v := eval vm_compute in (a + 1) in change (a + 1) with v
          end; cbn [monthStart]; lia. }
      rewrite E.
      destruct (fields_of_MakeDay y (m + 1) (32 - DaysInMonth y m) time
                  ltac:(lia) ltac:(lia) Htime) as (Hy & Hin & _).
      cbv zeta in Hy, Hin. split; [exact Hy|]. apply Hin.
      unfold DaysInMonth. destruct (DaysInYear y =? 366);
        month_cases m; try lia;
        match goal with
        | |- context [?a + 1] =>
          let v := eval vm_compute in (a + 1) in change (a + 1) with v
        end; lia.
    + intros _ ->.
      assert (E : MakeDay y 11 32 = MakeDay (y + 1) 0 1).
      { rewrite !MakeDay_in_year by lia. rewrite DayFromYear_succ.
        destruct (leap_cases y) as [[-> ->]|[-> ->]]; cbn [monthStart];
          destruct (DaysInYear (y + 1) =? 366); lia. }
      rewrite E.
      destruct (fields_of_MakeDay (y + 1) 0 1 time ltac:(lia) ltac:(lia) Htime)
        as (Hy & Hin & _).
      cbv zeta in Hy, Hin. split; [exact Hy|]. apply Hin.
      unfold DaysInMonth. lia.
Qed.

Lemma TimeClip_in_range t : - maxTime <= t <= maxTime -> TimeClip t = Some t.
Proof.
  intros H. unfold TimeClip.
  destruct (Z.ltb_spec maxTime (Z.abs t)); [lia|reflexivity].
Qed.

Lemma TimeClip_out_of_range t : maxTime < Z.abs t -> TimeClip t = None.
Proof.
  intros H. unfold TimeClip.
  destruct (Z.ltb_spec maxTime (Z.abs t)); [reflexivity|lia].
Qed.

Section LocalTime.
Variable tza : Z.

(** [base.setDate(base.getDate() + 1)] moves a date one day ahead. *)
Lemma setDate_tomorrow t0 :
  - maxTime <= t0 + msPerDay <= maxTime ->
  setDate tza (Some t0) (Z.add 1 <$> getDate tza (Some t0)) = Some (t0 + msPerDay).
Proof.
  intros Hr. cbn [getDate setDate fmap option_fmap option_map].
  rewrite MakeDay_of_fields.
  replace (1 + DateFromTime (LocalTime tza t0) - DateFromTime (LocalTime tza t0))
    with 1 by lia.
  pose proof (MakeDate_Day_TimeWithinDay (LocalTime tza t0)) as Hd.
  unfold MakeDate, UTC, LocalTime in *.
  rewrite <- (TimeClip_in_range (t0 + msPerDay) Hr). f_equal. lia.
Qed.

Lemma setHours_value t0 h v :
  v = MakeDate (Day (LocalTime tza t0)) (MakeTime h 0 0 0) - tza ->
  - maxTime <= v <= maxTime ->
  setHours tza (Some t0) h 0 0 0 = Some v.
Proof.
  intros -> Hr. cbn [setHours]. unfold UTC. apply TimeClip_in_range, Hr.
Qed.

End LocalTime.

End JSFacts.

(* ===================================================================== *)
(** ** The made-at validator: facts *)
(* ===================================================================== *)

Module UploadFacts.
Import JS Upload JSFacts.

Lemma take_digits_sound n s ds rest :
  take_digits n s = Some (ds, rest) -> s = ds ++ rest /\ all_digits n ds.
Proof.
  unfold all_digits. revert s ds rest.
  induction n as [|n IH]; intros s ds rest; cbn.
  - intros [= <- <-]. repeat split. constructor.
  - destruct s as [|c r]; [discriminate|].
    destruct (is_digit c) eqn:Hc; [|discriminate].
    destruct (take_digits n r) as [[ds' rest']|] eqn:Ht; cbn; [|discriminate].
    intros [= <- <-]. destruct (IH _ _ _ Ht) as (-> & Hl & Hf).
    cbn. repeat split; [congruence|constructor; assumption].
Qed.

Lemma take_digits_complete ds rest :
  Forall (fun c => is_digit c = true) ds ->
  take_digits (length ds) (ds ++ rest) = Some (ds, rest).
Proof.
  induction 1 as [|c ds Hc _ IH]; cbn; [reflexivity|].
  rewrite Hc, IH. reflexivity.
Qed.

Lemma take_digits_Some n s ds rest :
  take_digits n s = Some (ds, rest) <-> s = ds ++ rest /\ all_digits n ds.
Proof.
  split; [apply take_digits_sound|].
  intros (-> & <- & Hf). apply take_digits_complete, Hf.
Qed.

Lemma take_char_Some c s r : take_char c s = Some r <-> s = c :: r.
Proof.
  unfold take_char. destruct s as [|a s'].
  - split; discriminate.
  - destruct (N.eqb_spec a c) as [->|Hne].
    + split; [intros [= ->]; reflexivity|intros [= ->]; reflexivity].
    + split; [discriminate|]. intros [= -> ->]. contradiction.
Qed.

Lemma digit_not_space c : is_digit c = true -> is_white_space c = false.
Proof.
  unfold is_digit, is_white_space. intros H.
  apply andb_true_iff in H as [H1 H2].
  apply N.leb_le in H1, H2.
  repeat match goal with
         | |- context [(?a <=? ?b)%N] => destruct (N.leb_spec a b); try lia
         | |- context [(?a =? ?b)%N] => destruct (N.eqb_spec a b); try lia
         end; reflexivity.
Qed.

Lemma trimStart_spaces ws r :
  Forall (fun c => is_white_space c = true) ws ->
  trimStart (ws ++ r) = trimStart r.
Proof.
  induction 1 as [|c ws Hc _ IH]; cbn; [reflexivity|]. rewrite Hc. exact IH.
Qed.

Lemma trimStart_split s :
  exists ws, s = ws ++ trimStart s
             /\ Forall (fun c => is_white_space c = true) ws.
Proof.
  induction s as [|c s (ws & Hs & Hf)]; cbn.
  - exists []. split; [reflexivity|constructor].
  - destruct (is_white_space c) eqn:Hc.
    + exists (c :: ws). split; [cbn; congruence|constructor; assumption].
    + exists []. split; [reflexivity|constructor].
Qed.

Lemma trimStart_digit g r :
  all_digits 2 g -> trimStart (g ++ r) = g ++ r.
Proof.
  intros [Hl Hf]. destruct g as [|c g]; [discriminate|].
  inversion Hf; subst. cbn. rewrite digit_not_space by assumption. reflexivity.
Qed.

(** The matcher finds exactly the strings of the shape. *)
Lemma regex_exec_spec t Y M D H MI :
  made_at_regex_exec t = Some (Y, M, D, H, MI) <-> made_at_pattern t Y M D H MI.
Proof.
  unfold made_at_regex_exec, made_at_pattern. split.
  - intros Hx.
    destruct (take_digits 4 t) as [[g1 r1]|] eqn:E1; cbn [mbind option_bind] in Hx; [|discriminate].
    destruct (take_char 45%N r1) as [r2|] eqn:E2; cbn [mbind option_bind] in Hx; [|discriminate].
    destruct (take_digits 2 r2) as [[g2 r3]|] eqn:E3; cbn [mbind option_bind] in Hx; [|discriminate].
    destruct (take_char 45%N r3) as [r4|] eqn:E4; cbn [mbind option_bind] in Hx; [|discriminate].
    destruct (take_digits 2 r4) as [[g3 r5]|] eqn:E5; cbn [mbind option_bind] in Hx; [|discriminate].
    destruct (take_spaces r5) as [r6|] eqn:E6; cbn [mbind option_bind] in Hx; [|discriminate].
    destruct (take_digits 2 r6) as [[g4 r7]|] eqn:E7; cbn [mbind option_bind] in Hx; [|discriminate].
    destruct (take_char 58%N r7) as [r8|] eqn:E8; cbn [mbind option_bind] in Hx; [|discriminate].
    destruct (take_digits 2 r8) as [[g5 r9]|] eqn:E9; cbn [mbind option_bind] in Hx; [|discriminate].
    destruct r9; [|discriminate]. injection Hx as <- <- <- <- <-.
    apply take_digits_Some in E1 as [-> A1], E3 as [-> A2], E5 as [-> A3],
      E7 as [-> A4], E9 as [-> A5].
    apply take_char_Some in E2 as ->, E4 as ->, E8 as ->.
    unfold take_spaces in E6. destruct r5 as [|c r5]; [discriminate|].
    destruct (is_white_space c) eqn:Hc; [|discriminate].
    injection E6 as E6.
    destruct (trimStart_split r5) as (ws & Hs & Hf). rewrite E6 in Hs.
    exists (c :: ws). rewrite Hs, app_nil_r.
    repeat split; try assumption; try apply A1; try apply A2; try apply A3;
      try apply A4; try apply A5; [discriminate|constructor; assumption].
  - intros (ws & -> & A1 & A2 & A3 & A4 & A5 & Hne & Hws).
    assert (T : forall n g r, all_digits n g -> take_digits n (g ++ r) = Some (g, r))
      by (intros; apply take_digits_Some; auto).
    rewrite (T _ _ _ A1).
    cbn [mbind option_bind app take_char]. rewrite N.eqb_refl.
    cbn [mbind option_bind]. rewrite (T _ _ _ A2).
    cbn [mbind option_bind app take_char]. rewrite N.eqb_refl.
    cbn [mbind option_bind]. rewrite (T _ _ _ A3).
    destruct ws as [|c ws]; [contradiction|].
    inversion Hws as [|? ? Hc Hws']; subst.
    cbn [mbind option_bind app take_spaces]. rewrite Hc.
    cbn [mbind option_bind].
    rewrite (trimStart_spaces _ _ Hws'), (trimStart_digit _ _ A4).
    rewrite (T _ _ _ A4).
    cbn [mbind option_bind app take_char]. rewrite N.eqb_refl.
    cbn [mbind option_bind].
    pose proof (T _ MI [] A5) as T5. rewrite app_nil_r in T5.
    rewrite T5. reflexivity.
Qed.

Lemma digit_value_range c : is_digit c = true -> 0 <= digit_value c <= 9.
Proof.
  unfold is_digit, digit_value. intros H.
  apply andb_true_iff in H as [H1 H2]. apply N.leb_le in H1, H2. lia.
Qed.

Lemma Number_of_digits_bound n g :
  all_digits n g -> 0 <= Number_of_digits g < 10 ^ Z.of_nat n.
Proof.
  intros [<- Hf]. unfold Number_of_digits.
  enough (G : forall acc, 0 <= acc ->
            0 <= fold_left (fun a c => 10 * a + digit_value c) g acc
            < (acc + 1) * 10 ^ Z.of_nat (length g))
    by (specialize (G 0 ltac:(lia)); lia).
  induction Hf as [|c g Hc _ IH]; intros acc Hacc.
  - cbn. lia.
  - cbn [fold_left length]. pose proof (digit_value_range c Hc) as Hv.
    specialize (IH (10 * acc + digit_value c) ltac:(lia)).
    rewrite Nat2Z.inj_succ, Z.pow_succ_r by lia.
    assert (0 < 10 ^ Z.of_nat (length g)) by (apply Z.pow_pos_nonneg; lia).
    nia.
Qed.

Lemma monthStart_range leap m :
  0 <= leap <= 1 -> 0 <= m <= 11 -> 0 <= monthStart leap m <= 335.
Proof. intros Hl Hm. month_cases m; cbn [monthStart]; lia. Qed.

Lemma full_year_range yyyy :
  0 <= yyyy < 10000 -> 100 <= full_year yyyy <= 9999.
Proof.
  intros H. unfold full_year.
  destruct (Z.leb_spec 0 yyyy), (Z.leb_spec yyyy 99); cbn; lia.
Qed.

(** The days the validator can name lie well inside the range of time
    values. *)
Lemma MakeDay_bounds y m d :
  100 <= y <= 9999 -> 0 <= m <= 11 -> 1 <= d <= 31 ->
  -700000 <= MakeDay y m d <= 2940000.
Proof.
  intros Hy Hm Hd. unfold MakeDay.
  replace (m / 12) with 0 by euclid. replace (m mod 12) with m by euclid.
  rewrite Z.add_0_r.
  pose proof (leap_cases y) as Hl. cbv zeta in Hl.
  pose proof (monthStart_range (if DaysInYear y =? 366 then 1 else 0) m
                ltac:(lia) Hm).
  pose proof (DayFromYear_mono 100 y ltac:(lia)) as H1.
  pose proof (DayFromYear_mono y 9999 ltac:(lia)) as H2.
  change (DayFromYear 100) with (-683003) in H1.
  change (DayFromYear 9999) with 2932532 in H2. lia.
Qed.

Lemma rules_hold mm dd hh mi :
  first_broken_rule mm dd hh mi = None ->
  1 <= mm <= 12 /\ 1 <= dd <= 31 /\ mi = 0 /\ (0 <= hh <= 23 \/ hh = 24).
Proof.
  unfold first_broken_rule, field_rules. cbn [find rule_holds].
  destruct (Z.leb_spec 1 mm), (Z.leb_spec mm 12); cbn [andb negb]; try discriminate.
  destruct (Z.leb_spec 1 dd), (Z.leb_spec dd 31); cbn [andb negb]; try discriminate.
  destruct (Z.eqb_spec mi 0); cbn [negb]; try discriminate.
  destruct (Z.leb_spec 0 hh), (Z.leb_spec hh 23), (Z.eqb_spec hh 24);
    cbn [andb orb negb]; try discriminate; intros _; lia.
Qed.

(** What the validator answers on a well-shaped input that breaks a rule:
    the message of the first rule broken. *)
Lemma rejected_by_rule tza input Y M D H MI r :
  made_at_pattern (trim input) Y M D H MI ->
  first_broken_rule (Number_of_digits M) (Number_of_digits D)
                    (Number_of_digits H) (Number_of_digits MI) = Some r ->
  parseArtworkMadeAt tza input = Normal (rejected (rule_message r)).
Proof.
  intros Hpat. apply regex_exec_spec in Hpat.
  unfold parseArtworkMadeAt. rewrite Hpat. cbv zeta.
  unfold first_broken_rule, field_rules. cbn [find rule_holds].
  set (mm := Number_of_digits M). set (dd := Number_of_digits D).
  set (hh := Number_of_digits H). set (mi := Number_of_digits MI).
  replace ((mm <? 1) || (12 <? mm)) with (negb ((1 <=? mm) && (mm <=? 12)))
    by (destruct (Z.leb_spec 1 mm), (Z.leb_spec mm 12), (Z.ltb_spec mm 1),
          (Z.ltb_spec 12 mm); cbn [andb orb negb]; lia).
  destruct (negb ((1 <=? mm) && (mm <=? 12))); [intros [= <-]; cbn [rule_message]; reflexivity|].
  replace ((dd <? 1) || (31 <? dd)) with (negb ((1 <=? dd) && (dd <=? 31)))
    by (destruct (Z.leb_spec 1 dd), (Z.leb_spec dd 31), (Z.ltb_spec dd 1),
          (Z.ltb_spec 31 dd); cbn [andb orb negb]; lia).
  destruct (negb ((1 <=? dd) && (dd <=? 31))); [intros [= <-]; cbn [rule_message]; reflexivity|].
  destruct (negb (mi =? 0)); [intros [= <-]; cbn [rule_message]; reflexivity|].
  rewrite (orb_comm (hh =? 24)).
  destruct (negb ((0 <=? hh) && (hh <=? 23) || (hh =? 24)));
    [intros [= <-]; cbn [rule_message]; reflexivity|discriminate].
Qed.

(** What the validator answers on a well-shaped input that breaks no rule:
    the ISO string of the instant [u], whose local time is the start of
    the day built from the fields plus the hours, a whole day for 24. *)
Lemma accepted_value tza input Y M D H MI :
  - msPerDay < tza < msPerDay ->
  made_at_pattern (trim input) Y M D H MI ->
  let yyyy := Number_of_digits Y in
  let mm := Number_of_digits M in
  let dd := Number_of_digits D in
  let hh := Number_of_digits H in
  let mi := Number_of_digits MI in
  first_broken_rule mm dd hh mi = None ->
  let start := MakeDate (MakeDay (full_year yyyy) (mm - 1) dd) 0 in
  let u := start + (if hh =? 24 then msPerDay else hh * msPerHour) - tza in
  Date_of_fields tza yyyy (mm - 1) dd 0 0 0 0 = Some (start - tza)
  /\ exists s, toISOString (Some u) = Normal s
               /\ parseArtworkMadeAt tza input
                  = Normal {| iso := Some s; error := None |}.
Proof.
  intros Htza Hpat yyyy mm dd hh mi Hrules start u.
  apply rules_hold in Hrules as (Hmm & Hdd & Hmi & Hhh).
  assert (Hy : 0 <= yyyy < 10000).
  { destruct Hpat as (ws & _ & A1 & _).
    apply (Number_of_digits_bound 4 Y A1). }
  pose proof (full_year_range yyyy Hy) as Hfy.
  pose proof (MakeDay_bounds (full_year yyyy) (mm - 1) dd Hfy
                ltac:(lia) Hdd) as Hday.
  assert (Hbase : Date_of_fields tza yyyy (mm - 1) dd 0 0 0 0 = Some (start - tza)).
  { unfold Date_of_fields, UTC. apply TimeClip_in_range.
    unfold MakeDate, MakeTime, maxTime, msPerDay in *. lia. }
  split; [exact Hbase|].
  assert (Hstart : Day start = MakeDay (full_year yyyy) (mm - 1) dd
                   /\ TimeWithinDay start = 0).
  { split; [apply Day_MakeDate|apply TimeWithinDay_MakeDate];
      unfold msPerDay; lia. }
  destruct Hstart as [Hds Hts].
  destruct (toISOString (Some u)) as [s|] eqn:Hs; [|discriminate].
  exists s. split; [reflexivity|].
  apply regex_exec_spec in Hpat.
  unfold parseArtworkMadeAt. rewrite Hpat. cbv zeta.
  fold yyyy mm dd hh mi. rewrite Hbase.
  replace ((mm <? 1) || (12 <? mm)) with false
    by (destruct (Z.ltb_spec mm 1), (Z.ltb_spec 12 mm); cbn; lia).
  replace ((dd <? 1) || (31 <? dd)) with false
    by (destruct (Z.ltb_spec dd 1), (Z.ltb_spec 31 dd); cbn; lia).
  replace (negb (mi =? 0)) with false
    by (destruct (Z.eqb_spec mi 0); cbn; lia).
  replace (negb ((hh =? 24) || (0 <=? hh) && (hh <=? 23))) with false
    by (destruct (Z.eqb_spec hh 24), (Z.leb_spec 0 hh), (Z.leb_spec hh 23);
        cbn; lia).
  destruct (Z.eqb_spec hh 24) as [E24|N24].
  - rewrite setDate_tomorrow
      by (unfold start, MakeDate, maxTime, msPerDay in *; lia).
    rewrite (setHours_value tza _ 0 u).
    + rewrite Hs. reflexivity.
    + unfold u, LocalTime, MakeTime.
      replace (start - tza + msPerDay + tza) with (MakeDate (Day start + 1) 0)
        by (rewrite Hds; unfold start, MakeDate; lia).
      rewrite Day_MakeDate by (unfold msPerDay; lia).
      rewrite Hds. unfold start, MakeDate. lia.
    + unfold u, start, MakeDate, maxTime, msPerDay in *. lia.
  - rewrite (setHours_value tza _ hh u).
    + rewrite Hs. reflexivity.
    + unfold u, LocalTime, MakeTime.
      replace (start - tza + tza) with start by lia.
      rewrite Hds. unfold start, MakeDate. lia.
    + unfold u, start, MakeDate, maxTime, msPerDay, msPerHour in *. lia.
Qed.

Lemma time_fields_of_MakeDate day hh :
  0 <= hh <= 23 ->
  let t := MakeDate day (hh * msPerHour) in
  HourFromTime t = hh /\ MinFromTime t = 0 /\ SecFromTime t = 0.
Proof.
  intros Hh t. unfold t, HourFromTime, MinFromTime, SecFromTime, MakeDate,
    msPerDay, msPerHour, msPerMinute, msPerSecond.
  repeat split; euclid.
Qed.

Lemma pattern_of_exec t Y M D H MI :
  made_at_regex_exec t = Some (Y, M, D, H, MI) -> made_at_pattern t Y M D H MI.
Proof. apply regex_exec_spec. Qed.

Lemma no_pattern_no_exec t :
  (forall Y M D H MI, ~ made_at_pattern t Y M D H MI) ->
  made_at_regex_exec t = None.
Proof.
  intros Hno. destruct (made_at_regex_exec t) as [[[[[Y M] D] H] MI]|] eqn:E;
    [|reflexivity].
  exfalso. exact (Hno _ _ _ _ _ (pattern_of_exec _ _ _ _ _ _ E)).
Qed.

Lemma messages_distinct :
  NoDup [err_pattern; err_month; err_day; err_minutes; err_hours].
Proof.
  apply (NoDup_fmap_1 (hd 0%N)). vm_compute.
  repeat (constructor;
          [rewrite ?not_elem_of_cons; repeat split; try discriminate;
           apply not_elem_of_nil|]).
  constructor.
Qed.

Lemma accepted_rule_consequences tza input Y M D H MI :
  - msPerDay < tza < msPerDay ->
  made_at_pattern (trim input) Y M D H MI ->
  let yyyy := Number_of_digits Y in
  let mm := Number_of_digits M in
  let dd := Number_of_digits D in
  let hh := Number_of_digits H in
  let mi := Number_of_digits MI in
  first_broken_rule mm dd hh mi = None ->
  exists b u s,
    Date_of_fields tza yyyy (mm - 1) dd 0 0 0 0 = Some b
    /\ toISOString (Some u) = Normal s
    /\ parseArtworkMadeAt tza input
       = Normal {| iso := Some s; error := None |}
    /\ (hh <> 24 -> LocalTime tza u = LocalTime tza b + hh * msPerHour)
    /\ (hh = 24 ->
        Day (LocalTime tza u) = Day (LocalTime tza b) + 1
        /\ TimeWithinDay (LocalTime tza u) = 0).
Proof.
  intros Htza Hpat yyyy mm dd hh mi Hr.
  destruct (accepted_value tza input Y M D H MI Htza Hpat Hr)
    as (Hb & s & Hs & Hp).
  fold yyyy mm dd hh in Hb, Hs.
  set (start := MakeDate (MakeDay (full_year yyyy) (mm - 1) dd) 0) in *.
  exists (start - tza),
    (start + (if hh =? 24 then msPerDay else hh * msPerHour) - tza), s.
  split; [exact Hb|]. split; [exact Hs|]. split; [exact Hp|].
  unfold LocalTime. split.
  - intros Hne. destruct (Z.eqb_spec hh 24); [contradiction|lia].
  - intros E. rewrite E. cbn [Z.eqb Pos.eqb].
    replace (start + msPerDay - tza + tza)
      with (MakeDate (MakeDay (full_year yyyy) (mm - 1) dd + 1) 0)
      by (unfold start, MakeDate; lia).
    replace (start - tza + tza) with start by lia. unfold start.
    rewrite !Day_MakeDate, TimeWithinDay_MakeDate
      by (unfold msPerDay; lia).
    split; reflexivity.
Qed.

Lemma example_patterns :
  made_at_pattern (trim (lit "2024-01-15 24:00"))
    (lit "2024") (lit "01") (lit "15") (lit "24") (lit "00")
  /\ made_at_pattern (trim (lit "2024-01-15 23:30"))
       (lit "2024") (lit "01") (lit "15") (lit "23") (lit "30")
  /\ made_at_pattern (trim (lit "2024-13-01 24:00"))
       (lit "2024") (lit "13") (lit "01") (lit "24") (lit "00")
  /\ made_at_pattern (trim (lit "2024-02-31 10:00"))
       (lit "2024") (lit "02") (lit "31") (lit "10") (lit "00").
Proof.
  repeat split; apply pattern_of_exec; vm_compute; reflexivity.
Qed.

Lemma example_midnight tza :
  - msPerDay < tza < msPerDay ->
  exists u s,
    parseArtworkMadeAt tza (lit "2024-01-15 24:00")
    = Normal {| iso := Some s; error := None |}
    /\ toISOString (Some u) = Normal s
    /\ LocalTime tza u = 1705363200000.
Proof.
  intros Htza. destruct example_patterns as (Hpat & _).
  assert (Hr : first_broken_rule (Number_of_digits (lit "01"))
                 (Number_of_digits (lit "15")) (Number_of_digits (lit "24"))
                 (Number_of_digits (lit "00")) = None)
    by (vm_compute; reflexivity).
  destruct (accepted_value tza _ _ _ _ _ _ Htza Hpat Hr) as (_ & s & Hs & Hp).
  eexists _, s. split; [exact Hp|]. split; [exact Hs|].
  unfold LocalTime.
  assert (Hv : MakeDate (MakeDay (full_year (Number_of_digits (lit "2024")))
                           (Number_of_digits (lit "01") - 1)
                           (Number_of_digits (lit "15"))) 0
               + (if Number_of_digits (lit "24") =? 24 then msPerDay
                  else Number_of_digits (lit "24") * msPerHour)
               = 1705363200000)
    by (vm_compute; reflexivity).
  lia.
Qed.

Lemma example_rejections tza :
  parseArtworkMadeAt tza (lit "2024-01-15 23:30") = Normal (rejected err_minutes)
  /\ parseArtworkMadeAt tza (lit "2024-13-01 24:00") = Normal (rejected err_month)
  /\ parseArtworkMadeAt tza (lit "abc") = Normal (rejected err_pattern).
Proof.
  destruct example_patterns as (_ & Hp1 & Hp2 & _).
  split; [|split].
  - apply (rejected_by_rule tza _ _ _ _ _ _ MinutesRule Hp1).
    vm_compute. reflexivity.
  - apply (rejected_by_rule tza _ _ _ _ _ _ MonthRule Hp2).
    vm_compute. reflexivity.
  - vm_compute. reflexivity.
Qed.

(** C1. For every input the validator applies its rules in the order
    pattern, month in [1,12], day in [1,31], minutes 00, hours in [0,23] or
    24, and answers the message of the first rule broken; the five messages
    differ. An input that breaks none is accepted with the ISO string of an
    instant [u]: for an hour up to 23 it lies that many hours after the
    local midnight [b] that the Date constructor builds from the fields,
    and for hour 24 it is the local midnight of the day after [b].
    "2024-01-15 24:00" gives local 2024-01-16 00:00:00, "2024-01-15 23:30"
    is rejected for its minutes, "2024-13-01 24:00" for its month and "abc"
    for its shape. *)
Theorem parseArtworkMadeAt_rules (tza : Z) (input : jsstring) :
  - msPerDay < tza < msPerDay ->
  ((forall Y M D H MI, ~ made_at_pattern (trim input) Y M D H MI) ->
   parseArtworkMadeAt tza input = Normal (rejected err_pattern))
  /\ (forall Y M D H MI,
        made_at_pattern (trim input) Y M D H MI ->
        let yyyy := Number_of_digits Y in
        let mm := Number_of_digits M in
        let dd := Number_of_digits D in
        let hh := Number_of_digits H in
        let mi := Number_of_digits MI in
        match first_broken_rule mm dd hh mi with
        | Some r =>
          parseArtworkMadeAt tza input = Normal (rejected (rule_message r))
        | None =>
          exists b u s,
            Date_of_fields tza yyyy (mm - 1) dd 0 0 0 0 = Some b
            /\ toISOString (Some u) = Normal s
            /\ parseArtworkMadeAt tza input
               = Normal {| iso := Some s; error := None |}
            /\ (hh <> 24 -> LocalTime tza u = LocalTime tza b + hh * msPerHour)
            /\ (hh = 24 ->
                Day (LocalTime tza u) = Day (LocalTime tza b) + 1
                /\ TimeWithinDay (LocalTime tza u) = 0)
        end)
  /\ NoDup [err_pattern; err_month; err_day; err_minutes; err_hours]
  /\ (exists u s,
        parseArtworkMadeAt tza (lit "2024-01-15 24:00")
        = Normal {| iso := Some s; error := None |}
        /\ toISOString (Some u) = Normal s
        /\ YearFromTime (LocalTime tza u) = 2024
        /\ MonthFromTime (LocalTime tza u) = 0
        /\ DateFromTime (LocalTime tza u) = 16
        /\ HourFromTime (LocalTime tza u) = 0
        /\ MinFromTime (LocalTime tza u) = 0
        /\ SecFromTime (LocalTime tza u) = 0)
  /\ parseArtworkMadeAt tza (lit "2024-01-15 23:30") = Normal (rejected err_minutes)
  /\ parseArtworkMadeAt tza (lit "2024-13-01 24:00") = Normal (rejected err_month)
  /\ parseArtworkMadeAt tza (lit "abc") = Normal (rejected err_pattern).
Proof.
  intros Htza. split; [|split; [|split; [|split]]].
  - intros Hno. unfold parseArtworkMadeAt.
    rewrite (no_pattern_no_exec _ Hno). reflexivity.
  - intros Y M D H MI Hpat yyyy mm dd hh mi.
    destruct (first_broken_rule mm dd hh mi) as [r|] eqn:Hr.
    + exact (rejected_by_rule tza input Y M D H MI r Hpat Hr).
    + exact (accepted_rule_consequences tza input Y M D H MI Htza Hpat Hr).
  - exact messages_distinct.
  - destruct (example_midnight tza Htza) as (u & s & Hp & Hs & Hl).
    exists u, s. split; [exact Hp|]. split; [exact Hs|].
    rewrite Hl. vm_compute. repeat split.
  - exact (example_rejections tza).
Qed.

Lemma parseArtworkMadeAt_rules_witness :
  - msPerDay < 32400000 < msPerDay
  /\ parseArtworkMadeAt 32400000 (lit "2024-01-15 23:30")
     = Normal (rejected err_minutes).
Proof.
  assert (H : - msPerDay < 32400000 < msPerDay) by (unfold msPerDay; lia).
  split; [exact H|].
  exact (proj1 (proj2 (proj2 (proj2 (proj2
           (parseArtworkMadeAt_rules 32400000 (lit "2024-01-15 24:00") H)))))).
Defined.

(** C9. The validator has no month-length check: with the other rules met,
    every day from 1 to 31 is accepted in every month, at every hour from
    0 to 23 and at 24:00. With an hour up to 23 the local calendar date of
    the result is the day given when the month has that many days; a day
    past the end of the month lands in the following month, as many days
    in as it exceeds the month's length. At 24:00 the result is the local
    midnight that ends that day: the date is one day further, rolling
    over in the same way, and after 31 December into 1 January of the next
    year. "2024-02-31 10:00" is accepted and gives local 2024-03-02 10:00,
    and "2024-02-31 24:00" gives local 2024-03-03 00:00. *)
Theorem day_past_month_end_rolls_over (tza : Z) :
  - msPerDay < tza < msPerDay ->
  (forall input Y M D H MI,
      made_at_pattern (trim input) Y M D H MI ->
      let yyyy := Number_of_digits Y in
      let mm := Number_of_digits M in
      let dd := Number_of_digits D in
      let hh := Number_of_digits H in
      let mi := Number_of_digits MI in
      1 <= mm <= 12 -> 1 <= dd <= 31 -> mi = 0 -> 0 <= hh <= 24 ->
      exists u s,
        toISOString (Some u) = Normal s
        /\ parseArtworkMadeAt tza input
           = Normal {| iso := Some s; error := None |}
        /\ MinFromTime (LocalTime tza u) = 0
        /\ (hh <= 23 ->
            YearFromTime (LocalTime tza u) = full_year yyyy
            /\ HourFromTime (LocalTime tza u) = hh
            /\ (dd <= DaysInMonth (full_year yyyy) (mm - 1) ->
                MonthFromTime (LocalTime tza u) = mm - 1
                /\ DateFromTime (LocalTime tza u) = dd)
            /\ (DaysInMonth (full_year yyyy) (mm - 1) < dd ->
                MonthFromTime (LocalTime tza u) = mm
                /\ DateFromTime (LocalTime tza u)
                   = dd - DaysInMonth (full_year yyyy) (mm - 1)))
        /\ (hh = 24 ->
            HourFromTime (LocalTime tza u) = 0
            /\ (dd + 1 <= DaysInMonth (full_year yyyy) (mm - 1) ->
                YearFromTime (LocalTime tza u) = full_year yyyy
                /\ MonthFromTime (LocalTime tza u) = mm - 1
                /\ DateFromTime (LocalTime tza u) = dd + 1)
            /\ (DaysInMonth (full_year yyyy) (mm - 1) < dd + 1 -> mm <= 11 ->
                YearFromTime (LocalTime tza u) = full_year yyyy
                /\ MonthFromTime (LocalTime tza u) = mm
                /\ DateFromTime (LocalTime tza u)
                   = dd + 1 - DaysInMonth (full_year yyyy) (mm - 1))
            /\ (DaysInMonth (full_year yyyy) (mm - 1) < dd + 1 -> mm = 12 ->
                YearFromTime (LocalTime tza u) = full_year yyyy + 1
                /\ MonthFromTime (LocalTime tza u) = 0
                /\ DateFromTime (LocalTime tza u) = 1)))
  /\ (exists u s,
        parseArtworkMadeAt tza (lit "2024-02-31 10:00")
        = Normal {| iso := Some s; error := None |}
        /\ toISOString (Some u) = Normal s
        /\ YearFromTime (LocalTime tza u) = 2024
        /\ MonthFromTime (LocalTime tza u) = 2
        /\ DateFromTime (LocalTime tza u) = 2
        /\ HourFromTime (LocalTime tza u) = 10
        /\ MinFromTime (LocalTime tza u) = 0)
  /\ (exists u s,
        parseArtworkMadeAt tza (lit "2024-02-31 24:00")
        = Normal {| iso := Some s; error := None |}
        /\ toISOString (Some u) = Normal s
        /\ YearFromTime (LocalTime tza u) = 2024
        /\ MonthFromTime (LocalTime tza u) = 2
        /\ DateFromTime (LocalTime tza u) = 3
        /\ HourFromTime (LocalTime tza u) = 0
        /\ MinFromTime (LocalTime tza u) = 0).
Proof.
  intros Htza.
  assert (G : forall input Y M D H MI,
      made_at_pattern (trim input) Y M D H MI ->
      let yyyy := Number_of_digits Y in
      let mm := Number_of_digits M in
      let dd := Number_of_digits D in
      let hh := Number_of_digits H in
      let mi := Number_of_digits MI in
      1 <= mm <= 12 -> 1 <= dd <= 31 -> mi = 0 -> 0 <= hh <= 24 ->
      exists u s,
        toISOString (Some u) = Normal s
        /\ parseArtworkMadeAt tza input
           = Normal {| iso := Some s; error := None |}
        /\ MinFromTime (LocalTime tza u) = 0
        /\ (hh <= 23 ->
            YearFromTime (LocalTime tza u) = full_year yyyy
            /\ HourFromTime (LocalTime tza u) = hh
            /\ (dd <= DaysInMonth (full_year yyyy) (mm - 1) ->
                MonthFromTime (LocalTime tza u) = mm - 1
                /\ DateFromTime (LocalTime tza u) = dd)
            /\ (DaysInMonth (full_year yyyy) (mm - 1) < dd ->
                MonthFromTime (LocalTime tza u) = mm
                /\ DateFromTime (LocalTime tza u)
                   = dd - DaysInMonth (full_year yyyy) (mm - 1)))
        /\ (hh = 24 ->
            HourFromTime (LocalTime tza u) = 0
            /\ (dd + 1 <= DaysInMonth (full_year yyyy) (mm - 1) ->
                YearFromTime (LocalTime tza u) = full_year yyyy
                /\ MonthFromTime (LocalTime tza u) = mm - 1
                /\ DateFromTime (LocalTime tza u) = dd + 1)
            /\ (DaysInMonth (full_year yyyy) (mm - 1) < dd + 1 -> mm <= 11 ->
                YearFromTime (LocalTime tza u) = full_year yyyy
                /\ MonthFromTime (LocalTime tza u) = mm
                /\ DateFromTime (LocalTime tza u)
                   = dd + 1 - DaysInMonth (full_year yyyy) (mm - 1))
            /\ (DaysInMonth (full_year yyyy) (mm - 1) < dd + 1 -> mm = 12 ->
                YearFromTime (LocalTime tza u) = full_year yyyy + 1
                /\ MonthFromTime (LocalTime tza u) = 0
                /\ DateFromTime (LocalTime tza u) = 1))).
  { intros input Y M D H MI Hpat yyyy mm dd hh mi Hmm Hdd Hmi Hhh.
    assert (Hr : first_broken_rule mm dd hh mi = None).
    { unfold first_broken_rule, field_rules. cbn [find rule_holds].
      destruct (Z.leb_spec 1 mm), (Z.leb_spec mm 12), (Z.leb_spec 1 dd),
        (Z.leb_spec dd 31), (Z.eqb_spec mi 0), (Z.leb_spec 0 hh),
        (Z.leb_spec hh 23), (Z.eqb_spec hh 24);
        cbn [andb orb negb]; try lia; reflexivity. }
    destruct (accepted_value tza input Y M D H MI Htza Hpat Hr)
      as (_ & s & Hs & Hp).
    fold yyyy mm dd hh in Hs.
    destruct (Z.eqb_spec hh 24) as [H24|Hn24].
    - eexists _, s. split; [exact Hs|]. split; [exact Hp|].
      unfold LocalTime.
      replace (MakeDate (MakeDay (full_year yyyy) (mm - 1) dd) 0
               + msPerDay - tza + tza)
        with (MakeDate (MakeDay (full_year yyyy) (mm - 1) (dd + 1))
                (0 * msPerHour))
        by (unfold MakeDate, MakeDay; lia).
      destruct (time_fields_of_MakeDate
                  (MakeDay (full_year yyyy) (mm - 1) (dd + 1)) 0 ltac:(lia))
        as (Hh & Hmin & _).
      destruct (fields_of_MakeDay_next (full_year yyyy) (mm - 1) (dd + 1)
                  (0 * msPerHour) ltac:(lia) ltac:(lia)
                  ltac:(unfold msPerDay, msPerHour; lia))
        as (Hin & Hover & Hnext).
      split; [exact Hmin|]. split; [intros Hle; lia|]. intros _.
      split; [exact Hh|]. split; [exact Hin|]. split.
      + intros Hlt Hm11. destruct (Hover Hlt ltac:(lia)) as (Hy & Hm & Hd).
        split; [exact Hy|]. split; [rewrite Hm; lia|exact Hd].
      + intros Hlt Hm12. apply (Hnext Hlt). lia.
    - eexists _, s. split; [exact Hs|]. split; [exact Hp|].
      unfold LocalTime.
      replace (MakeDate (MakeDay (full_year yyyy) (mm - 1) dd) 0
               + hh * msPerHour - tza + tza)
        with (MakeDate (MakeDay (full_year yyyy) (mm - 1) dd) (hh * msPerHour))
        by (unfold MakeDate; lia).
      destruct (fields_of_MakeDay (full_year yyyy) (mm - 1) dd (hh * msPerHour)
                  ltac:(lia) Hdd ltac:(unfold msPerDay, msPerHour; lia))
        as (Hy & Hin & Hover).
      destruct (time_fields_of_MakeDate
                  (MakeDay (full_year yyyy) (mm - 1) dd) hh ltac:(lia))
        as (Hh & Hmin & _).
      split; [exact Hmin|]. split; [|intros E; lia]. intros _.
      split; [exact Hy|]. split; [exact Hh|]. split; [exact Hin|].
      intros Hlt. destruct (Hover Hlt) as [Hm Hd].
      split; [rewrite Hm; lia|exact Hd]. }
  split; [exact G|]. split.
  - destruct example_patterns as (_ & _ & _ & Hpat).
    destruct (G _ _ _ _ _ _ Hpat ltac:(vm_compute; split; discriminate)
                ltac:(vm_compute; split; discriminate)
                ltac:(vm_compute; reflexivity)
                ltac:(vm_compute; split; discriminate))
      as (u & s & Hs & Hp & Hmin & Hday & _).
    destruct (Hday ltac:(vm_compute; discriminate)) as (Hy & Hh & _ & Hover).
    exists u, s. split; [exact Hp|]. split; [exact Hs|].
    split; [exact Hy|].
    destruct (Hover ltac:(vm_compute; reflexivity)) as [Hm Hd].
    split; [exact Hm|]. split; [exact Hd|]. split; [exact Hh|exact Hmin].
  - assert (Hpat : made_at_pattern (trim (lit "2024-02-31 24:00"))
                     (lit "2024") (lit "02") (lit "31") (lit "24") (lit "00"))
      by (apply pattern_of_exec; vm_compute; reflexivity).
    destruct (G _ _ _ _ _ _ Hpat ltac:(vm_compute; split; discriminate)
                ltac:(vm_compute; split; discriminate)
                ltac:(vm_compute; reflexivity)
                ltac:(vm_compute; split; discriminate))
      as (u & s & Hs & Hp & Hmin & _ & Hnight).
    destruct (Hnight ltac:(vm_compute; reflexivity)) as (Hh & _ & Hover & _).
    destruct (Hover ltac:(vm_compute; reflexivity)
                ltac:(vm_compute; discriminate)) as (Hy & Hm & Hd).
    exists u, s. split; [exact Hp|]. split; [exact Hs|].
    split; [exact Hy|]. split; [exact Hm|]. split; [exact Hd|].
    split; [exact Hh|exact Hmin].
Qed.

Lemma day_past_month_end_rolls_over_witness :
  - msPerDay < 32400000 < msPerDay
  /\ (exists u s,
        parseArtworkMadeAt 32400000 (lit "2024-02-31 10:00")
        = Normal {| iso := Some s; error := None |}
        /\ toISOString (Some u) = Normal s
        /\ YearFromTime (LocalTime 32400000 u) = 2024
        /\ MonthFromTime (LocalTime 32400000 u) = 2
        /\ DateFromTime (LocalTime 32400000 u) = 2
        /\ HourFromTime (LocalTime 32400000 u) = 10
        /\ MinFromTime (LocalTime 32400000 u) = 0)
  /\ (exists u s,
        parseArtworkMadeAt 32400000 (lit "2024-02-31 24:00")
        = Normal {| iso := Some s; error := None |}
        /\ toISOString (Some u) = Normal s
        /\ YearFromTime (LocalTime 32400000 u) = 2024
        /\ MonthFromTime (LocalTime 32400000 u) = 2
        /\ DateFromTime (LocalTime 32400000 u) = 3
        /\ HourFromTime (LocalTime 32400000 u) = 0
        /\ MinFromTime (LocalTime 32400000 u) = 0).
Proof.
  assert (H : - msPerDay < 32400000 < msPerDay) by (unfold msPerDay; lia).
  split; [exact H|].
  exact (proj2 (day_past_month_end_rolls_over 32400000 H)).
Defined.

End UploadFacts.

(* ===================================================================== *)
(** ** Manage page: facts *)
(* ===================================================================== *)

Module ManageFacts.
Import JS Manage.

Lemma toISOString_valid t : exists s, toISOString (Some t) = Normal s.
Proof. cbn [toISOString]. eexists. reflexivity. Qed.

Lemma toISO_of_value v :
  - maxTime <= v <= maxTime ->
  exists s, toISOString (Some v) = Normal s
            /\ toISO (Date_of_value v) = Normal s.
Proof.
  intros Hv. destruct (toISOString_valid v) as [s Hs]. exists s.
  split; [exact Hs|]. unfold toISO, Date_of_value.
  rewrite (JSFacts.TimeClip_in_range v Hv). exact Hs.
Qed.

(** The requests a handler adds to the log. *)
Lemma reload_and_finish_log load_resp pg w :
  exists pg' rest,
    reload_and_finish load_resp pg w
    = Done pg' {| artworks := artworks w; bucket := bucket w;
                  log := log w ++ rest |}
    /\ busyId pg' = None
    /\ (forall c, In c rest -> exists f, c = SelectArtworks f).
Proof.
  unfold reload_and_finish.
  destruct (myFamilyId pg) as [f|]; [destruct (truthy f)|].
  - unfold load, remote_select. destruct (error load_resp); cbn;
      (eexists _, [SelectArtworks f]; split; [reflexivity|]; split;
       [reflexivity|]; intros c [<-|[]]; eexists; reflexivity).
  - exists (setMsg [] (setBusyId None pg)), []. rewrite app_nil_r.
    destruct w; cbn. split; [reflexivity|]. split; [reflexivity|].
    intros c [].
  - exists (setMsg [] (setBusyId None pg)), []. rewrite app_nil_r.
    destruct w; cbn. split; [reflexivity|]. split; [reflexivity|].
    intros c [].
Qed.

(** What a handler does from its update request on, whatever the answer;
    [k] is what it does to the page on an error. *)
Lemma after_update upd_err load_resp art p_public p_until pg
  (k : jsstring -> Page) w :
  let w1 := remote_update upd_err (id art) p_public p_until w in
  let o := match upd_err with
           | Some message => Done (k message) w1
           | None => reload_and_finish load_resp pg w1
           end in
  (exists pg', o = Done pg' (world_of o))
  /\ exists rest,
       log (world_of o)
       = log w ++ UpdateArtwork (id art) p_public p_until :: rest
       /\ (forall c, In c rest -> exists f, c = SelectArtworks f)
       /\ artworks (world_of o)
          = match upd_err with
            | None => alter (with_payload p_public p_until) (id art) (artworks w)
            | Some _ => artworks w
            end
       /\ bucket (world_of o) = bucket w.
Proof.
  intros w1 o. subst o. destruct upd_err as [message|].
  - split; [exists (k message); reflexivity|].
    exists []. cbn. repeat split. intros c [].
  - destruct (reload_and_finish_log load_resp pg w1)
      as (pg' & rest & -> & _ & Hrest).
    split; [exists pg'; reflexivity|].
    exists rest. cbn. rewrite <- app_assoc. repeat split. exact Hrest.
Qed.

(** [togglePublic]: either the clock is out of range and nothing is sent,
    or one update is sent with the payload for the opposite visibility. *)
Lemma togglePublic_effect now upd_err load_resp art pg w :
  let o := togglePublic now upd_err load_resp art pg w in
  (is_public art = false
   /\ toISO (Date_of_value (now + TWO_WEEKS_MS)) = ThrowRangeError
   /\ world_of o = w /\ exists pg', o = Rejected pg' w)
  \/ (exists p_until,
        (if is_public art then p_until = None
         else exists s, toISO (Date_of_value (now + TWO_WEEKS_MS)) = Normal s
                        /\ p_until = Some s)
        /\ (exists pg', o = Done pg' (world_of o))
        /\ exists rest,
             log (world_of o)
             = log w ++ UpdateArtwork (id art) (negb (is_public art)) p_until
                        :: rest
             /\ (forall c, In c rest -> exists f, c = SelectArtworks f)
             /\ artworks (world_of o)
                = match upd_err with
                  | None => alter (with_payload (negb (is_public art)) p_until)
                                  (id art) (artworks w)
                  | Some _ => artworks w
                  end
             /\ bucket (world_of o) = bucket w).
Proof.
  intros o. subst o. unfold togglePublic.
  destruct (is_public art) eqn:Hpub; cbn [negb].
  - right. exists None. split; [reflexivity|].
    apply (after_update upd_err load_resp art false None _
             (fun message => setBusyId None (setMsg _ _))).
  - destruct (toISO (Date_of_value (now + TWO_WEEKS_MS))) as [s|] eqn:Hs.
    + right. exists (Some s). split; [exists s; split; reflexivity|].
      apply (after_update upd_err load_resp art true (Some s) _
               (fun message => setBusyId None (setMsg _ _))).
    + left. repeat split. eexists. reflexivity.
Qed.

Lemma extendTwoWeeks_effect now upd_err load_resp art pg w :
  let o := extendTwoWeeks now upd_err load_resp art pg w in
  (toISO (Date_of_value (now + TWO_WEEKS_MS)) = ThrowRangeError
   /\ world_of o = w /\ exists pg', o = Rejected pg' w)
  \/ (exists s,
        toISO (Date_of_value (now + TWO_WEEKS_MS)) = Normal s
        /\ (exists pg', o = Done pg' (world_of o))
        /\ exists rest,
             log (world_of o)
             = log w ++ UpdateArtwork (id art) true (Some s) :: rest
             /\ (forall c, In c rest -> exists f, c = SelectArtworks f)
             /\ artworks (world_of o)
                = match upd_err with
                  | None => alter (with_payload true (Some s))
                                  (id art) (artworks w)
                  | Some _ => artworks w
                  end
             /\ bucket (world_of o) = bucket w).
Proof.
  intros o. subst o. unfold extendTwoWeeks.
  destruct (toISO (Date_of_value (now + TWO_WEEKS_MS))) as [s|] eqn:Hs.
  - right. exists s. split; [reflexivity|].
    apply (after_update upd_err load_resp art true (Some s) _
             (fun message => setBusyId None (setMsg _ _))).
  - left. repeat split. eexists. reflexivity.
Qed.

Section DeleteFacts.
Variable url_storage_path : jsstring -> jsstring.

Lemma deleteArtwork_effect st_err db_err art pg w :
  let path := getStoragePathFromPrivateImagePath url_storage_path
                (private_image_path art) in
  exists pg' w',
    deleteArtwork url_storage_path true st_err db_err art pg w = (pg', w')
    /\ log w' = log w ++ (if truthy path then [RemoveObject path] else [])
                      ++ [DeleteArtwork (id art)]
    /\ bucket w' = (if truthy path
                    then match st_err with
                         | None => bucket w ∖ {[ path ]}
                         | Some _ => bucket w
                         end
                    else bucket w)
    /\ artworks w' = match db_err with
                     | None => delete (id art) (artworks w)
                     | Some _ => artworks w
                     end
    /\ items pg' = match db_err with
                   | None => filter (fun x => id x <> id art) (items pg)
                   | Some _ => items pg
                   end
    /\ busyId pg' = None.
Proof.
  intros path. unfold deleteArtwork. cbn [negb]. fold path.
  destruct (truthy path); destruct st_err, db_err; cbn;
    eexists _, _; (split; [reflexivity|]); cbn;
    rewrite <- ?app_assoc; repeat split.
Qed.

End DeleteFacts.

Lemma private_has_no_deadline_payload p_public p_until r :
  (p_public = false -> p_until = None) ->
  private_has_no_deadline (with_payload p_public p_until r).
Proof. intros H. unfold private_has_no_deadline. cbn. exact H. Qed.

Lemma invariant_after_alter (p_public : bool) (p_until : option jsstring)
  (i : jsstring) (m : gmap jsstring Artwork) :
  (p_public = false -> p_until = None) ->
  map_Forall (fun _ => private_has_no_deadline) m ->
  map_Forall (fun _ => private_has_no_deadline)
             (alter (M := gmap jsstring Artwork)
                    (with_payload p_public p_until) i m).
Proof.
  intros Hp Hm k r Hk. destruct (decide (i = k)) as [->|Hne].
  - rewrite lookup_alter_eq in Hk.
    destruct (m !! k) as [r0|]; [|discriminate]. injection Hk as <-.
    apply private_has_no_deadline_payload, Hp.
  - rewrite lookup_alter_ne in Hk by exact Hne. exact (Hm k r Hk).
Qed.

Lemma In_log_new (l rest : list call) c0 c :
  (forall c', In c' rest -> exists f, c' = SelectArtworks f) ->
  In c (l ++ c0 :: rest) -> In c l \/ c = c0 \/ exists f, c = SelectArtworks f.
Proof.
  intros Hrest Hin. apply in_app_iff in Hin as [Hin|[<-|Hin]]; auto.
Qed.

(** C2. The stored records keep the invariant that a private artwork has
    no public deadline through publish, un-publish, extend and delete,
    whatever the service answers. The one update that [togglePublic] sends
    carries a null [public_until] exactly when it carries [is_public =
    false], and the one that [extendTwoWeeks] sends carries [is_public =
    true]; after an update that succeeds the record of the artwork meets
    the invariant whatever it held before. *)
Theorem mutations_keep_private_without_deadline
  (now : Z) (url_storage_path : jsstring -> jsstring)
  (upd_err : option jsstring) (load_resp : select_response)
  (confirmed : bool) (st_err db_err : option jsstring)
  (art : Artwork) (pg : Page) (w : World) :
  let toggled := world_of (togglePublic now upd_err load_resp art pg w) in
  let extended := world_of (extendTwoWeeks now upd_err load_resp art pg w) in
  let deleted :=
    snd (deleteArtwork url_storage_path confirmed st_err db_err art pg w) in
  (forall i p u,
      In (UpdateArtwork i p u) (log toggled) ->
      In (UpdateArtwork i p u) (log w)
      \/ (i = id art /\ p = negb (is_public art) /\ (p = false <-> u = None)))
  /\ (forall i p u,
        In (UpdateArtwork i p u) (log extended) ->
        In (UpdateArtwork i p u) (log w)
        \/ (i = id art /\ p = true /\ u <> None))
  /\ (map_Forall (fun _ => private_has_no_deadline) (artworks w) ->
      map_Forall (fun _ => private_has_no_deadline) (artworks toggled)
      /\ map_Forall (fun _ => private_has_no_deadline) (artworks extended)
      /\ map_Forall (fun _ => private_has_no_deadline) (artworks deleted))
  /\ (upd_err = None -> - maxTime <= now + TWO_WEEKS_MS <= maxTime ->
      forall r,
        (artworks toggled !! id art = Some r -> private_has_no_deadline r)
        /\ (artworks extended !! id art = Some r -> private_has_no_deadline r)).
Proof.
  intros toggled extended deleted.
  pose proof (togglePublic_effect now upd_err load_resp art pg w) as Ht.
  pose proof (extendTwoWeeks_effect now upd_err load_resp art pg w) as He.
  cbv zeta in Ht, He. fold toggled in Ht. fold extended in He.
  assert (Hpay : forall p_until,
             (if is_public art then p_until = None
              else exists s, toISO (Date_of_value (now + TWO_WEEKS_MS)) = Normal s
                             /\ p_until = Some s) ->
             negb (is_public art) = false <-> p_until = None).
  { intros p_until Hp. destruct (is_public art); cbn.
    - subst. split; reflexivity.
    - destruct Hp as (s & _ & ->). split; discriminate. }
  split; [|split; [|split]].
  - intros i p u Hin.
    destruct Ht as [(_ & _ & -> & _)|(p_until & Hp & _ & rest & Hlog & Hrest & _)];
      [left; exact Hin|].
    rewrite Hlog in Hin.
    destruct (In_log_new _ _ _ _ Hrest Hin) as [Hold|[[= -> -> ->]|[f [=]]]];
      [left; exact Hold|right].
    split; [reflexivity|]. split; [reflexivity|]. exact (Hpay _ Hp).
  - intros i p u Hin.
    destruct He as [(_ & -> & _)|(s & _ & _ & rest & Hlog & Hrest & _)];
      [left; exact Hin|].
    rewrite Hlog in Hin.
    destruct (In_log_new _ _ _ _ Hrest Hin) as [Hold|[[= -> -> ->]|[f [=]]]];
      [left; exact Hold|right].
    repeat split. discriminate.
  - intros Hinv. split; [|split].
    + destruct Ht as [(_ & _ & -> & _)|(p_until & Hp & _ & rest & _ & _ & Hart & _)];
        [exact Hinv|].
      rewrite Hart. destruct upd_err; [exact Hinv|].
      apply invariant_after_alter; [apply (Hpay _ Hp)|exact Hinv].
    + destruct He as [(_ & -> & _)|(s & _ & _ & rest & _ & _ & Hart & _)];
        [exact Hinv|].
      rewrite Hart. destruct upd_err; [exact Hinv|].
      apply invariant_after_alter; [discriminate|exact Hinv].
    + subst deleted. destruct confirmed.
      * destruct (deleteArtwork_effect url_storage_path st_err db_err art pg w)
          as (pg' & w' & -> & _ & _ & Hart & _).
        cbn [snd]. rewrite Hart. destruct db_err; [exact Hinv|].
        apply map_Forall_delete, Hinv.
      * exact Hinv.
  - intros -> Hclock r.
    destruct (toISO_of_value _ Hclock) as (s0 & _ & Hs0).
    split; intros Hr.
    + destruct Ht as [(_ & Hthrow & _)|(p_until & Hp & _ & rest & _ & _ & Hart & _)];
        [congruence|].
      rewrite Hart, lookup_alter_eq in Hr.
      destruct (artworks w !! id art) as [r0|]; [|discriminate].
      injection Hr as <-. apply private_has_no_deadline_payload, (Hpay _ Hp).
    + destruct He as [(Hthrow & _)|(s & _ & _ & rest & _ & _ & Hart & _)];
        [congruence|].
      rewrite Hart, lookup_alter_eq in Hr.
      destruct (artworks w !! id art) as [r0|]; [|discriminate].
      injection Hr as <-. apply private_has_no_deadline_payload. discriminate.
Qed.

Lemma mutations_keep_private_without_deadline_witness :
  map_Forall (fun _ => private_has_no_deadline) (artworks Samples.world0)
  /\ map_Forall (fun _ => private_has_no_deadline)
       (artworks (world_of (togglePublic Samples.now0 None Samples.load0
                              Samples.drawing Samples.page0 Samples.world0))).
Proof.
  assert (H : map_Forall (fun _ => private_has_no_deadline)
                (artworks Samples.world0))
    by (apply map_Forall_singleton; intros _; reflexivity).
  split; [exact H|].
  exact (proj1 (proj1 (proj2 (proj2
           (mutations_keep_private_without_deadline Samples.now0
              (fun raw => raw) None Samples.load0 true None None
              Samples.drawing Samples.page0 Samples.world0))) H)).
Defined.

Lemma lookup_after_update (p_public : bool) (p_until : option jsstring)
  (i : jsstring) (m : gmap jsstring Artwork) r :
  m !! i = Some r ->
  exists r', alter (M := gmap jsstring Artwork)
                   (with_payload p_public p_until) i m !! i = Some r'
             /\ is_public r' = p_public /\ public_until r' = p_until.
Proof.
  intros Hr. exists (with_payload p_public p_until r).
  rewrite lookup_alter_eq, Hr. repeat split.
Qed.

(** C3. With the clock in the range of time values, publishing (toggling a
    private artwork) sends one update with [is_public = true] and the ISO
    string of the instant now + 14 days; un-publishing (toggling a public
    artwork) sends [is_public = false] and a null [public_until]; extending
    sends [is_public = true] and the ISO string of now + 14 days. When the
    service accepts the update, the stored record has exactly those two
    values. *)
Theorem publish_unpublish_extend_payloads
  (now : Z) (upd_err : option jsstring) (load_resp : select_response)
  (art : Artwork) (pg : Page) (w : World) :
  - maxTime <= now + TWO_WEEKS_MS <= maxTime ->
  TWO_WEEKS_MS = 14 * msPerDay
  /\ exists s,
       toISOString (Some (now + 14 * msPerDay)) = Normal s
       /\ (exists pg' w' rest,
             togglePublic now upd_err load_resp art pg w = Done pg' w'
             /\ log w'
                = log w ++ UpdateArtwork (id art) (negb (is_public art))
                             (if is_public art then None else Some s) :: rest
             /\ (forall c, In c rest -> exists f, c = SelectArtworks f)
             /\ (upd_err = None ->
                 forall r, artworks w !! id art = Some r ->
                   exists r', artworks w' !! id art = Some r'
                     /\ is_public r' = negb (is_public art)
                     /\ public_until r'
                        = if is_public art then None else Some s))
       /\ (exists pg' w' rest,
             extendTwoWeeks now upd_err load_resp art pg w = Done pg' w'
             /\ log w' = log w ++ UpdateArtwork (id art) true (Some s) :: rest
             /\ (forall c, In c rest -> exists f, c = SelectArtworks f)
             /\ (upd_err = None ->
                 forall r, artworks w !! id art = Some r ->
                   exists r', artworks w' !! id art = Some r'
                     /\ is_public r' = true /\ public_until r' = Some s)).
Proof.
  intros Hclock. split; [reflexivity|].
  change (14 * msPerDay) with TWO_WEEKS_MS.
  destruct (toISO_of_value _ Hclock) as (s & Hs & Hiso).
  exists s. split; [exact Hs|]. split.
  - destruct (togglePublic_effect now upd_err load_resp art pg w)
      as [(_ & Hthrow & _)|(p_until & Hp & (pg' & Hdone) & rest & Hlog & Hrest & Hart & _)];
      [congruence|].
    exists pg', (world_of (togglePublic now upd_err load_resp art pg w)), rest.
    split; [exact Hdone|].
    assert (Hu : p_until = if is_public art then None else Some s).
    { destruct (is_public art); [exact Hp|].
      destruct Hp as (s' & Hs' & ->). congruence. }
    rewrite <- Hu. split; [exact Hlog|]. split; [exact Hrest|].
    intros -> r Hr. rewrite Hart. apply (lookup_after_update _ _ _ _ r Hr).
  - destruct (extendTwoWeeks_effect now upd_err load_resp art pg w)
      as [(Hthrow & _)|(s' & Hs' & (pg' & Hdone) & rest & Hlog & Hrest & Hart & _)];
      [congruence|].
    assert (s' = s) as -> by congruence.
    exists pg', (world_of (extendTwoWeeks now upd_err load_resp art pg w)), rest.
    split; [exact Hdone|].
    split; [exact Hlog|]. split; [exact Hrest|].
    intros -> r Hr. rewrite Hart. apply (lookup_after_update _ _ _ _ r Hr).
Qed.

Lemma publish_unpublish_extend_payloads_witness :
  - maxTime <= Samples.now0 + TWO_WEEKS_MS <= maxTime
  /\ TWO_WEEKS_MS = 14 * msPerDay.
Proof.
  assert (H : - maxTime <= Samples.now0 + TWO_WEEKS_MS <= maxTime)
    by (vm_compute; split; discriminate).
  split; [exact H|].
  exact (proj1 (publish_unpublish_extend_payloads Samples.now0 None
                  Samples.load0 Samples.drawing Samples.page0
                  Samples.world0 H)).
Defined.

(** C8. A confirmed delete sends the storage removal (when the artwork has
    a storage path) before the database delete, and sends the database
    delete whatever the storage answered. The artwork leaves the in-memory
    list, and the table, only when the database delete succeeds; when it
    fails both are unchanged. A delete that is not confirmed does
    nothing. *)
Theorem deleteArtwork_storage_then_record
  (url_storage_path : jsstring -> jsstring)
  (st_err db_err : option jsstring) (art : Artwork) (pg : Page) (w : World) :
  let path := getStoragePathFromPrivateImagePath url_storage_path
                (private_image_path art) in
  (exists pg' w',
     deleteArtwork url_storage_path true st_err db_err art pg w = (pg', w')
     /\ log w' = log w ++ (if truthy path then [RemoveObject path] else [])
                       ++ [DeleteArtwork (id art)]
     /\ (db_err = None ->
         items pg' = filter (fun x => id x <> id art) (items pg)
         /\ artworks w' = delete (id art) (artworks w))
     /\ (db_err <> None ->
         items pg' = items pg /\ artworks w' = artworks w))
  /\ deleteArtwork url_storage_path false st_err db_err art pg w = (pg, w).
Proof.
  intros path. split; [|reflexivity].
  destruct (deleteArtwork_effect url_storage_path st_err db_err art pg w)
    as (pg' & w' & Hd & Hlog & _ & Hart & Hitems & _).
  exists pg', w'. split; [exact Hd|]. split; [exact Hlog|]. split.
  - intros ->. split; assumption.
  - intros Hne. destruct db_err; [split; assumption|contradiction].
Qed.

(** *** Expiry *)

Lemma isExpired_true_iff Date_parse now a :
  Date_parse [] = None ->
  isExpired Date_parse now a = true
  <-> is_public a = true
      /\ exists iso t, public_until a = Some iso
                       /\ Date_parse iso = Some t /\ t <= now.
Proof.
  intros Hempty. unfold isExpired.
  destruct (is_public a); cbn [negb].
  2:{ split; [discriminate|]. intros [[=] _]. }
  destruct (public_until a) as [iso|].
  2:{ split; [discriminate|]. intros (_ & iso & t & [=] & _). }
  destruct iso as [|c iso]; cbn [truthy negb].
  { split; [discriminate|]. intros (_ & iso & t & [= <-] & Hp & _). congruence. }
  destruct (Date_parse (c :: iso)) as [t|] eqn:Hp.
  - split.
    + intros Hle. apply Z.leb_le in Hle. split; [reflexivity|].
      exists (c :: iso), t. auto.
    + intros (_ & iso' & t' & [= <-] & Hp' & Hle).
      apply Z.leb_le. congruence.
  - split; [discriminate|]. intros (_ & iso' & t' & [= <-] & Hp' & _). congruence.
Qed.

Lemma StatusBadge_expired_iff Date_parse now a :
  StatusBadge Date_parse now a = PublicExpired
  <-> isExpired Date_parse now a = true.
Proof.
  unfold StatusBadge. cbv zeta.
  destruct (is_public a) eqn:Hp; cbn [negb].
  - destruct (isExpired Date_parse now a); split; congruence.
  - unfold isExpired. rewrite Hp. split; discriminate.
Qed.

Lemma extendEnabled_iff Date_parse now a :
  extendEnabled Date_parse now a = true
  <-> isExpired Date_parse now a = true.
Proof.
  unfold extendEnabled. cbv zeta. split.
  - intros H. apply andb_true_iff in H. tauto.
  - intros H. rewrite H, andb_true_r. unfold isExpired in H.
    destruct (is_public a); [reflexivity|discriminate].
Qed.

(** C4. The extend control of a card is enabled exactly when the computed
    state of the artwork is PublicExpired, that is when the artwork is
    public and its deadline, read against the clock of this rendering, is
    not after now. For a Private or PublicActive artwork the button is
    disabled; for a PublicExpired one it is enabled unless the card is busy
    with a request. *)
Theorem extend_enabled_iff_expired
  (Date_parse : jsstring -> option Z) (now : Z) (a : Artwork) :
  Date_parse [] = None ->
  (extendEnabled Date_parse now a = true
   <-> StatusBadge Date_parse now a = PublicExpired)
  /\ (StatusBadge Date_parse now a = PublicExpired
      <-> is_public a = true
          /\ exists iso t, public_until a = Some iso
                           /\ Date_parse iso = Some t /\ t <= now)
  /\ (StatusBadge Date_parse now a <> PublicExpired ->
      extendEnabled Date_parse now a = false
      /\ forall busyId, extend_button_disabled Date_parse now busyId a = true)
  /\ (forall busyId,
        busyId <> Some (id a) ->
        (extend_button_disabled Date_parse now busyId a = false
         <-> StatusBadge Date_parse now a = PublicExpired)).
Proof.
  intros Hempty.
  pose proof (StatusBadge_expired_iff Date_parse now a) as Hs.
  pose proof (extendEnabled_iff Date_parse now a) as He.
  pose proof (isExpired_true_iff Date_parse now a Hempty) as Hx.
  split; [tauto|]. split; [tauto|]. split.
  - intros Hne.
    assert (Hen : extendEnabled Date_parse now a = false)
      by (destruct (extendEnabled Date_parse now a); tauto).
    split; [exact Hen|]. intros busyId.
    unfold extend_button_disabled. rewrite Hen. reflexivity.
  - intros busyId Hbusy. unfold extend_button_disabled, card_busy.
    rewrite bool_decide_eq_false_2 by exact Hbusy. rewrite orb_false_r.
    destruct (extendEnabled Date_parse now a); cbn [negb]; split;
      intros H; try tauto; try discriminate.
    apply Hs in H. apply He in H. discriminate.
Qed.

Lemma extend_enabled_iff_expired_witness :
  DateString.Date_parse_iso [] = None
  /\ extendEnabled DateString.Date_parse_iso Samples.now0 Samples.shown = true.
Proof.
  assert (H : DateString.Date_parse_iso [] = None) by reflexivity.
  split; [exact H|].
  destruct (extend_enabled_iff_expired DateString.Date_parse_iso
              Samples.now0 Samples.shown H) as (He & Hs & _).
  apply He, Hs. split; [reflexivity|].
  exists (lit "2024-01-15T00:00:00.000Z"), 1705276800000.
  split; [reflexivity|]. split; [vm_compute; reflexivity|].
  vm_compute. discriminate.
Defined.

(** C10. An artwork without a deadline never counts as expired, whatever
    the clock and the date parser: a public one is shown as PublicActive,
    it is never PublicExpired, and its extend button is disabled. The
    result does not depend on the clock or on the parser, which are not
    consulted. *)
Theorem no_deadline_never_expires
  (Date_parse : jsstring -> option Z) (now : Z) (a : Artwork) :
  public_until a = None ->
  isExpired Date_parse now a = false
  /\ (is_public a = true -> StatusBadge Date_parse now a = PublicActive)
  /\ StatusBadge Date_parse now a <> PublicExpired
  /\ extendEnabled Date_parse now a = false
  /\ (forall busyId, extend_button_disabled Date_parse now busyId a = true)
  /\ (forall Date_parse' now',
        isExpired Date_parse' now' a = isExpired Date_parse now a).
Proof.
  intros Hnull.
  assert (Hx : forall P n, isExpired P n a = false).
  { intros P n. unfold isExpired. rewrite Hnull.
    destruct (is_public a); reflexivity. }
  split; [apply Hx|]. split.
  - intros Hpub. unfold StatusBadge. rewrite Hx, Hpub. reflexivity.
  - split.
    + unfold StatusBadge. rewrite Hx. destruct (is_public a); discriminate.
    + assert (Hen : extendEnabled Date_parse now a = false)
        by (unfold extendEnabled; rewrite Hx; apply andb_false_r).
      split; [exact Hen|]. split.
      * intros busyId. unfold extend_button_disabled. rewrite Hen. reflexivity.
      * intros P n. rewrite !Hx. reflexivity.
Qed.

Lemma no_deadline_never_expires_witness :
  public_until Samples.open_ended = None
  /\ StatusBadge DateString.Date_parse_iso Samples.now0 Samples.open_ended
     = PublicActive.
Proof.
  assert (H : public_until Samples.open_ended = None) by reflexivity.
  split; [exact H|].
  exact (proj1 (proj2 (no_deadline_never_expires DateString.Date_parse_iso
                         Samples.now0 Samples.open_ended H)) eq_refl).
Defined.

(** *** Invite token *)

Lemma fold_append {A B : Type} (f : B -> list A) (l : list B) (acc : list A) :
  fold_left (fun out b => out ++ f b) l acc = acc ++ concat (map f l).
Proof.
  revert acc. induction l as [|b l IH]; intros acc; cbn.
  - symmetry. apply app_nil_r.
  - rewrite IH, <- app_assoc. reflexivity.
Qed.

Lemma makeToken_concat random len :
  makeToken random len
  = concat (map (fun i => token_symbol (random i)) (seq 0 len)).
Proof.
  unfold makeToken. rewrite fold_append. cbn [app].
  rewrite map_map. reflexivity.
Qed.

(** Every byte selects one symbol, and it is in the alphabet. *)
Lemma token_symbol_in b :
  exists c, token_symbol b = [c] /\ In c alphabet.
Proof.
  unfold token_symbol, char_at.
  destruct (nth_error alphabet
              (N.to_nat (Byte.to_N b mod N.of_nat (length alphabet))))
    as [c|] eqn:E.
  - exists c. split; [reflexivity|]. exact (nth_error_In _ _ E).
  - exfalso. apply nth_error_None in E.
    pose proof (N.mod_lt (Byte.to_N b) (N.of_nat (length alphabet))
                  ltac:(discriminate)) as Hlt.
    lia.
Qed.

Lemma symbols_of_indices (f : nat -> jsstring) (idx : list nat) :
  (forall i, exists c, f i = [c] /\ In c alphabet) ->
  length (concat (map f idx)) = length idx
  /\ Forall (fun c => In c alphabet) (concat (map f idx))
  /\ forall k i, nth_error idx k = Some i ->
       exists c, f i = [c] /\ nth_error (concat (map f idx)) k = Some c.
Proof.
  intros Hf. induction idx as [|i idx (IHl & IHf & IHn)]; cbn [map concat].
  - split; [reflexivity|]. split; [constructor|]. intros [|k] i [=].
  - destruct (Hf i) as (c & Hc & Hin). rewrite Hc. cbn [app length].
    split; [congruence|]. split; [constructor; assumption|].
    intros [|k] j Hk; cbn in Hk.
    + injection Hk as <-. exists c. split; [exact Hc|reflexivity].
    + exact (IHn k j Hk).
Qed.

Lemma byte_values_complete : NoDup byte_values /\ forall b, In b byte_values.
Proof.
  split.
  - apply (NoDup_fmap_1 Byte.to_nat).
    replace (Byte.to_nat <$> byte_values) with (seq 0 256)
      by (vm_compute; reflexivity).
    apply NoDup_ListNoDup, List.seq_NoDup.
  - intros b. apply list_elem_of_In. unfold byte_values.
    apply list_elem_of_omap. exists (Byte.to_nat b). split.
    + apply list_elem_of_In, in_seq.
      pose proof (Byte.to_nat_bounded b). lia.
    + apply Byte.of_to_nat.
Qed.

Lemma selecting_sizes :
  forallb (fun k =>
             match nth_error alphabet k with
             | Some c => Nat.eqb (length (selecting c))
                                 (if Nat.ltb k 28 then 5 else 4)
             | None => false
             end) (seq 0 57) = true.
Proof. vm_compute. reflexivity. Qed.

(** C6, as the code has it. [makeToken(len)] returns [len] characters (28
    at the invite call site), each the alphabet symbol that the random
    byte at its position selects; the alphabet has 57 distinct symbols. Of
    the 256 byte values, five select each of the first 28 symbols and four
    select each of the other 29. *)
Theorem makeToken_alphabet_near_uniform (random : nat -> byte) (len : nat) :
  length (makeToken random len) = len
  /\ length (makeToken random 28) = 28%nat
  /\ Forall (fun c => In c alphabet) (makeToken random len)
  /\ (forall i, (i < len)%nat ->
        exists c, token_symbol (random i) = [c]
                  /\ nth_error (makeToken random len) i = Some c)
  /\ length alphabet = 57%nat
  /\ NoDup alphabet
  /\ NoDup byte_values
  /\ (forall b, In b byte_values)
  /\ (forall k c,
        nth_error alphabet k = Some c ->
        length (selecting c) = if Nat.ltb k 28 then 5%nat else 4%nat).
Proof.
  assert (Hf : forall i, exists c, token_symbol (random i) = [c] /\ In c alphabet)
    by (intros i; apply token_symbol_in).
  destruct (symbols_of_indices _ (seq 0 len) Hf) as (Hl & Hall & Hn).
  destruct (symbols_of_indices _ (seq 0 28) Hf) as (Hl28 & _ & _).
  rewrite !makeToken_concat.
  split; [rewrite Hl; apply length_seq|].
  split; [rewrite Hl28; apply length_seq|].
  split; [exact Hall|]. split.
  { intros i Hi. apply (Hn i i).
    rewrite nth_error_nth' with (d := O) by (rewrite length_seq; exact Hi).
    rewrite seq_nth by exact Hi. reflexivity. }
  split; [reflexivity|]. split.
  { apply (bool_decide_unpack _). vm_compute. exact I. }
  destruct byte_values_complete as [Hnd Hin].
  split; [exact Hnd|]. split; [exact Hin|].
  intros k c Hk.
  assert (Hlt : (k < 57)%nat).
  { change 57%nat with (length alphabet). apply nth_error_Some. congruence. }
  pose proof selecting_sizes as Hs. rewrite forallb_forall in Hs.
  specialize (Hs k ltac:(apply in_seq; lia)). rewrite Hk in Hs.
  apply Nat.eqb_eq in Hs. exact Hs.
Qed.

(** C6, as stated: the symbols are not equally likely over uniformly
    random bytes. Five byte values select [A], four select [9]. *)
Lemma makeToken_symbols_not_equally_likely :
  ~ (forall c1 c2,
        In c1 alphabet -> In c2 alphabet ->
        length (selecting c1) = length (selecting c2)).
Proof.
  intros H. specialize (H 65%N 57%N).
  assert (H1 : In 65%N alphabet) by (vm_compute; tauto).
  assert (H2 : In 57%N alphabet) by (vm_compute; tauto).
  specialize (H H1 H2). vm_compute in H. discriminate.
Qed.

End ManageFacts.

(* ===================================================================== *)
(** ** Gallery page: facts *)
(* ===================================================================== *)

Module GalleryFacts.
Import JS Gallery.

(** [ceil_div a b] is the least integer [d] with [a <= d * b]. *)
Lemma ceil_div_spec a b :
  0 < b -> (ceil_div a b - 1) * b < a <= ceil_div a b * b.
Proof.
  intros Hb. unfold ceil_div.
  pose proof (Z.div_mod (- a) b ltac:(lia)) as Hdm.
  pose proof (Z.mod_pos_bound (- a) b Hb) as Hm. nia.
Qed.

Lemma leftText_cases Date_parse now a :
  leftText Date_parse now a = []
  \/ leftText Date_parse now a = lit "오늘 종료"
  \/ exists l, 0 < l
               /\ daysLeft Date_parse now (public_until a) = Some l
               /\ leftText Date_parse now a = ToString l ++ lit "일 남음".
Proof.
  unfold leftText. cbv zeta.
  destruct (daysLeft Date_parse now (public_until a)) as [l|]; [|left; reflexivity].
  destruct (Z.leb_spec l 0); [right; left; reflexivity|].
  right; right. exists l. repeat split. lia.
Qed.

(** C5. For a deadline that parses to the instant [t], [daysLeft] is the
    ceiling of (t - now) / one day: 2 for now + 36 hours, and not above 0
    for now - 1 second. The card shows the "ends today" label for every
    value not above 0, and a number of days only when it is positive. *)
Theorem daysLeft_is_ceiling
  (Date_parse : jsstring -> option Z) (now : Z) (iso : jsstring) (t : Z) :
  Date_parse [] = None ->
  Date_parse iso = Some t ->
  let d := ceil_div (t - now) msPerDay in
  daysLeft Date_parse now (Some iso) = Some d
  /\ (d - 1) * msPerDay < t - now <= d * msPerDay
  /\ (t = now + 36 * msPerHour -> d = 2)
  /\ (t = now - 1000 -> d <= 0)
  /\ (forall a,
        public_until a = Some iso ->
        leftText Date_parse now a
        = if d <=? 0 then lit "오늘 종료" else ToString d ++ lit "일 남음")
  /\ (forall a,
        leftText Date_parse now a = []
        \/ leftText Date_parse now a = lit "오늘 종료"
        \/ exists l, 0 < l
                     /\ daysLeft Date_parse now (public_until a) = Some l
                     /\ leftText Date_parse now a
                        = ToString l ++ lit "일 남음").
Proof.
  intros Hempty Hp d.
  assert (Hd : daysLeft Date_parse now (Some iso) = Some d).
  { unfold daysLeft. destruct iso as [|c iso]; [congruence|].
    cbn [Manage.truthy negb]. rewrite Hp. reflexivity. }
  split; [exact Hd|].
  split; [apply ceil_div_spec; reflexivity|].
  split; [intros ->; subst d; unfold ceil_div, msPerDay, msPerHour;
          replace (now + 36 * 3600000 - now) with 129600000 by lia;
          reflexivity|].
  split; [intros ->; subst d; unfold ceil_div, msPerDay;
          replace (now - 1000 - now) with (-1000) by lia;
          vm_compute; discriminate|].
  split.
  - intros a Ha. unfold leftText. rewrite Ha, Hd. reflexivity.
  - intros a. apply leftText_cases.
Qed.

Lemma daysLeft_is_ceiling_witness :
  DateString.Date_parse_iso [] = None
  /\ DateString.Date_parse_iso (lit "2024-01-17T12:00:00.000Z")
     = Some (Samples.now0 + 36 * msPerHour)
  /\ daysLeft DateString.Date_parse_iso Samples.now0
       (Some (lit "2024-01-17T12:00:00.000Z")) = Some 2.
Proof.
  assert (H0 : DateString.Date_parse_iso [] = None) by reflexivity.
  assert (H1 : DateString.Date_parse_iso (lit "2024-01-17T12:00:00.000Z")
               = Some (Samples.now0 + 36 * msPerHour))
    by (vm_compute; reflexivity).
  split; [exact H0|]. split; [exact H1|].
  destruct (daysLeft_is_ceiling DateString.Date_parse_iso Samples.now0
              (lit "2024-01-17T12:00:00.000Z")
              (Samples.now0 + 36 * msPerHour) H0 H1) as (Hd & _ & H36 & _).
  rewrite Hd, (H36 eq_refl). reflexivity.
Defined.

End GalleryFacts.

(* ===================================================================== *)
(** ** Invite page: facts *)
(* ===================================================================== *)

Module InviteFacts.
Import JS Invite.

Section Page.
Variable getPublicUrl : jsstring -> jsstring.
Variable token : jsstring.

Lemma loadAll_invalid guest_resp art_resp guest_first pg calls :
  (length (trim token) < 6)%nat ->
  loadAll getPublicUrl token guest_resp art_resp guest_first pg calls
  = (setEntries [] (setArtworks []
       (setDebug (append_debug
                    ([10%N] ++ lit "[token] invalid or missing: " ++ [34%N]
                     ++ token ++ [34%N]))
          (setStatus status_invalid_link (setLoading false pg)))),
     calls).
Proof.
  intros Hshort. unfold loadAll.
  replace (Z.of_nat (length (trim token)) <? 6) with true
    by (symmetry; apply Z.ltb_lt; lia).
  rewrite orb_true_r. reflexivity.
Qed.

Lemma loadAll_valid guest_resp art_resp guest_first pg calls :
  (6 <= length (trim token))%nat ->
  snd (loadAll getPublicUrl token guest_resp art_resp guest_first pg calls)
  = calls ++ [get_guestbook_entries_by_token token;
              get_artworks_by_token token].
Proof.
  intros Hlong. unfold loadAll.
  assert (Ht : Manage.truthy token = true).
  { destruct token; [cbn in Hlong; lia|reflexivity]. }
  rewrite Ht. cbn [negb orb].
  replace (Z.of_nat (length (trim token)) <? 6) with false
    by (symmetry; apply Z.ltb_ge; lia).
  unfold loadArtworks_send, loadGuestbook_send.
  rewrite <- app_assoc. cbn [app].
  destruct guest_first;
    repeat match goal with
           | |- context [let '(_, _) := ?x in _] => destruct x
           end;
    match goal with
    | |- context [if ?b then _ else _] => destruct b
    end; reflexivity.
Qed.

End Page.

(** C7. For an empty token, or one whose trimmed length is below 6,
    [loadAll] sets the invalid-link status, clears the artworks and the
    guestbook entries and issues no remote call. The two lookups are
    issued, with the token as given, when the trimmed token has at least
    6 code units, and only then. *)
Theorem loadAll_short_token_short_circuits
  (getPublicUrl : jsstring -> jsstring) (token : jsstring)
  (guest_resp : response Entry) (art_resp : response ArtworkRowFromRPC)
  (guest_first : bool) (pg : Page) (calls : list call) :
  let result :=
    loadAll getPublicUrl token guest_resp art_resp guest_first pg calls in
  (token = [] \/ (length (trim token) < 6)%nat ->
   snd result = calls
   /\ status (fst result) = status_invalid_link
   /\ artworks (fst result) = []
   /\ entries (fst result) = []
   /\ loading (fst result) = false)
  /\ ((6 <= length (trim token))%nat ->
      snd result = calls ++ [get_guestbook_entries_by_token token;
                             get_artworks_by_token token])
  /\ (snd result <> calls -> (6 <= length (trim token))%nat).
Proof.
  intros result.
  assert (Hshort : (length (trim token) < 6)%nat ->
                   snd result = calls
                   /\ status (fst result) = status_invalid_link
                   /\ artworks (fst result) = []
                   /\ entries (fst result) = []
                   /\ loading (fst result) = false).
  { intros H. subst result. rewrite loadAll_invalid by exact H.
    repeat split. }
  split; [|split].
  - intros [->|H]; apply Hshort; [cbn; lia|exact H].
  - apply loadAll_valid.
  - intros Hne. destruct (le_lt_dec 6 (length (trim token))) as [Hl|Hl];
      [exact Hl|]. destruct (Hshort Hl) as [Hc _]. contradiction.
Qed.

Lemma loadAll_short_token_short_circuits_witness :
  (length (trim (lit " abc ")) < 6)%nat
  /\ forall pg calls,
       snd (loadAll (fun v => v) (lit " abc ")
              {| data := None; error := None |}
              {| data := None; error := None |} true pg calls) = calls.
Proof.
  assert (H : (length (trim (lit " abc ")) < 6)%nat) by (vm_compute; lia).
  split; [exact H|]. intros pg calls.
  exact (proj1 (proj1 (loadAll_short_token_short_circuits (fun v => v)
                         (lit " abc ") {| data := None; error := None |}
                         {| data := None; error := None |} true pg calls)
                  (or_intror H))).
Defined.

End InviteFacts.

(* ===================================================================== *)
(** ** The made-at validator: further properties *)
(* ===================================================================== *)

Module UploadMore.
Import JS Upload JSFacts UploadFacts.

Lemma trimStart_all_spaces ws :
  Forall (fun c => is_white_space c = true) ws -> trimStart ws = [].
Proof. induction 1 as [|c ws Hc _ IH]; cbn; [|rewrite Hc]; auto. Qed.

Lemma trimStart_nonempty_app s post :
  trimStart s <> [] -> trimStart (s ++ post) = trimStart s ++ post.
Proof.
  induction s as [|c s IH]; cbn; [contradiction|].
  destruct (is_white_space c); [exact IH|reflexivity].
Qed.

Lemma trimEnd_spaces s post :
  Forall (fun c => is_white_space c = true) post ->
  trimEnd (s ++ post) = trimEnd s.
Proof.
  intros Hp. unfold trimEnd. rewrite rev_app_distr.
  rewrite trimStart_spaces; [reflexivity|].
  apply Forall_rev, Hp.
Qed.

(** [trim] does not see white space around a string. *)
Lemma trim_padding pre s post :
  Forall (fun c => is_white_space c = true) pre ->
  Forall (fun c => is_white_space c = true) post ->
  trim (pre ++ s ++ post) = trim s.
Proof.
  intros Hpre Hpost. unfold trim. rewrite trimStart_spaces by exact Hpre.
  destruct (trimStart s) as [|c r] eqn:E.
  - destruct (trimStart_split s) as (ws & Hs & Hws). rewrite E, app_nil_r in Hs.
    subst ws. rewrite trimStart_all_spaces
      by (apply Forall_app; split; assumption).
    reflexivity.
  - rewrite trimStart_nonempty_app by (rewrite E; discriminate).
    rewrite E. apply trimEnd_spaces, Hpost.
Qed.

(** The answer to a well-shaped input that breaks no rule, by its local
    calendar fields; the hour is at most 23. *)
Lemma accepted_local_fields tza input Y M D H MI :
  - msPerDay < tza < msPerDay ->
  made_at_pattern (trim input) Y M D H MI ->
  let yyyy := Number_of_digits Y in
  let mm := Number_of_digits M in
  let dd := Number_of_digits D in
  let hh := Number_of_digits H in
  let mi := Number_of_digits MI in
  first_broken_rule mm dd hh mi = None -> hh <= 23 ->
  exists u s,
    toISOString (Some u) = Normal s
    /\ parseArtworkMadeAt tza input = Normal {| iso := Some s; error := None |}
    /\ YearFromTime (LocalTime tza u) = full_year yyyy
    /\ HourFromTime (LocalTime tza u) = hh
    /\ (dd <= DaysInMonth (full_year yyyy) (mm - 1) ->
        MonthFromTime (LocalTime tza u) = mm - 1
        /\ DateFromTime (LocalTime tza u) = dd)
    /\ (DaysInMonth (full_year yyyy) (mm - 1) < dd ->
        MonthFromTime (LocalTime tza u) = mm
        /\ DateFromTime (LocalTime tza u)
           = dd - DaysInMonth (full_year yyyy) (mm - 1)).
Proof.
  intros Htza Hpat yyyy mm dd hh mi Hr Hh.
  destruct (accepted_value tza input Y M D H MI Htza Hpat Hr)
    as (_ & s & Hs & Hp).
  apply rules_hold in Hr as (Hmm & Hdd & _ & Hhh).
  fold yyyy mm dd hh in Hs.
  destruct (Z.eqb_spec hh 24) as [?|_]; [lia|].
  eexists _, s. split; [exact Hs|]. split; [exact Hp|].
  unfold LocalTime.
  replace (MakeDate (MakeDay (full_year yyyy) (mm - 1) dd) 0
           + hh * msPerHour - tza + tza)
    with (MakeDate (MakeDay (full_year yyyy) (mm - 1) dd) (hh * msPerHour))
    by (unfold MakeDate; lia).
  destruct (fields_of_MakeDay (full_year yyyy) (mm - 1) dd (hh * msPerHour)
              ltac:(lia) Hdd ltac:(unfold msPerDay, msPerHour; lia))
    as (Hy & Hin & Hover).
  destruct (time_fields_of_MakeDate
              (MakeDay (full_year yyyy) (mm - 1) dd) hh ltac:(lia))
    as (Hhour & _).
  split; [exact Hy|]. split; [exact Hhour|]. split; [exact Hin|].
  intros Hlt. destruct (Hover Hlt) as [Hm Hd].
  split; [rewrite Hm; lia|exact Hd].
Qed.

(** X1. In every time zone the validator returns for every input: it never
    throws, it answers either one of the five rule messages with a null
    [iso], or an [iso] with a null error, and the sixth message, for an
    invalid date, is never given. *)
Theorem parseArtworkMadeAt_never_throws (tza : Z) (input : jsstring) :
  - msPerDay < tza < msPerDay ->
  exists r,
    parseArtworkMadeAt tza input = Normal r
    /\ ((iso r = None
         /\ exists m, error r = Some m
                      /\ In m [err_pattern; err_month; err_day;
                               err_minutes; err_hours])
        \/ (error r = None /\ exists s, iso r = Some s))
    /\ error r <> Some err_date.
Proof.
  intros Htza.
  assert (Hdate : ~ In err_date [err_pattern; err_month; err_day;
                                 err_minutes; err_hours]).
  { cbn [In]. intros Hin.
    repeat (destruct Hin as [Hin|Hin];
            [apply (f_equal (hd 0%N)) in Hin; vm_compute in Hin;
             discriminate|]).
    exact Hin. }
  assert (Hrej : forall m,
             In m [err_pattern; err_month; err_day; err_minutes; err_hours] ->
             parseArtworkMadeAt tza input = Normal (rejected m) ->
             exists r,
               parseArtworkMadeAt tza input = Normal r
               /\ ((iso r = None
                    /\ exists m, error r = Some m
                                 /\ In m [err_pattern; err_month; err_day;
                                          err_minutes; err_hours])
                   \/ (error r = None /\ exists s, iso r = Some s))
               /\ error r <> Some err_date).
  { intros m Hm Hp. exists (rejected m). split; [exact Hp|]. split.
    - left. split; [reflexivity|]. exists m. split; [reflexivity|exact Hm].
    - cbn. intros [= ->]. exact (Hdate Hm). }
  destruct (made_at_regex_exec (trim input))
    as [[[[[Y M] D] H] MI]|] eqn:Hx.
  - apply pattern_of_exec in Hx.
    destruct (first_broken_rule (Number_of_digits M) (Number_of_digits D)
                (Number_of_digits H) (Number_of_digits MI)) as [r|] eqn:Hr.
    + apply (Hrej (rule_message r)).
      * destruct r; cbn [rule_message In]; tauto.
      * exact (rejected_by_rule tza input Y M D H MI r Hx Hr).
    + destruct (accepted_value tza input Y M D H MI Htza Hx Hr)
        as (_ & s & _ & Hp).
      exists {| iso := Some s; error := None |}. split; [exact Hp|].
      split; [right; split; [reflexivity|exists s; reflexivity]|discriminate].
  - apply (Hrej err_pattern); [cbn [In]; tauto|].
    unfold parseArtworkMadeAt. rewrite Hx. reflexivity.
Qed.

Lemma parseArtworkMadeAt_never_throws_witness :
  - msPerDay < Samples.kst < msPerDay
  /\ exists r, parseArtworkMadeAt Samples.kst (lit "2024-01-15 25:00") = Normal r
               /\ error r <> Some err_date.
Proof.
  assert (H : - msPerDay < Samples.kst < msPerDay)
    by (vm_compute; split; reflexivity).
  split; [exact H|].
  destruct (parseArtworkMadeAt_never_throws Samples.kst
              (lit "2024-01-15 25:00") H) as (r & Hp & _ & Hd).
  exists r. split; assumption.
Defined.

(** X2. White space before and after the text does not change the answer
    of the validator. *)
Theorem parseArtworkMadeAt_ignores_padding
  (tza : Z) (pre input post : jsstring) :
  Forall (fun c => is_white_space c = true) pre ->
  Forall (fun c => is_white_space c = true) post ->
  parseArtworkMadeAt tza (pre ++ input ++ post) = parseArtworkMadeAt tza input.
Proof.
  intros Hpre Hpost. unfold parseArtworkMadeAt.
  rewrite (trim_padding pre input post Hpre Hpost). reflexivity.
Qed.

Lemma parseArtworkMadeAt_ignores_padding_witness :
  parseArtworkMadeAt Samples.kst (lit "  " ++ lit "2024-01-15 24:00" ++ [12288%N; 10%N])
  = parseArtworkMadeAt Samples.kst (lit "2024-01-15 24:00").
Proof.
  apply parseArtworkMadeAt_ignores_padding.
  - vm_compute. repeat constructor.
  - repeat constructor.
Defined.

(** X3. For an accepted input with an hour up to 23, the local calendar
    date and hour of the result are the year, month, day and hour typed
    exactly when the year is at least 100 and the month has the day: years
    0000 to 0099 are stored as 1900 to 1999 and the others as typed, and
    a day past the end of the month of the stored year is stored in the
    following month, as many days in as it exceeds the month's length. *)
Theorem stored_date_is_typed_date_iff
  (tza : Z) (input Y M D H MI : jsstring) :
  - msPerDay < tza < msPerDay ->
  made_at_pattern (trim input) Y M D H MI ->
  let yyyy := Number_of_digits Y in
  let mm := Number_of_digits M in
  let dd := Number_of_digits D in
  let hh := Number_of_digits H in
  let mi := Number_of_digits MI in
  first_broken_rule mm dd hh mi = None -> hh <= 23 ->
  exists u s,
    toISOString (Some u) = Normal s
    /\ parseArtworkMadeAt tza input = Normal {| iso := Some s; error := None |}
    /\ HourFromTime (LocalTime tza u) = hh
    /\ ((YearFromTime (LocalTime tza u) = yyyy
         /\ MonthFromTime (LocalTime tza u) + 1 = mm
         /\ DateFromTime (LocalTime tza u) = dd)
        <-> (100 <= yyyy /\ dd <= DaysInMonth yyyy (mm - 1)))
    /\ (yyyy <= 99 -> YearFromTime (LocalTime tza u) = 1900 + yyyy)
    /\ (100 <= yyyy -> YearFromTime (LocalTime tza u) = yyyy)
    /\ (dd <= DaysInMonth (YearFromTime (LocalTime tza u)) (mm - 1) ->
        MonthFromTime (LocalTime tza u) + 1 = mm
        /\ DateFromTime (LocalTime tza u) = dd)
    /\ (DaysInMonth (YearFromTime (LocalTime tza u)) (mm - 1) < dd ->
        MonthFromTime (LocalTime tza u) + 1 = mm + 1
        /\ DateFromTime (LocalTime tza u)
           = dd - DaysInMonth (YearFromTime (LocalTime tza u)) (mm - 1)).
Proof.
  intros Htza Hpat yyyy mm dd hh mi Hr Hh.
  destruct (accepted_local_fields tza input Y M D H MI Htza Hpat Hr Hh)
    as (u & s & Hs & Hp & Hy & Hhour & Hin & Hover).
  fold yyyy mm dd hh in Hy, Hhour, Hin, Hover.
  assert (Hy0 : 0 <= yyyy < 10000).
  { destruct Hpat as (ws & _ & A1 & _).
    apply (Number_of_digits_bound 4 Y A1). }
  exists u, s. split; [exact Hs|]. split; [exact Hp|]. split; [exact Hhour|].
  assert (Hfy : (100 <= yyyy /\ full_year yyyy = yyyy)
                \/ (yyyy <= 99 /\ full_year yyyy = 1900 + yyyy)).
  { unfold full_year. destruct (Z.leb_spec 0 yyyy), (Z.leb_spec yyyy 99);
      cbn [andb]; lia. }
  split.
  - split.
    + intros (Hyy & Hmm & Hdd).
      destruct Hfy as [[Hge Hf]|[Hlt Hf]]; [|lia].
      split; [exact Hge|]. rewrite Hf in *.
      destruct (Z.le_gt_cases dd (DaysInMonth yyyy (mm - 1))) as [Hle|Hgt];
        [exact Hle|].
      destruct (Hover ltac:(lia)) as [Hm _]. lia.
    + intros (Hge & Hle). destruct Hfy as [[_ Hf]|[Hlt _]]; [|lia].
      rewrite Hf in *. destruct (Hin Hle) as [Hm Hd].
      split; [exact Hy|]. split; [lia|exact Hd].
  - split; [intros Hlt; destruct Hfy as [[Hge _]|[_ Hf]]; [lia|congruence]|].
    split; [intros Hge; destruct Hfy as [[_ Hf]|[Hlt _]]; [congruence|lia]|].
    rewrite Hy. split.
    + intros Hle. destruct (Hin Hle) as [Hm Hd]. split; [lia|exact Hd].
    + intros Hgt. destruct (Hover Hgt) as [Hm Hd]. split; [lia|exact Hd].
Qed.

Lemma stored_date_is_typed_date_iff_witness :
  exists u s,
    parseArtworkMadeAt Samples.kst (lit "0050-01-15 10:00")
    = Normal {| iso := Some s; error := None |}
    /\ toISOString (Some u) = Normal s
    /\ YearFromTime (LocalTime Samples.kst u) = 1950.
Proof.
  assert (H : - msPerDay < Samples.kst < msPerDay)
    by (vm_compute; split; reflexivity).
  assert (Hpat : made_at_pattern (trim (lit "0050-01-15 10:00"))
                   (lit "0050") (lit "01") (lit "15") (lit "10") (lit "00"))
    by (apply pattern_of_exec; vm_compute; reflexivity).
  destruct (stored_date_is_typed_date_iff Samples.kst _ _ _ _ _ _ H Hpat
              ltac:(vm_compute; reflexivity) ltac:(vm_compute; discriminate))
    as (u & s & Hs & Hp & _ & _ & Hy & _).
  exists u, s. split; [exact Hp|]. split; [exact Hs|].
  apply Hy. vm_compute. discriminate.
Defined.

(** *** The default value of the field *)

Lemma DayWithinYear_range t :
  0 <= DayWithinYear t < DaysInYear (YearFromTime t).
Proof.
  unfold DayWithinYear, YearFromTime.
  pose proof (YearFromDay_spec (Day t)) as Hs.
  rewrite DayFromYear_succ in Hs. lia.
Qed.

(** The date of the month lies within the month. *)
Lemma DateFromTime_range t :
  1 <= DateFromTime t <= DaysInMonth (YearFromTime t) (MonthFromTime t)
  /\ DaysInMonth (YearFromTime t) (MonthFromTime t) <= 31.
Proof.
  pose proof (DayWithinYear_range t) as Hd.
  unfold DateFromTime, MonthFromTime, DaysInMonth, InLeapYear.
  destruct (leap_cases (YearFromTime t)) as [[-> E]|[-> E]]; rewrite E in *;
    cbn [Z.eqb Pos.eqb]; unfold monthOfDay; split_ltb; cbn [monthStart]; lia.
Qed.

Lemma small_numbers_as_text :
  forallb (fun k =>
             let n := Z.of_nat k in
             forallb is_digit (ToString n)
             && (Number_of_digits (ToString n) =? n)
             && Nat.eqb (length (ToString n))
                  (if (n <? 10)%Z then 1%nat else if (n <? 100)%Z then 2%nat
                   else if (n <? 1000)%Z then 3%nat else 4%nat))
          (seq 0 (Z.to_nat 10000)) = true.
Proof. vm_compute. reflexivity. Qed.

Lemma forallb_Forall_true {A : Type} (f : A -> bool) (l : list A) :
  forallb f l = true -> Forall (fun c => f c = true) l.
Proof.
  induction l as [|a l IH]; cbn; [constructor|].
  intros H. apply andb_true_iff in H as [Ha Hl]. constructor; auto.
Qed.

Lemma ToString_small n :
  0 <= n < 10000 ->
  Forall (fun c => is_digit c = true) (ToString n)
  /\ Number_of_digits (ToString n) = n
  /\ length (ToString n)
     = if (n <? 10)%Z then 1%nat else if (n <? 100)%Z then 2%nat
       else if (n <? 1000)%Z then 3%nat else 4%nat.
Proof.
  intros Hn. pose proof small_numbers_as_text as H.
  rewrite forallb_forall in H.
  specialize (H (Z.to_nat n) ltac:(apply in_seq; lia)). cbv zeta in H.
  rewrite Z2Nat.id in H by lia.
  apply andb_true_iff in H as [H H3]. apply andb_true_iff in H as [H1 H2].
  split; [apply forallb_Forall_true, H1|].
  split; [apply Z.eqb_eq, H2|apply Nat.eqb_eq, H3].
Qed.

Lemma two_digits n :
  0 <= n < 100 ->
  all_digits 2 (padStart (ToString n) 2 (lit "0"))
  /\ Number_of_digits (padStart (ToString n) 2 (lit "0")) = n.
Proof.
  intros Hn. destruct (ToString_small n ltac:(lia)) as (Hf & Hv & Hl).
  unfold padStart. destruct (Z.ltb_spec n 10) as [Hlt|Hge].
  - rewrite Hl. cbn [Nat.leb Nat.sub]. change (lit "0") with [48%N].
    cbn [repeat concat app take].
    destruct (ToString n) as [|c [|c' r]]; try discriminate.
    split; [split; [reflexivity|constructor; [reflexivity|exact Hf]]|].
    unfold Number_of_digits in *. cbn in *.
    change (digit_value 48%N) with 0. lia.
  - destruct (Z.ltb_spec n 100); [|lia]. rewrite Hl. cbn [Nat.leb].
    split; [split; assumption|exact Hv].
Qed.

Lemma trim_unpadded c s front c' :
  c :: s = front ++ [c'] ->
  is_white_space c = false -> is_white_space c' = false ->
  trim (c :: s) = c :: s.
Proof.
  intros Hs Hc Hc'. unfold trim. cbn [trimStart]. rewrite Hc.
  unfold trimEnd. rewrite Hs, rev_unit. cbn [trimStart]. rewrite Hc'.
  rewrite <- rev_unit. apply rev_involutive.
Qed.

(** X4. While the local year has four digits, the text that the upload
    form proposes, today's date with 24:00, is accepted by the validator,
    and it stands for the local midnight that ends the current day. *)
Theorem default_input_is_accepted (tza now : Z) :
  - msPerDay < tza < msPerDay ->
  - maxTime <= now <= maxTime ->
  1000 <= YearFromTime (LocalTime tza now) <= 9999 ->
  exists u s,
    parseArtworkMadeAt tza (formatNowForInput tza now)
    = Normal {| iso := Some s; error := None |}
    /\ toISOString (Some u) = Normal s
    /\ LocalTime tza u = (Day (LocalTime tza now) + 1) * msPerDay.
Proof.
  intros Htza Hnow Hyear.
  set (L := LocalTime tza now) in *.
  pose proof (monthOfDay_range (InLeapYear L) (DayWithinYear L)) as Hm.
  fold (MonthFromTime L) in Hm.
  destruct (DateFromTime_range L) as [Hd Hd31].
  destruct (ToString_small (YearFromTime L) ltac:(lia)) as (Yf & Yv & Yl).
  destruct (two_digits (MonthFromTime L + 1) ltac:(lia)) as (Md & Mv).
  destruct (two_digits (DateFromTime L) ltac:(lia)) as (Dd & Dv).
  assert (Yd : all_digits 4 (ToString (YearFromTime L))).
  { split; [|exact Yf]. rewrite Yl.
    destruct (Z.ltb_spec (YearFromTime L) 10); [lia|].
    destruct (Z.ltb_spec (YearFromTime L) 100); [lia|].
    destruct (Z.ltb_spec (YearFromTime L) 1000); [lia|reflexivity]. }
  set (Ys := ToString (YearFromTime L)) in *.
  set (Ms := padStart (ToString (MonthFromTime L + 1)) 2 (lit "0")) in *.
  set (Ds := padStart (ToString (DateFromTime L)) 2 (lit "0")) in *.
  assert (Hfmt : formatNowForInput tza now
                 = Ys ++ [45%N] ++ Ms ++ [45%N] ++ Ds ++ [32%N]
                      ++ lit "24" ++ [58%N] ++ lit "00").
  { unfold formatNowForInput, Date_of_value.
    rewrite (TimeClip_in_range now Hnow). reflexivity. }
  assert (Hpat : made_at_pattern (trim (formatNowForInput tza now))
                   Ys Ms Ds (lit "24") (lit "00")).
  { rewrite Hfmt. destruct Yd as [Yl4 Yf4].
    destruct Ys as [|c Ys']; [discriminate|].
    assert (Hc : is_white_space c = false)
      by (inversion Yf4; apply digit_not_space; assumption).
    change (lit "00") with [48%N; 48%N]. change (lit "24") with [50%N; 52%N].
    cbn [app].
    rewrite (trim_unpadded c _
               (c :: Ys' ++ 45%N :: Ms ++ 45%N :: Ds
                  ++ [32%N; 50%N; 52%N; 58%N; 48%N]) 48%N).
    2:{ cbn [app]. repeat (rewrite <- app_assoc; cbn [app]). reflexivity. }
    2,3: (exact Hc || reflexivity).
    exists [32%N]. split; [reflexivity|].
    split; [split; assumption|]. split; [exact Md|]. split; [exact Dd|].
    split; [split; [reflexivity|repeat constructor]|].
    split; [split; [reflexivity|repeat constructor]|].
    split; [discriminate|repeat constructor]. }
  assert (Hr : first_broken_rule (Number_of_digits Ms) (Number_of_digits Ds)
                 (Number_of_digits (lit "24")) (Number_of_digits (lit "00"))
               = None).
  { rewrite Mv, Dv. change (Number_of_digits (lit "24")) with 24.
    change (Number_of_digits (lit "00")) with 0.
    unfold first_broken_rule, field_rules. cbn [find rule_holds].
    destruct (Z.leb_spec 1 (MonthFromTime L + 1)),
      (Z.leb_spec (MonthFromTime L + 1) 12), (Z.leb_spec 1 (DateFromTime L)),
      (Z.leb_spec (DateFromTime L) 31); cbn; try lia; reflexivity. }
  destruct (accepted_value tza _ _ _ _ _ _ Htza Hpat Hr) as (_ & s & Hs & Hp).
  eexists _, s. split; [exact Hp|]. split; [exact Hs|].
  rewrite Yv, Mv, Dv. change (Number_of_digits (lit "24")) with 24.
  cbn [Z.eqb Pos.eqb].
  replace (full_year (YearFromTime L)) with (YearFromTime L)
    by (unfold full_year;
        destruct (Z.leb_spec 0 (YearFromTime L)),
          (Z.leb_spec (YearFromTime L) 99); cbn [andb]; lia).
  replace (MonthFromTime L + 1 - 1) with (MonthFromTime L) by lia.
  rewrite MakeDay_of_fields. unfold LocalTime, MakeDate. lia.
Qed.

Lemma default_input_is_accepted_witness :
  (- msPerDay < Samples.kst < msPerDay
   /\ - maxTime <= Samples.now0 <= maxTime
   /\ 1000 <= YearFromTime (LocalTime Samples.kst Samples.now0) <= 9999)
  /\ exists u s,
       parseArtworkMadeAt Samples.kst (formatNowForInput Samples.kst Samples.now0)
       = Normal {| iso := Some s; error := None |}
       /\ toISOString (Some u) = Normal s
       /\ LocalTime Samples.kst u
          = (Day (LocalTime Samples.kst Samples.now0) + 1) * msPerDay.
Proof.
  assert (H1 : - msPerDay < Samples.kst < msPerDay)
    by (vm_compute; split; reflexivity).
  assert (H2 : - maxTime <= Samples.now0 <= maxTime)
    by (vm_compute; split; discriminate).
  assert (H3 : 1000 <= YearFromTime (LocalTime Samples.kst Samples.now0) <= 9999)
    by (vm_compute; split; discriminate).
  split; [repeat split; tauto|].
  exact (default_input_is_accepted Samples.kst Samples.now0 H1 H2 H3).
Defined.

(** *** The upload handler *)

Lemma toISOString_nonempty t s : toISOString (Some t) = Normal s -> truthy s = true.
Proof.
  unfold toISOString. intros Hs.
  apply (f_equal (fun c => match c with
                           | Normal x => length x
                           | ThrowRangeError => O
                           end)) in Hs.
  cbv beta iota in Hs. destruct s; [|reflexivity]. exfalso.
  assert (Hpad : forall n v, length (pad n v) = n).
  { induction n as [|n IH]; intros v; cbn [pad]; [reflexivity|].
    rewrite length_app, IH. cbn. lia. }
  rewrite !length_app in Hs.
  destruct ((0 <=? YearFromTime t) && (YearFromTime t <=? 9999));
    rewrite ?length_app, !Hpad in Hs; cbn in Hs; lia.
Qed.

(** What [upload] takes as the made-at instant of a form that can be
    submitted, in a time zone and with a clock in range. *)
Lemma upload_made_at tza now1 (f : UploadForm) :
  - msPerDay < tza < msPerDay -> - maxTime <= now1 <= maxTime ->
  let made_at :=
    if useNow f
    then match toISOString (Date_of_value now1) with
         | Normal s => Normal (inl s)
         | ThrowRangeError => ThrowRangeError
         end
    else match parseArtworkMadeAt tza (madeAtInput f) with
         | ThrowRangeError => ThrowRangeError
         | Normal parsed =>
           let no_iso := match iso parsed with
                         | Some s => negb (truthy s)
                         | None => true
                         end in
           let has_error := match error parsed with
                            | Some e => truthy e
                            | None => false
                            end in
           if has_error || no_iso
           then Normal (inr (default (lit "작품제작일 형식이 올바르지 않습니다.")
                                     (error parsed)))
           else Normal (inl (default [] (iso parsed)))
         end in
  (exists s, made_at = Normal (inl s)
             /\ if useNow f then toISOString (Some now1) = Normal s
                else parseArtworkMadeAt tza (madeAtInput f)
                     = Normal {| iso := Some s; error := None |})
  \/ (exists m, made_at = Normal (inr m) /\ useNow f = false
                /\ parseArtworkMadeAt tza (madeAtInput f)
                   = Normal (rejected m)).
Proof.
  intros Htza Hnow made_at. subst made_at.
  destruct (useNow f).
  - left. unfold Date_of_value. rewrite (TimeClip_in_range now1 Hnow).
    destruct (toISOString (Some now1)) as [s|] eqn:Hs; [|discriminate].
    exists s. split; reflexivity.
  - destruct (made_at_regex_exec (trim (madeAtInput f)))
      as [[[[[Y M] D] H] MI]|] eqn:Hx.
    + apply pattern_of_exec in Hx.
      destruct (first_broken_rule (Number_of_digits M) (Number_of_digits D)
                  (Number_of_digits H) (Number_of_digits MI)) as [r|] eqn:Hr.
      * right. exists (rule_message r).
        rewrite (rejected_by_rule tza _ Y M D H MI r Hx Hr).
        cbn [error iso rejected default].
        replace (truthy (rule_message r)) with true
          by (destruct r; reflexivity).
        repeat split.
      * left. destruct (accepted_value tza _ Y M D H MI Htza Hx Hr)
          as (_ & s & Hs & Hp).
        rewrite Hp. cbn [error iso default].
        rewrite (toISOString_nonempty _ s Hs). exists s. split; reflexivity.
    + right. exists err_pattern. unfold parseArtworkMadeAt. rewrite Hx.
      repeat split.
Qed.


Lemma existsb_dot r : existsb (N.eqb 46) r = true <-> In 46%N r.
Proof.
  induction r as [|c r IH]; cbn [existsb In]; [split; [discriminate|tauto]|].
  rewrite orb_true_iff, IH, N.eqb_eq. split; intros [H|H]; auto.
Qed.

(** [split(".").pop()]: the part after the last dot. *)
Lemma after_last_dot_spec s :
  ~ In 46%N (after_last_dot s)
  /\ (In 46%N s -> exists pre, s = pre ++ 46%N :: after_last_dot s)
  /\ (~ In 46%N s -> after_last_dot s = s).
Proof.
  induction s as [|c r (IH1 & IH2 & IH3)]; cbn [after_last_dot].
  - repeat split; [tauto|intros []].
  - destruct (existsb (N.eqb 46) r) eqn:E.
    + apply existsb_dot in E. split; [exact IH1|]. split.
      * intros _. destruct (IH2 E) as [pre Hpre].
        exists (c :: pre). cbn [app]. f_equal. exact Hpre.
      * intros Hno. exfalso. apply Hno. right. exact E.
    + assert (Hr : ~ In 46%N r).
      { intros Hin. apply existsb_dot in Hin. congruence. }
      destruct (N.eqb_spec c 46) as [->|Hc].
      * split; [exact Hr|]. split; [intros _; exists []; reflexivity|].
        intros Hno. exfalso. apply Hno. left. reflexivity.
      * split; [intros [Hin|Hin]; [congruence|contradiction]|].
        split; [intros [Hin|Hin]; [congruence|contradiction]|reflexivity].
Qed.

(** X15. The path under which a file is uploaded is the instant of
    [Date.now()] in decimal, a dash, the random hexadecimal digits, a dot
    and an extension. The extension is never empty and contains no dot:
    it is what follows the last dot of the file name, the whole name when
    it has no dot, and [jpg] when nothing follows the last dot. *)
Theorem upload_path_format
  (tza : Z) (getPublicUrl : jsstring -> jsstring) (now1 now2 now3 : Z)
  (random_hex : jsstring) (prof : profile_response)
  (up_err db_err : option jsstring) (f : UploadForm)
  (f' : UploadForm) (effects : list effect) (path : jsstring) :
  upload tza getPublicUrl now1 now2 now3 random_hex prof up_err db_err f
  = Uploaded f' effects ->
  In (storage_upload path) effects ->
  exists name ext,
    file f = Some {| file_name := name |}
    /\ path = ToString now2 ++ lit "-" ++ random_hex ++ lit "." ++ ext
    /\ ext <> [] /\ ~ In 46%N ext
    /\ ((exists pre, name = pre ++ 46%N :: ext)
        \/ (~ In 46%N name /\ ext = name)
        \/ (ext = lit "jpg" /\ (name = [] \/ exists pre, name = pre ++ [46%N]))).
Proof.
  unfold upload. intros Hu Hin.
  destruct (canSubmit f) eqn:Hc; cbn [negb] in Hu.
  2:{ injection Hu as <- <-. destruct Hin as [[=]|[]]. }
  assert (Hfile : exists name, file f = Some {| file_name := name |}).
  { unfold canSubmit in Hc. destruct (file f) as [[name]|].
    - exists name. reflexivity.
    - rewrite bool_decide_eq_false_2 in Hc by (intros [x [=]]).
      cbn [negb] in Hc. rewrite orb_true_r in Hc. discriminate. }
  destruct Hfile as [name Hname]. exists name.
  destruct (after_last_dot_spec name) as (Hnodot & Hdot & Hwhole).
  assert (Hext : forall ext,
             ext = (if truthy (after_last_dot name) then after_last_dot name
                    else lit "jpg") ->
             ext <> [] /\ ~ In 46%N ext
             /\ ((exists pre, name = pre ++ 46%N :: ext)
                 \/ (~ In 46%N name /\ ext = name)
                 \/ (ext = lit "jpg"
                     /\ (name = [] \/ exists pre, name = pre ++ [46%N])))).
  { intros ext ->. destruct (after_last_dot name) as [|c r] eqn:E; cbn [truthy].
    - split; [discriminate|]. split; [vm_compute; intuition discriminate|].
      right; right. split; [reflexivity|].
      destruct (in_dec N.eq_dec 46%N name) as [Hi|Hn].
      + right. exact (Hdot Hi).
      + left. symmetry. exact (Hwhole Hn).
    - split; [discriminate|]. split; [exact Hnodot|].
      destruct (in_dec N.eq_dec 46%N name) as [Hi|Hn].
      + left. exact (Hdot Hi).
      + right; left. split; [exact Hn|]. exact (Hwhole Hn). }
  cbv zeta in Hu. cbn [file with_busy] in Hu. rewrite Hname in Hu.
  cbn [file_name] in Hu.
  set (ext := if truthy (after_last_dot name) then after_last_dot name
              else lit "jpg") in *.
  specialize (Hext ext eq_refl).
  assert (Hgoal : forall p,
             p = ToString now2 ++ lit "-" ++ random_hex ++ lit "." ++ ext ->
             path = p ->
             exists ext0,
               Some {| file_name := name |} = Some {| file_name := name |}
               /\ path = ToString now2 ++ lit "-" ++ random_hex ++ lit "." ++ ext0
               /\ ext0 <> [] /\ ~ In 46%N ext0
               /\ ((exists pre, name = pre ++ 46%N :: ext0)
                   \/ (~ In 46%N name /\ ext0 = name)
                   \/ (ext0 = lit "jpg"
                       /\ (name = [] \/ exists pre, name = pre ++ [46%N])))).
  { intros p -> ->. exists ext. split; [reflexivity|].
    split; [reflexivity|exact Hext]. }
  rewrite Hname.
  repeat match type of Hu with
         | context [if ?b then _ else _] =>
           match b with
           | truthy (after_last_dot name) => fail 1
           | _ => destruct b
           end
         | context [match ?x with _ => _ end] =>
           match x with
           | context [truthy (after_last_dot name)] => fail 1
           | _ => destruct x
           end
         end;
    try discriminate; injection Hu as <- <-;
    repeat (destruct Hin as [Hin|Hin]; try discriminate);
    try contradiction;
    injection Hin as <-; apply (Hgoal _ eq_refl eq_refl).
Qed.

Lemma upload_path_format_witness :
  exists f' effects path,
    upload Samples.kst (fun path => lit "https://cdn/" ++ path)
      Samples.now0 Samples.now0 Samples.now0 (lit "9f3a")
      {| prof_family := Some (Some (lit "fam")); prof_error := None |}
      None None Samples.upload_form = Uploaded f' effects
    /\ In (storage_upload path) effects
    /\ exists name ext,
         file Samples.upload_form = Some {| file_name := name |}
         /\ path = ToString Samples.now0 ++ lit "-" ++ lit "9f3a" ++ lit "."
                   ++ ext
         /\ ext <> [] /\ ~ In 46%N ext.
Proof.
  let v := eval vm_compute in
    (upload Samples.kst (fun path => lit "https://cdn/" ++ path)
       Samples.now0 Samples.now0 Samples.now0 (lit "9f3a")
       {| prof_family := Some (Some (lit "fam")); prof_error := None |}
       None None Samples.upload_form) in
  match v with
  | Uploaded ?f ?e =>
    match e with
    | [_; storage_upload ?p; _] => exists f, e, p
    end
  end.
  match goal with
  | |- ?A /\ ?B /\ _ =>
    assert (Hu : A) by (vm_compute; reflexivity);
    assert (Hin : B) by (right; left; reflexivity)
  end.
  split; [exact Hu|]. split; [exact Hin|].
  destruct (upload_path_format _ _ _ _ _ _ _ _ _ _ _ _ _ Hu Hin)
    as (name & ext & Hf & Hp & Hne & Hnd & _).
  exists name, ext. repeat split; assumption.
Defined.

End UploadMore.

(* ===================================================================== *)
(** ** The date-time string format: facts *)
(* ===================================================================== *)

Module DateStringFacts.
Import JS Upload DateString JSFacts UploadFacts.

Lemma Number_of_digits_snoc l c :
  Number_of_digits (l ++ [c]) = 10 * Number_of_digits l + digit_value c.
Proof. unfold Number_of_digits. rewrite fold_left_app. reflexivity. Qed.

(** [pad] writes the digits of its number. *)
Lemma pad_digits n v :
  0 <= v < 10 ^ Z.of_nat n ->
  all_digits n (pad n v) /\ Number_of_digits (pad n v) = v.
Proof.
  revert v. induction n as [|n IH]; intros v Hv.
  - cbn in *. repeat split; [constructor|unfold Number_of_digits; cbn; lia].
  - rewrite Nat2Z.inj_succ, Z.pow_succ_r in Hv by lia.
    destruct (IH (v / 10) ltac:(euclid)) as ([Hl Hf] & Hn).
    cbn [pad]. split; [split|].
    + rewrite length_app, Hl. cbn. lia.
    + apply Forall_app. split; [exact Hf|]. constructor; [|constructor].
      unfold is_digit. apply andb_true_iff.
      split; apply N.leb_le; euclid.
    + rewrite Number_of_digits_snoc, Hn. unfold digit_value.
      rewrite Z2N.id by euclid. euclid.
Qed.

Lemma take_pad n v rest :
  0 <= v < 10 ^ Z.of_nat n ->
  take_digits n (pad n v ++ rest) = Some (pad n v, rest).
Proof.
  intros Hv. apply take_digits_Some. split; [reflexivity|].
  apply pad_digits, Hv.
Qed.

Lemma time_fields_range t :
  0 <= HourFromTime t <= 23 /\ 0 <= MinFromTime t <= 59
  /\ 0 <= SecFromTime t <= 59 /\ 0 <= msFromTime t <= 999
  /\ MakeTime (HourFromTime t) (MinFromTime t) (SecFromTime t) (msFromTime t)
     = TimeWithinDay t.
Proof.
  unfold HourFromTime, MinFromTime, SecFromTime, msFromTime, MakeTime,
    TimeWithinDay, msPerDay, msPerHour, msPerMinute, msPerSecond.
  repeat split; euclid.
Qed.

(** Reading back what [toISOString] wrote gives the instant, for the years
    0 to 9999 that it writes with four digits. *)
Lemma parse_toISOString t s :
  - maxTime <= t <= maxTime -> 0 <= YearFromTime t <= 9999 ->
  toISOString (Some t) = Normal s -> Date_parse_iso s = Some t.
Proof.
  intros Ht Hy Hs. unfold toISOString in Hs.
  replace ((0 <=? YearFromTime t) && (YearFromTime t <=? 9999)) with true in Hs
    by (destruct (Z.leb_spec 0 (YearFromTime t)),
          (Z.leb_spec (YearFromTime t) 9999); cbn; lia).
  apply (f_equal (fun c => match c with
                           | Normal x => x
                           | ThrowRangeError => []
                           end)) in Hs.
  cbv beta iota in Hs. subst s.
  pose proof (monthOfDay_range (InLeapYear t) (DayWithinYear t)) as Hm.
  fold (MonthFromTime t) in Hm.
  destruct (UploadMore.DateFromTime_range t) as [Hd Hd31].
  destruct (time_fields_range t) as (Hh & Hmi & Hsec & Hms & Htime).
  change (lit "-") with [45%N]. change (lit "T") with [84%N].
  change (lit ":") with [58%N]. change (lit ".") with [46%N].
  change (lit "Z") with [90%N].
  unfold Date_parse_iso.
  rewrite take_pad by (cbn; lia).
  cbn [mbind option_bind app take_char]. rewrite N.eqb_refl.
  cbn [mbind option_bind]. rewrite take_pad by (cbn; lia).
  cbn [mbind option_bind app take_char]. rewrite N.eqb_refl.
  cbn [mbind option_bind]. rewrite take_pad by (cbn; lia).
  cbn [mbind option_bind app take_char]. rewrite N.eqb_refl.
  cbn [mbind option_bind]. rewrite take_pad by (cbn; lia).
  cbn [mbind option_bind app take_char]. rewrite N.eqb_refl.
  cbn [mbind option_bind]. rewrite take_pad by (cbn; lia).
  cbn [mbind option_bind app take_char]. rewrite N.eqb_refl.
  cbn [mbind option_bind]. rewrite take_pad by (cbn; lia).
  cbn [mbind option_bind app take_char]. rewrite N.eqb_refl.
  cbn [mbind option_bind]. rewrite take_pad by (cbn; lia).
  cbn [mbind option_bind app take_char]. rewrite N.eqb_refl.
  cbn [mbind option_bind].
  rewrite (proj2 (pad_digits 4 (YearFromTime t) ltac:(cbn; lia))).
  rewrite (proj2 (pad_digits 2 (MonthFromTime t + 1) ltac:(cbn; lia))).
  rewrite (proj2 (pad_digits 2 (DateFromTime t) ltac:(cbn; lia))).
  rewrite (proj2 (pad_digits 2 (HourFromTime t) ltac:(cbn; lia))).
  rewrite (proj2 (pad_digits 2 (MinFromTime t) ltac:(cbn; lia))).
  rewrite (proj2 (pad_digits 2 (SecFromTime t) ltac:(cbn; lia))).
  rewrite (proj2 (pad_digits 3 (msFromTime t) ltac:(cbn; lia))).
  replace (MonthFromTime t + 1 - 1) with (MonthFromTime t) by lia.
  replace ((1 <=? MonthFromTime t + 1) && (MonthFromTime t + 1 <=? 12)
           && (1 <=? DateFromTime t)
           && (DateFromTime t <=? DaysInMonth (YearFromTime t) (MonthFromTime t))
           && ((HourFromTime t <=? 23) && (MinFromTime t <=? 59)
               && (SecFromTime t <=? 59)
               || (HourFromTime t =? 24) && (MinFromTime t =? 0)
                  && (SecFromTime t =? 0) && (msFromTime t =? 0)))
    with true.
  2:{ symmetry. apply andb_true_iff. split.
      - repeat (apply andb_true_iff; split); apply Z.leb_le; lia.
      - apply orb_true_iff. left.
        repeat (apply andb_true_iff; split); apply Z.leb_le; lia. }
  rewrite MakeDay_of_fields, Htime.
  replace (Day t + (DateFromTime t - DateFromTime t)) with (Day t) by lia.
  rewrite MakeDate_Day_TimeWithinDay. apply TimeClip_in_range, Ht.
Qed.

End DateStringFacts.

(* ===================================================================== *)
(** ** Manage page: the life of a public window *)
(* ===================================================================== *)

Module ManageMore.
Import JS Manage JSFacts ManageFacts.

Lemma length_pad n v : length (pad n v) = n.
Proof.
  revert v. induction n as [|n IH]; intros v; cbn [pad]; [reflexivity|].
  rewrite length_app, IH. cbn. lia.
Qed.

Lemma toISOString_truthy t s : toISOString (Some t) = Normal s -> truthy s = true.
Proof.
  unfold toISOString. intros Hs.
  apply (f_equal (fun c => match c with
                           | Normal x => length x
                           | ThrowRangeError => O
                           end)) in Hs.
  cbv beta iota in Hs. destruct s; [|reflexivity]. exfalso.
  rewrite !length_app in Hs.
  destruct ((0 <=? YearFromTime t) && (YearFromTime t <=? 9999));
    rewrite ?length_app, !length_pad in Hs; cbn in Hs; lia.
Qed.

(** A record whose deadline is the ISO string of the instant [d]. *)
Lemma deadline_read_back Date_parse d s r :
  toISOString (Some d) = Normal s -> Date_parse s = Some d ->
  is_public r = true -> public_until r = Some s ->
  forall now',
    isExpired Date_parse now' r = (d <=? now')
    /\ StatusBadge Date_parse now' r
       = (if d <=? now' then PublicExpired else PublicActive)
    /\ extendEnabled Date_parse now' r = (d <=? now').
Proof.
  intros Hs Hp Hpub Hu now'.
  assert (Hx : isExpired Date_parse now' r = (d <=? now')).
  { unfold isExpired. rewrite Hpub, Hu, (toISOString_truthy d s Hs), Hp.
    reflexivity. }
  split; [exact Hx|]. split.
  - unfold StatusBadge. rewrite Hx, Hpub. reflexivity.
  - unfold extendEnabled. rewrite Hx, Hpub. reflexivity.
Qed.

(** X5. Publishing and extending open a window of exactly 14 days. If the
    date parser reads back the string that [toISOString] wrote, then after
    an accepted publish or extend at the instant [now] the stored record
    is PublicActive at every instant before now + 14 days and
    PublicExpired, with the extend control enabled, from that instant on;
    the gallery shows 14 days left at the instant of the update. *)
Theorem public_window_lasts_two_weeks
  (Date_parse : jsstring -> option Z) (now : Z)
  (load_resp : select_response) (art : Artwork) (pg : Page) (w : World)
  (r : Artwork) :
  (forall s, toISOString (Some (now + TWO_WEEKS_MS)) = Normal s ->
             Date_parse s = Some (now + TWO_WEEKS_MS)) ->
  - maxTime <= now + TWO_WEEKS_MS <= maxTime ->
  artworks w !! id art = Some r ->
  let window_of (r' : Artwork) :=
    (forall now',
        isExpired Date_parse now' r' = (now + TWO_WEEKS_MS <=? now')
        /\ StatusBadge Date_parse now' r'
           = (if now + TWO_WEEKS_MS <=? now' then PublicExpired
              else PublicActive)
        /\ extendEnabled Date_parse now' r' = (now + TWO_WEEKS_MS <=? now'))
    /\ Gallery.daysLeft Date_parse now (public_until r') = Some 14 in
  (is_public art = false ->
   exists pg' w' r',
     togglePublic now None load_resp art pg w = Done pg' w'
     /\ artworks w' !! id art = Some r' /\ window_of r')
  /\ (exists pg' w' r',
        extendTwoWeeks now None load_resp art pg w = Done pg' w'
        /\ artworks w' !! id art = Some r' /\ window_of r').
Proof.
  intros Hparse Hclock Hr window_of.
  destruct (toISO_of_value _ Hclock) as (s & Hs & Hiso).
  pose proof (Hparse s Hs) as Hp.
  assert (Hwin : forall r', is_public r' = true -> public_until r' = Some s ->
                            window_of r').
  { intros r' Hpub Hu. split.
    - exact (deadline_read_back Date_parse _ s r' Hs Hp Hpub Hu).
    - rewrite Hu. unfold Gallery.daysLeft.
      rewrite (toISOString_truthy _ s Hs), Hp. cbn [negb].
      replace (now + TWO_WEEKS_MS - now) with TWO_WEEKS_MS by lia.
      reflexivity. }
  split.
  - intros Hpriv.
    destruct (togglePublic_effect now None load_resp art pg w)
      as [(_ & Hthrow & _)|(p_until & Hpu & (pg' & Hdone) & rest & _ & _ & Hart & _)];
      [congruence|].
    rewrite Hpriv in Hpu, Hart. destruct Hpu as (s' & Hs' & ->).
    assert (s' = s) as -> by congruence.
    destruct (lookup_after_update true (Some s) (id art) (artworks w) r Hr)
      as (r' & Hr' & Hpub & Hu).
    exists pg', (world_of (togglePublic now None load_resp art pg w)), r'.
    split; [exact Hdone|]. split; [rewrite Hart; exact Hr'|].
    exact (Hwin r' Hpub Hu).
  - destruct (extendTwoWeeks_effect now None load_resp art pg w)
      as [(Hthrow & _)|(s' & Hs' & (pg' & Hdone) & rest & _ & _ & Hart & _)];
      [congruence|].
    assert (s' = s) as -> by congruence.
    destruct (lookup_after_update true (Some s) (id art) (artworks w) r Hr)
      as (r' & Hr' & Hpub & Hu).
    exists pg', (world_of (extendTwoWeeks now None load_resp art pg w)), r'.
    split; [exact Hdone|]. split; [rewrite Hart; exact Hr'|].
    exact (Hwin r' Hpub Hu).
Qed.

Lemma public_window_lasts_two_weeks_witness :
  exists pg' w' r',
    togglePublic Samples.now0 None Samples.load0 Samples.drawing
      Samples.page0 Samples.world0 = Done pg' w'
    /\ artworks w' !! id Samples.drawing = Some r'
    /\ StatusBadge DateString.Date_parse_iso
         (Samples.now0 + TWO_WEEKS_MS - 1) r' = PublicActive
    /\ StatusBadge DateString.Date_parse_iso
         (Samples.now0 + TWO_WEEKS_MS) r' = PublicExpired.
Proof.
  assert (Hclock : - maxTime <= Samples.now0 + TWO_WEEKS_MS <= maxTime)
    by (vm_compute; split; discriminate).
  assert (Hparse : forall s,
             toISOString (Some (Samples.now0 + TWO_WEEKS_MS)) = Normal s ->
             DateString.Date_parse_iso s = Some (Samples.now0 + TWO_WEEKS_MS)).
  { intros s. apply DateStringFacts.parse_toISOString; [exact Hclock|].
    vm_compute. split; discriminate. }
  assert (Hr : artworks Samples.world0 !! id Samples.drawing
               = Some Samples.drawing)
    by (apply lookup_singleton_eq).
  destruct (public_window_lasts_two_weeks DateString.Date_parse_iso
              Samples.now0 Samples.load0 Samples.drawing Samples.page0
              Samples.world0 Samples.drawing Hparse Hclock Hr)
    as (Hpub & _).
  destruct (Hpub eq_refl) as (pg' & w' & r' & Hd & Hl & Hwin & _).
  exists pg', w', r'. split; [exact Hd|]. split; [exact Hl|].
  split.
  - rewrite (proj1 (proj2 (Hwin _))).
    replace (Samples.now0 + TWO_WEEKS_MS <=? Samples.now0 + TWO_WEEKS_MS - 1)
      with false by (symmetry; apply Z.leb_gt; lia).
    reflexivity.
  - rewrite (proj1 (proj2 (Hwin _))), Z.leb_refl. reflexivity.
Defined.

(** X6. Un-publishing closes the window at once: after an accepted
    un-publish the stored record is Private at every instant, is never
    expired, and its extend button is disabled, whatever deadline it had
    and whatever the date parser. *)
Theorem unpublished_artwork_is_private
  (Date_parse : jsstring -> option Z) (now : Z)
  (load_resp : select_response) (art : Artwork) (pg : Page) (w : World)
  (r : Artwork) :
  is_public art = true ->
  artworks w !! id art = Some r ->
  exists pg' w' r',
    togglePublic now None load_resp art pg w = Done pg' w'
    /\ artworks w' !! id art = Some r'
    /\ public_until r' = None
    /\ forall now' busy,
         StatusBadge Date_parse now' r' = Private
         /\ isExpired Date_parse now' r' = false
         /\ extend_button_disabled Date_parse now' busy r' = true.
Proof.
  intros Hpub Hr.
  destruct (togglePublic_effect now None load_resp art pg w)
    as [(Hpriv & _)|(p_until & Hpu & (pg' & Hdone) & rest & _ & _ & Hart & _)];
    [congruence|].
  rewrite Hpub in Hpu, Hart. subst p_until. cbn [negb] in Hart.
  destruct (lookup_after_update false None (id art) (artworks w) r Hr)
    as (r' & Hr' & Hp' & Hu).
  exists pg', (world_of (togglePublic now None load_resp art pg w)), r'.
  split; [exact Hdone|]. split; [rewrite Hart; exact Hr'|].
  split; [exact Hu|]. intros now' busy.
  assert (Hx : isExpired Date_parse now' r' = false)
    by (unfold isExpired; rewrite Hp'; reflexivity).
  split; [unfold StatusBadge; rewrite Hp'; reflexivity|].
  split; [exact Hx|].
  unfold extend_button_disabled, extendEnabled. rewrite Hp'. reflexivity.
Qed.

Lemma unpublished_artwork_is_private_witness :
  exists pg' w' r',
    togglePublic Samples.now0 None Samples.load0 Samples.shown
      Samples.page0 Samples.world0 = Done pg' w'
    /\ artworks w' !! id Samples.shown = Some r'
    /\ public_until r' = None.
Proof.
  destruct (unpublished_artwork_is_private DateString.Date_parse_iso
              Samples.now0 Samples.load0 Samples.shown Samples.page0
              Samples.world0 Samples.drawing eq_refl
              ltac:(apply lookup_singleton_eq))
    as (pg' & w' & r' & Hd & Hl & Hu & _).
  exists pg', w', r'. repeat split; assumption.
Defined.

(** X7. Expiry is permanent while the record is not written: an artwork
    that is expired at one instant is expired at every later instant, and
    a private artwork is expired at none. *)
Theorem expiry_is_monotone
  (Date_parse : jsstring -> option Z) (now now' : Z) (a : Artwork) :
  now <= now' ->
  (isExpired Date_parse now a = true -> isExpired Date_parse now' a = true)
  /\ (is_public a = false -> isExpired Date_parse now a = false).
Proof.
  intros Hle. unfold isExpired. split.
  - destruct (is_public a); cbn [negb]; [|discriminate].
    destruct (public_until a) as [iso|]; [|discriminate].
    destruct (negb (truthy iso)); [discriminate|].
    destruct (Date_parse iso); [|discriminate].
    intros H. apply Z.leb_le in H. apply Z.leb_le. lia.
  - intros ->. reflexivity.
Qed.

Lemma expiry_is_monotone_witness :
  Samples.now0 <= Samples.now0 + 1
  /\ isExpired DateString.Date_parse_iso (Samples.now0 + 1) Samples.shown = true.
Proof.
  assert (H : Samples.now0 <= Samples.now0 + 1) by lia.
  split; [exact H|].
  apply (proj1 (expiry_is_monotone DateString.Date_parse_iso Samples.now0
                  (Samples.now0 + 1) Samples.shown H)).
  vm_compute. reflexivity.
Defined.

(** *** Failures and what a handler leaves untouched *)

(** X8. A write that the service refuses leaves the in-memory list and
    the table as they were, shows the service's message after the
    handler's prefix, releases the busy mark and asks for no reload: the
    refused request is the last one sent. This holds for publish /
    un-publish, extend and the database delete, whose requests are the
    removal of the stored object, when there is a storage path, and the
    delete itself. *)
Theorem refused_write_changes_nothing
  (now : Z) (message : jsstring) (load_resp : select_response)
  (url_storage_path : jsstring -> jsstring) (st_err : option jsstring)
  (art : Artwork) (pg : Page) (w : World) :
  - maxTime <= now + TWO_WEEKS_MS <= maxTime ->
  (exists pg' w' p_until,
     togglePublic now (Some message) load_resp art pg w = Done pg' w'
     /\ items pg' = items pg /\ artworks w' = artworks w
     /\ msg pg' = lit "❌ 변경 실패: " ++ message /\ busyId pg' = None
     /\ log w' = log w ++ [UpdateArtwork (id art) (negb (is_public art)) p_until])
  /\ (exists pg' w' p_until,
        extendTwoWeeks now (Some message) load_resp art pg w = Done pg' w'
        /\ items pg' = items pg /\ artworks w' = artworks w
        /\ msg pg' = lit "❌ 연장 실패: " ++ message /\ busyId pg' = None
        /\ log w' = log w ++ [UpdateArtwork (id art) true p_until])
  /\ (exists pg' w',
        deleteArtwork url_storage_path true st_err (Some message) art pg w
        = (pg', w')
        /\ items pg' = items pg /\ artworks w' = artworks w
        /\ msg pg' = lit "❌ DB 삭제 실패: " ++ message /\ busyId pg' = None
        /\ timers pg' = timers pg
        /\ log w'
           = log w
             ++ (if truthy (getStoragePathFromPrivateImagePath
                              url_storage_path (private_image_path art))
                 then [RemoveObject
                         (getStoragePathFromPrivateImagePath
                            url_storage_path (private_image_path art))]
                 else [])
             ++ [DeleteArtwork (id art)]
        /\ forall f, ~ In (SelectArtworks f) (skipn (length (log w)) (log w'))).
Proof.
  intros Hclock. destruct (toISO_of_value _ Hclock) as (s & _ & Hiso).
  split; [|split].
  - unfold togglePublic. rewrite Hiso.
    destruct (is_public art); cbn [negb]; eexists _, _, _;
      (split; [reflexivity|]); repeat split.
  - unfold extendTwoWeeks. rewrite Hiso.
    eexists _, _, _. split; [reflexivity|]. repeat split.
  - destruct (deleteArtwork_effect url_storage_path st_err (Some message)
                art pg w) as (pg' & w' & Hd & Hlog & _).
    exists pg', w'. split; [exact Hd|].
    assert (Hrest : items pg' = items pg /\ artworks w' = artworks w
                    /\ msg pg' = lit "❌ DB 삭제 실패: " ++ message
                    /\ busyId pg' = None /\ timers pg' = timers pg).
    { revert Hd. unfold deleteArtwork. cbn [negb].
      destruct (truthy (getStoragePathFromPrivateImagePath url_storage_path
                          (private_image_path art))); destruct st_err;
        intros [= <- <-]; repeat split. }
    destruct Hrest as (H1 & H2 & H3 & H4 & H5).
    repeat (split; [assumption|]).
    intros f. rewrite Hlog, skipn_app, Nat.sub_diag, skipn_all. cbn [skipn app].
    destruct (truthy (getStoragePathFromPrivateImagePath url_storage_path
                        (private_image_path art)));
      cbn [app In]; intros Hin;
      repeat (destruct Hin as [Hin|Hin]; [discriminate|]); exact Hin.
Qed.

Lemma refused_write_changes_nothing_witness :
  - maxTime <= Samples.now0 + TWO_WEEKS_MS <= maxTime
  /\ exists pg' w' p_until,
       togglePublic Samples.now0 (Some (lit "permission denied"))
         Samples.load0 Samples.drawing Samples.page0 Samples.world0
       = Done pg' w'
       /\ items pg' = items Samples.page0
       /\ artworks w' = artworks Samples.world0
       /\ msg pg' = lit "❌ 변경 실패: " ++ lit "permission denied"
       /\ busyId pg' = None
       /\ log w' = log Samples.world0
                   ++ [UpdateArtwork (id Samples.drawing)
                         (negb (is_public Samples.drawing)) p_until].
Proof.
  assert (H : - maxTime <= Samples.now0 + TWO_WEEKS_MS <= maxTime)
    by (vm_compute; split; discriminate).
  split; [exact H|].
  exact (proj1 (refused_write_changes_nothing Samples.now0
                  (lit "permission denied") Samples.load0 (fun raw => raw)
                  None Samples.drawing Samples.page0 Samples.world0 H)).
Defined.



(** X10. A confirmed delete touches nothing but its artwork: every other
    record of the table and every other object of the bucket is as
    before, no update is sent, and when the database delete succeeds the
    in-memory list keeps, in order and as often as they occurred, exactly
    the items with another id; when it fails the list is as before. *)
Theorem deleteArtwork_frame
  (url_storage_path : jsstring -> jsstring)
  (st_err db_err : option jsstring) (art : Artwork) (pg : Page) (w : World) :
  let path := getStoragePathFromPrivateImagePath url_storage_path
                (private_image_path art) in
  exists pg' w',
    deleteArtwork url_storage_path true st_err db_err art pg w = (pg', w')
    /\ (forall j, j <> id art -> artworks w' !! j = artworks w !! j)
    /\ (forall p, p <> path -> p ∈ bucket w' <-> p ∈ bucket w)
    /\ (forall i p u, In (UpdateArtwork i p u) (log w') ->
                      In (UpdateArtwork i p u) (log w))
    /\ (db_err = None ->
        forall x, In x (items pg') <-> In x (items pg) /\ id x <> id art)
    /\ sublist (items pg') (items pg)
    /\ (db_err = None ->
        items pg' = filter (fun x => id x <> id art) (items pg))
    /\ (db_err <> None -> items pg' = items pg).
Proof.
  intros path.
  destruct (deleteArtwork_effect url_storage_path st_err db_err art pg w)
    as (pg' & w' & Hd & Hlog & Hb & Hart & Hitems & _).
  fold path in Hlog, Hb.
  exists pg', w'. split; [exact Hd|].
  split; [|split; [|split; [|split; [|split; [|split]]]]].
  5:{ rewrite Hitems. destruct db_err; [reflexivity|apply sublist_filter]. }
  5:{ intros ->. exact Hitems. }
  5:{ intros Hne. destruct db_err; [exact Hitems|destruct Hne; reflexivity]. }
  - intros j Hj. rewrite Hart. destruct db_err; [reflexivity|].
    apply lookup_delete_ne. congruence.
  - intros p Hp. rewrite Hb.
    destruct (truthy path); [destruct st_err|]; set_solver.
  - intros i p u Hin. rewrite Hlog in Hin.
    apply in_app_iff in Hin as [Hin|Hin]; [exact Hin|].
    apply in_app_iff in Hin as [Hin|[[=]|[]]].
    destruct (truthy path); [destruct Hin as [[=]|[]]|destruct Hin].
  - intros -> x. rewrite Hitems, <- !list_elem_of_In, list_elem_of_filter.
    tauto.
Qed.

(** X11. An artwork whose image path is empty or white space has no
    storage path: its confirmed delete sends the database delete alone and
    leaves the bucket as it was. A path that is not an http(s) URL is its
    own storage path, trimmed. *)
Theorem blank_path_skips_storage
  (url_storage_path : jsstring -> jsstring)
  (st_err db_err : option jsstring) (art : Artwork) (pg : Page) (w : World) :
  (trim (private_image_path art) = [] ->
   getStoragePathFromPrivateImagePath url_storage_path (private_image_path art)
   = []
   /\ exists pg' w',
        deleteArtwork url_storage_path true st_err db_err art pg w = (pg', w')
        /\ log w' = log w ++ [DeleteArtwork (id art)]
        /\ bucket w' = bucket w)
  /\ (startsWith (lit "http://") (trim (private_image_path art)) = false ->
      startsWith (lit "https://") (trim (private_image_path art)) = false ->
      getStoragePathFromPrivateImagePath url_storage_path
        (private_image_path art) = trim (private_image_path art)).
Proof.
  split.
  - intros Hblank.
    assert (Hpath : getStoragePathFromPrivateImagePath url_storage_path
                      (private_image_path art) = [])
      by (unfold getStoragePathFromPrivateImagePath; rewrite Hblank;
          reflexivity).
    split; [exact Hpath|].
    destruct (deleteArtwork_effect url_storage_path st_err db_err art pg w)
      as (pg' & w' & Hd & Hlog & Hb & _).
    rewrite Hpath in Hlog, Hb. exists pg', w'. split; [exact Hd|].
    split; [exact Hlog|exact Hb].
  - intros H1 H2. unfold getStoragePathFromPrivateImagePath.
    rewrite H1, H2. cbn [negb andb].
    destruct (trim (private_image_path art)); reflexivity.
Qed.

End ManageMore.

(* ===================================================================== *)
(** ** Invite page: further properties *)
(* ===================================================================== *)

Module InviteMore.
Import JS Invite.

(** X12. Leaving a message. While a submit is in flight, with an empty
    token, or with a name or a text that is blank after trimming, [submit]
    sends nothing and changes neither the page nor the form. Otherwise it
    sends one [add_guestbook_entry] with the token as it is and the name
    and text trimmed. The new entry is put in front of the list, and the
    form emptied, only once the service has returned it; on an error the
    list and the typed name and text are kept and the message shown. *)
Theorem submit_guestbook_entry
  (token : jsstring) (answer : add_answer) (pg : Page) (fm : Form) :
  let valid :=
    negb (submitBusy fm) && Manage.truthy token
    && Manage.truthy (trim (name fm))
    && Manage.truthy (trim (form_content fm)) in
  let request :=
    add_guestbook_entry token (trim (name fm)) (trim (form_content fm)) in
  (valid = false ->
   exists effects,
     submit token answer pg fm = (pg, fm, effects)
     /\ forall e, In e effects -> exists text, e = alert text)
  /\ (valid = true ->
      match answer with
      | AddReturned row =>
        exists pg',
          submit token answer pg fm
          = (pg', {| name := []; form_content := []; submitBusy := false |},
             [request; setTimeout_clearStatus 1200])
          /\ entries pg' = row :: entries pg
          /\ artworks pg' = artworks pg
      | AddFailed message =>
        exists pg',
          submit token answer pg fm
          = (pg', {| name := name fm; form_content := form_content fm;
                     submitBusy := false |}, [request])
          /\ entries pg' = entries pg
          /\ artworks pg' = artworks pg
          /\ status pg' = lit "❌ 등록 실패: " ++ message
      end).
Proof.
  intros valid request. subst valid request. unfold submit.
  destruct (submitBusy fm), (Manage.truthy token),
    (Manage.truthy (trim (name fm))),
    (Manage.truthy (trim (form_content fm)));
    cbn [negb andb orb]; (split; [intros Hv|intros Hv]); try discriminate;
    try (eexists; split; [reflexivity|]; intros e [<-|[]]; eexists; reflexivity);
    try (eexists; split; [reflexivity|]; intros e []).
  destruct answer; eexists; repeat split.
Qed.

Lemma submit_guestbook_entry_witness :
  let pg := {| artworks := []; entries := []; status := []; debug := [];
               loading := false |} in
  let row := {| entry_id := lit "e1"; display_name := lit "Gran";
                content := lit "Lovely!";
                entry_created_at := lit "2024-01-16T00:00:00.000Z" |} in
  exists pg',
    submit (lit "abc") (AddReturned row) pg
      {| name := lit " Gran "; form_content := lit "Lovely!";
         submitBusy := false |}
    = (pg', {| name := []; form_content := []; submitBusy := false |},
       [add_guestbook_entry (lit "abc") (trim (lit " Gran "))
          (trim (lit "Lovely!"));
        setTimeout_clearStatus 1200])
    /\ entries pg' = row :: entries pg
    /\ artworks pg' = artworks pg.
Proof.
  intros pg row.
  exact (proj2 (submit_guestbook_entry (lit "abc") (AddReturned row) pg
                  {| name := lit " Gran "; form_content := lit "Lovely!";
                     submitBusy := false |})
           ltac:(vm_compute; reflexivity)).
Defined.

(** X13. With a token of at least 6 code units after trimming, [loadAll]
    ends with [loading] false. If one of the two lookups failed the status
    is the could-not-load text; otherwise the guestbook list is the rows
    returned, there is one artwork view per row returned, and the status
    is the nothing-to-show text exactly when no artwork came back and
    empty otherwise. The lists, the status and [loading] do not depend on
    which answer arrives first. *)
Theorem loadAll_outcome
  (getPublicUrl : jsstring -> jsstring) (token : jsstring)
  (guest_resp : response Entry) (art_resp : response ArtworkRowFromRPC)
  (guest_first : bool) (pg : Page) (calls : list call) :
  (6 <= length (trim token))%nat ->
  let pg' :=
    fst (loadAll getPublicUrl token guest_resp art_resp guest_first pg calls) in
  let other :=
    fst (loadAll getPublicUrl token guest_resp art_resp (negb guest_first)
           pg calls) in
  loading pg' = false
  /\ (error guest_resp <> None \/ error art_resp <> None ->
      status pg' = lit "❌ 초대 링크를 불러오지 못했습니다. (아래 디버그를 확인)")
  /\ (error guest_resp = None -> error art_resp = None ->
      entries pg' = default [] (data guest_resp)
      /\ length (artworks pg') = length (default [] (data art_resp))
      /\ status pg'
         = (if (length (default [] (data art_resp)) =? 0)%nat
            then lit "표시할 작품이 아직 없어요." else [])
      /\ debug pg' = [])
  /\ (artworks pg' = artworks other /\ entries pg' = entries other
      /\ status pg' = status other /\ loading pg' = loading other).
Proof.
  intros Hlong pg' other. subst pg' other. unfold loadAll.
  assert (Ht : Manage.truthy token = true).
  { destruct token; [cbn in Hlong; lia|reflexivity]. }
  rewrite Ht. cbn [negb orb].
  replace (Z.of_nat (length (trim token)) <? 6) with false
    by (symmetry; apply Z.ltb_ge; lia).
  unfold loadArtworks_resume, loadGuestbook_resume.
  repeat match goal with
         | |- context [lit ?text] =>
           let l := fresh "text" in generalize (lit text); intros l
         end.
  destruct (error guest_resp) as [mg|], (error art_resp) as [ma|].
  1-3: destruct guest_first; cbn -[lit];
    (split; [reflexivity|]); (split; [intros _; reflexivity|]);
    (split; [intros H1 H2; discriminate|]); repeat split; reflexivity.
  destruct (default [] (data art_resp)) as [|row rows];
    destruct guest_first; cbn -[lit Z.of_nat Z.eqb];
    repeat match goal with
           | |- context [Z.of_nat (S ?n) =? 0] =>
             replace (Z.of_nat (S n) =? 0) with false
               by (symmetry; apply Z.eqb_neq; lia)
           | |- context [Z.of_nat O =? 0] =>
             change (Z.of_nat O =? 0) with true
           end;
    cbn -[lit];
    (split; [reflexivity|]); (split; [intros [H|H]; contradiction|]);
    (split; [intros _ _; rewrite ?length_map; repeat split; reflexivity|]);
    repeat split; reflexivity.
Qed.

Lemma loadAll_outcome_witness :
  (6 <= length (trim (lit "AbCdEf23")))%nat
  /\ forall pg calls,
       let pg' := fst (loadAll (fun v => v) (lit "AbCdEf23")
                         {| data := Some []; error := None |}
                         {| data := Some []; error := None |} true pg calls) in
       loading pg' = false /\ entries pg' = [] /\ debug pg' = [].
Proof.
  assert (H : (6 <= length (trim (lit "AbCdEf23")))%nat) by (vm_compute; lia).
  split; [exact H|]. intros pg calls pg'.
  destruct (loadAll_outcome (fun v => v) (lit "AbCdEf23")
              {| data := Some []; error := None |}
              {| data := Some []; error := None |} true pg calls H)
    as (Hl & _ & Hok & _).
  destruct (Hok eq_refl eq_refl) as (He & _ & _ & Hd).
  split; [exact Hl|]. split; [exact He|exact Hd].
Defined.

End InviteMore.

(* ===================================================================== *)
(** ** Manage page: invite code, guestbook and search *)
(* ===================================================================== *)

Module ManageInviteFacts.
Import JS Manage JSFacts ManageFacts.

Lemma makeToken_length random len : length (makeToken random len) = len.
Proof.
  rewrite makeToken_concat.
  destruct (symbols_of_indices (fun i => token_symbol (random i)) (seq 0 len)
              (fun i => token_symbol_in (random i))) as (Hl & _).
  rewrite Hl. apply length_seq.
Qed.

Lemma makeToken_symbols random len :
  Forall (fun c => In c alphabet) (makeToken random len).
Proof.
  rewrite makeToken_concat.
  exact (proj1 (proj2 (symbols_of_indices
                         (fun i => token_symbol (random i)) (seq 0 len)
                         (fun i => token_symbol_in (random i))))).
Qed.

Lemma makeToken_truthy random len :
  (0 < len)%nat -> truthy (makeToken random len) = true.
Proof.
  intros Hlen. pose proof (makeToken_length random len) as Hl.
  destruct (makeToken random len); [cbn in Hl; lia|reflexivity].
Qed.

(** What [fetchMyProfile] asks for and what it answers. *)
Lemma fetchMyProfile_cases u p :
  (exists uid fam,
      user_error u = None /\ user_id_of u = Some uid /\ truthy uid = true
      /\ profile_error p = None
      /\ profile_data p ≫= row_family_id = Some fam /\ truthy fam = true
      /\ fetchMyProfile u p
         = ({| family_id := Some fam;
               invite_token := profile_data p ≫= row_invite_token;
               uid := Some uid; profile_failure := None |},
            [auth_getUser; select_profile uid]))
  \/ ((forall uid fam,
          ~ (user_error u = None /\ user_id_of u = Some uid /\ truthy uid = true
             /\ profile_error p = None
             /\ profile_data p ≫= row_family_id = Some fam
             /\ truthy fam = true))
      /\ exists prof calls,
          fetchMyProfile u p = (prof, calls)
          /\ (truthy_opt (profile_failure prof)
              || negb (truthy_opt (family_id prof))) = true
          /\ (calls = [auth_getUser]
              \/ exists uid, calls = [auth_getUser; select_profile uid])).
Proof.
  unfold fetchMyProfile. cbv zeta.
  destruct (user_error u) as [ue|] eqn:Hue.
  { right. split; [intros uid fam (H & _); discriminate|].
    rewrite bool_decide_eq_true_2 by (eexists; reflexivity). cbn [orb].
    eexists _, _. split; [reflexivity|]. split; [reflexivity|]. left; reflexivity. }
  rewrite bool_decide_eq_false_2 by (intros [x Hx]; discriminate). cbn [orb].
  destruct (user_id_of u) as [uid|] eqn:Hu; cbn [truthy_opt negb].
  2:{ right. split; [intros uid fam (_ & H & _); discriminate|].
      eexists _, _. split; [reflexivity|]. split; [reflexivity|].
      left; reflexivity. }
  destruct (truthy uid) eqn:Htu; cbn [negb].
  2:{ right. split; [intros uid' fam (_ & H & H' & _); congruence|].
      eexists _, _. split; [reflexivity|]. split; [reflexivity|].
      left; reflexivity. }
  cbn [default].
  destruct (profile_error p) as [pe|] eqn:Hpe.
  { right. split; [intros uid' fam (_ & _ & _ & H & _); discriminate|].
    eexists _, _. split; [reflexivity|].
    split; [cbn; rewrite orb_true_r; reflexivity|]. right. eexists; reflexivity. }
  destruct (profile_data p ≫= row_family_id) as [fam|] eqn:Hf.
  2:{ right. split; [intros uid' fam (_ & _ & _ & _ & H & _); discriminate|].
      eexists _, _. split; [reflexivity|]. split; [reflexivity|].
      right. eexists; reflexivity. }
  destruct (truthy fam) eqn:Htf.
  - left. exists uid, fam. repeat split; assumption.
  - right. split; [intros uid' fam' (_ & _ & _ & _ & H & H'); congruence|].
    eexists _, _. split; [reflexivity|].
    split; [cbn; rewrite Htf; reflexivity|]. right. eexists; reflexivity.
Qed.

(** [saveInviteToken] answers [ok] exactly when the service reported no
    error and its first row echoes the token. *)
Lemma saveInviteToken_ok resp next uid fam :
  let stored :=
    upsert_error resp = None
    /\ exists first rest, upsert_data resp = Some (first :: rest)
                          /\ row_invite_token first = Some next in
  exists ok err,
    saveInviteToken resp next uid fam
    = (ok, err, [upsert_profile uid fam next])
    /\ (ok = true <-> stored).
Proof.
  cbv zeta. unfold saveInviteToken. cbv zeta.
  destruct (upsert_error resp) as [e|].
  { eexists _, _. split; [reflexivity|]. split; [discriminate|].
    intros [[=] _]. }
  destruct (upsert_data resp) as [[|first rest]|].
  1,3: eexists _, _; (split; [reflexivity|]); (split; [discriminate|]);
    intros (_ & f & r & [=] & _).
  destruct (decide (row_invite_token first = Some next)) as [He|He].
  - rewrite bool_decide_eq_true_2 by exact He.
    eexists _, _. split; [reflexivity|]. split; [|reflexivity].
    intros _. split; [reflexivity|]. exists first, rest. split; [reflexivity|exact He].
  - rewrite bool_decide_eq_false_2 by exact He.
    eexists _, _. split; [reflexivity|]. split; [discriminate|].
    intros (_ & f & r & [= <- <-] & H). contradiction.
Qed.

End ManageInviteFacts.

(* ===================================================================== *)
(** ** Manage page: invite code and guestbook, further properties *)
(* ===================================================================== *)

Module ManageInviteMore.
Import JS Manage JSFacts ManageFacts ManageInviteFacts.

(** X16. Making or renewing the invite code. The handler always returns
    with [inviteBusy] released and the list of artworks untouched. The
    token has 28 code units. It is sent to the service, in one upsert,
    only when the user is known and the profile names a family;
    and it is shown, with the guestbook reloaded for it and the message
    cleared after 1.2 s, only when the service reported no error and
    echoed that very token. In every other case the token shown and the
    guestbook stay as they were and the guestbook is not asked for. *)
Theorem createOrRegenerateInvite_outcome
  (random : nat -> byte) (u : user_response) (p : profile_response)
  (saved : upsert_response) (gb : guestbook_response)
  (pg : Page) (pn : Panel) :
  let next := makeToken random 28 in
  let usable (uid fam : jsstring) :=
    user_error u = None /\ user_id_of u = Some uid /\ truthy uid = true
    /\ profile_error p = None
    /\ profile_data p ≫= row_family_id = Some fam /\ truthy fam = true in
  let stored :=
    upsert_error saved = None
    /\ exists first rest, upsert_data saved = Some (first :: rest)
                          /\ row_invite_token first = Some next in
  exists pg' pn' calls,
    createOrRegenerateInvite random u p saved gb pg pn = (pg', pn', calls)
    /\ inviteBusy pn' = false
    /\ items pg' = items pg
    /\ length next = 28%nat
    /\ ((forall uid fam, ~ usable uid fam) ->
        (calls = [auth_getUser]
         \/ exists uid, calls = [auth_getUser; select_profile uid])
        /\ pn' = setInviteBusy false pn
        /\ timers pg' = timers pg)
    /\ (forall uid fam, usable uid fam ->
        (stored ->
         calls = [auth_getUser; select_profile uid;
                  upsert_profile uid fam next;
                  get_guestbook_entries_by_token next]
         /\ inviteToken pn' = next
         /\ entries pn'
            = match guestbook_error gb with
              | Some _ => []
              | None => default [] (guestbook_data gb)
              end
         /\ guestbookBusy pn' = false
         /\ myFamilyId pg' = Some fam
         /\ msg pg' = lit "✅ 초대코드가 준비됐어요."
         /\ timers pg' = timers pg ++ [1200])
        /\ (~ stored ->
            calls = [auth_getUser; select_profile uid;
                     upsert_profile uid fam next]
            /\ pn' = setInviteBusy false pn
            /\ myFamilyId pg' = Some fam
            /\ timers pg' = timers pg)).
Proof.
  intros next usable stored. subst usable.
  pose proof (makeToken_length random 28) as Hlen. fold next in Hlen.
  pose proof (makeToken_truthy random 28 ltac:(lia)) as Htr. fold next in Htr.
  unfold createOrRegenerateInvite. cbv zeta. fold next.
  repeat match goal with
         | |- context [lit ?text] =>
           let l := fresh "text" in generalize (lit text); intros l
         end.
  destruct (fetchMyProfile_cases u p)
    as [(uid & fam & Hue & Hu & Htu & Hpe & Hf & Htf & Hfetch)
       |(Hno & prof & calls & Hfetch & Hbad & Hcalls)];
    rewrite Hfetch.
  2:{ rewrite Hbad. cbn [orb]. eexists _, _, _. split; [reflexivity|].
      split; [reflexivity|]. split; [reflexivity|]. split; [exact Hlen|].
      split.
      - intros _. split; [exact Hcalls|]. split; reflexivity.
      - intros uid fam Hus. destruct (Hno uid fam Hus). }
  cbn [profile_failure family_id Manage.uid truthy_opt negb orb default].
  rewrite Htu, Htf. cbn [negb orb]. unfold Datatypes.id.
  destruct (saveInviteToken_ok saved next uid fam) as (ok & err & Hsave & Hok).
  cbv zeta in Hok. fold next in Hok. rewrite Hsave.
  assert (Hsame : forall uid' fam',
             user_error u = None /\ user_id_of u = Some uid'
             /\ truthy uid' = true /\ profile_error p = None
             /\ profile_data p ≫= row_family_id = Some fam'
             /\ truthy fam' = true -> uid' = uid /\ fam' = fam).
  { intros uid' fam' (_ & Hu' & _ & _ & Hf' & _). split; congruence. }
  destruct ok; cbn [negb].
  - assert (Hst : stored) by (apply Hok; reflexivity).
    unfold loadGuestbook. cbn [inviteToken setInviteToken].
    rewrite Htr. cbn [negb].
    destruct (guestbook_error gb) as [ge|];
      (eexists _, _, _; split; [reflexivity|]);
      (split; [reflexivity|]); (split; [reflexivity|]);
      (split; [exact Hlen|]);
      (split; [intros Hno; destruct (Hno uid fam); repeat split; assumption|]);
      intros uid' fam' Hus; destruct (Hsame uid' fam' Hus) as [-> ->];
      (split; [intros _; repeat split|intros Hn; destruct (Hn Hst)]).
  - assert (Hst : ~ stored) by (intros H; apply Hok in H; discriminate).
    eexists _, _, _. split; [reflexivity|].
    split; [reflexivity|]. split; [reflexivity|]. split; [exact Hlen|].
    split; [intros Hno; destruct (Hno uid fam); repeat split; assumption|].
    intros uid' fam' Hus. destruct (Hsame uid' fam' Hus) as [-> ->].
    split; [intros H; destruct (Hst H)|intros _; repeat split].
Qed.

Lemma createOrRegenerateInvite_outcome_witness :
  exists pg',
    createOrRegenerateInvite Samples.counting Samples.user0 Samples.profile0
      Samples.saved0 Samples.guestbook0 Samples.page0 Samples.panel0
    = (pg',
       {| inviteToken := makeToken Samples.counting 28;
          inviteBusy := false;
          entries := [Samples.greeting];
          guestbookBusy := false |},
       [auth_getUser; select_profile (lit "u1");
        upsert_profile (lit "u1") (lit "fam") (makeToken Samples.counting 28);
        get_guestbook_entries_by_token (makeToken Samples.counting 28)])
    /\ timers pg' = [1200].
Proof.
  destruct (createOrRegenerateInvite_outcome Samples.counting Samples.user0
              Samples.profile0 Samples.saved0 Samples.guestbook0
              Samples.page0 Samples.panel0)
    as (pg' & pn' & calls & Hrun & Hbusy & _ & _ & _ & Hok).
  destruct (Hok (lit "u1") (lit "fam")
              ltac:(repeat split; vm_compute; reflexivity))
    as ((Hcalls & Htok & Hent & Hgb & _ & _ & Htim) & _).
  { split; [reflexivity|]. eexists _, _. split; reflexivity. }
  exists pg'. split; [|exact Htim].
  rewrite Hrun. destruct pn' as [tok busy ents gbusy].
  cbn in Hbusy, Htok, Hent, Hgb. subst. reflexivity.
Defined.




(** X18. Loading the guestbook for a token. With an empty token nothing is
    sent and nothing changes. Otherwise one lookup is sent with that
    token, the busy mark ends released, and the list becomes the rows
    returned; a failed lookup empties the list and is reported. *)
Theorem loadGuestbook_outcome
  (resp : guestbook_response) (token : jsstring) (pg : Page) (pn : Panel) :
  exists pg' pn' calls,
    loadGuestbook resp token pg pn = (pg', pn', calls)
    /\ (token = [] -> pg' = pg /\ pn' = pn /\ calls = [])
    /\ (token <> [] ->
        calls = [get_guestbook_entries_by_token token]
        /\ guestbookBusy pn' = false
        /\ (forall message, guestbook_error resp = Some message ->
              entries pn' = []
              /\ msg pg' = lit "⚠️ 방명록 조회 실패: " ++ message)
        /\ (guestbook_error resp = None ->
              entries pn' = default [] (guestbook_data resp) /\ pg' = pg))
    /\ inviteToken pn' = inviteToken pn
    /\ inviteBusy pn' = inviteBusy pn
    /\ items pg' = items pg.
Proof.
  unfold loadGuestbook.
  repeat match goal with
         | |- context [lit ?text] =>
           let l := fresh "text" in generalize (lit text); intros l
         end.
  destruct token as [|c token]; cbn [truthy negb].
  { eexists _, _, _. split; [reflexivity|].
    split; [intros _; repeat split|]. split; [intros H; destruct H; reflexivity|].
    repeat split. }
  destruct (guestbook_error resp) as [message|];
    (eexists _, _, _; split; [reflexivity|]);
    (split; [discriminate|]);
    (split; [|repeat split]); intros _;
    (split; [reflexivity|]); (split; [reflexivity|]); split.
  - intros m [= <-]. split; reflexivity.
  - discriminate.
  - discriminate.
  - intros _. split; reflexivity.
Qed.

End ManageInviteMore.

(* ===================================================================== *)
(** ** Manage page: the search box *)
(* ===================================================================== *)

Module SearchFacts.
Import JS Manage.

Lemma startsWith_prefix p s : startsWith p s = true <-> exists r, s = p ++ r.
Proof.
  revert s. induction p as [|a p IH]; intros s; cbn [startsWith].
  - split; [intros _; exists s; reflexivity|reflexivity].
  - destruct s as [|b s].
    + split; [discriminate|intros [r [=]]].
    + rewrite andb_true_iff, N.eqb_eq, IH. split.
      * intros [-> [r ->]]. exists r. reflexivity.
      * intros [r [= -> ->]]. split; [reflexivity|exists r; reflexivity].
Qed.

(** [includes] finds a string exactly when it occurs. *)
Lemma includes_substring s sub :
  includes s sub = true <-> exists a b, s = a ++ sub ++ b.
Proof.
  split.
  - induction s as [|c s IH]; cbn [includes]; rewrite orb_true_iff.
    + intros [H|[=]]. apply startsWith_prefix in H. destruct H as [r ->].
      exists [], r. reflexivity.
    + intros [H|H].
      * apply startsWith_prefix in H. destruct H as [r ->].
        exists [], r. reflexivity.
      * destruct (IH H) as (a & b & ->). exists (c :: a), b. reflexivity.
  - intros (a & b & ->). induction a as [|c a IH].
    + cbn [app]. destruct (sub ++ b) eqn:E; cbn [includes]; rewrite <- E;
        rewrite (proj2 (startsWith_prefix sub (sub ++ b)))
          by (exists b; reflexivity); reflexivity.
    + cbn [app includes]. rewrite IH. apply orb_true_r.
Qed.

Lemma sublist_List_filter {A : Type} (f : A -> bool) (l : list A) :
  sublist (List.filter f l) l.
Proof.
  induction l as [|x l IH]; cbn [List.filter]; [constructor|].
  destruct (f x); [apply sublist_skip|apply sublist_cons]; exact IH.
Qed.

Lemma List_filter_idempotent {A : Type} (f : A -> bool) (l : list A) :
  List.filter f (List.filter f l) = List.filter f l.
Proof.
  induction l as [|x l IH]; cbn [List.filter]; [reflexivity|].
  destruct (f x) eqn:E; [|exact IH].
  cbn [List.filter]. rewrite E, IH. reflexivity.
Qed.

(** X19. The search box of the manage page. The cards shown are always
    some of the artworks, in their order. When the query, trimmed and
    lower-cased, is empty, all are shown; otherwise a card is shown
    exactly when that text occurs in the lower-cased name of the child or
    in the lower-cased title. Searching again in what is shown changes
    nothing. *)
Theorem filtered_search
  (toLowerCase : jsstring -> jsstring) (q : jsstring) (pg : Page) :
  let t := toLowerCase (trim q) in
  let shown := filtered toLowerCase q pg in
  let occurs_in (s : jsstring) := exists a b, toLowerCase s = a ++ t ++ b in
  sublist shown (items pg)
  /\ (t = [] -> shown = items pg)
  /\ (t <> [] ->
      forall a, In a shown
                <-> In a (items pg)
                    /\ (occurs_in (kid_name a) \/ occurs_in (title a)))
  /\ filtered toLowerCase q (setItems shown pg) = shown.
Proof.
  intros t shown occurs_in. subst shown occurs_in. unfold filtered.
  cbv zeta. fold t. cbn [items setItems].
  destruct t as [|c t'] eqn:Et; cbn [truthy negb].
  - split; [reflexivity|]. split; [reflexivity|].
    split; [intros H; destruct H; reflexivity|reflexivity].
  - split; [apply sublist_List_filter|]. split; [discriminate|].
    split; [|apply List_filter_idempotent].
    intros _ a. rewrite filter_In, orb_true_iff, !includes_substring.
    reflexivity.
Qed.

Lemma filtered_search_witness :
  In Samples.drawing
     (filtered Samples.lower_ascii (lit " SUN ") Samples.page0).
Proof.
  destruct (filtered_search Samples.lower_ascii (lit " SUN ") Samples.page0)
    as (_ & _ & Hs & _).
  apply (Hs ltac:(vm_compute; discriminate)).
  split; [left; reflexivity|]. right. exists [], []. vm_compute. reflexivity.
Defined.

End SearchFacts.

(* ===================================================================== *)
(** ** Across pages *)
(* ===================================================================== *)

Module CrossPageFacts.
Import JS JSFacts.

Lemma days_label_not_ends_today (x : jsstring) :
  x ++ lit "일 남음" <> lit "오늘 종료".
Proof.
  intros H. apply (f_equal (@rev code_unit)) in H.
  rewrite rev_app_distr in H. vm_compute in H. discriminate.
Qed.

(** X20. The gallery and the manage page agree on a public artwork. The
    gallery card carries the ends-today label exactly when the manage
    page shows the artwork as PublicExpired, that is when the extend
    control is enabled. For a deadline that can be read and lies ahead,
    the manage page shows PublicActive and the gallery shows the number
    of days left, the least whole number of days that covers the time
    left, which is positive; for one that has passed, the manage page
    shows PublicExpired and the gallery the ends-today label. The gallery
    shows no pill exactly when there is no deadline, an empty one, or one
    that cannot be read, and then the manage page shows PublicActive. *)
Theorem gallery_label_matches_badge
  (Date_parse : jsstring -> option Z) (now : Z)
  (m : Manage.Artwork) (g : Gallery.Artwork) :
  Manage.is_public m = true ->
  Gallery.public_until g = Manage.public_until m ->
  (Manage.StatusBadge Date_parse now m = Manage.PublicExpired
   <-> Gallery.leftText Date_parse now g = lit "오늘 종료")
  /\ (Manage.extendEnabled Date_parse now m = true
      <-> Gallery.leftText Date_parse now g = lit "오늘 종료")
  /\ (Manage.StatusBadge Date_parse now m = Manage.PublicActive
      <-> Gallery.leftText Date_parse now g = []
          \/ exists l, 0 < l
                       /\ Gallery.leftText Date_parse now g
                          = ToString l ++ lit "일 남음")
  /\ (forall iso t,
        Manage.public_until m = Some iso -> iso <> [] ->
        Date_parse iso = Some t ->
        let d := ceil_div (t - now) msPerDay in
        (now < t ->
         0 < d /\ (d - 1) * msPerDay < t - now <= d * msPerDay
         /\ Manage.StatusBadge Date_parse now m = Manage.PublicActive
         /\ Gallery.leftText Date_parse now g = ToString d ++ lit "일 남음")
        /\ (t <= now ->
            Manage.StatusBadge Date_parse now m = Manage.PublicExpired
            /\ Gallery.leftText Date_parse now g = lit "오늘 종료"))
  /\ (Manage.public_until m = None \/ Manage.public_until m = Some []
      \/ (exists iso, Manage.public_until m = Some iso
                      /\ Date_parse iso = None) ->
      Manage.StatusBadge Date_parse now m = Manage.PublicActive
      /\ Gallery.leftText Date_parse now g = [])
  /\ (Gallery.leftText Date_parse now g = []
      <-> Manage.public_until m = None \/ Manage.public_until m = Some []
          \/ exists iso, Manage.public_until m = Some iso
                         /\ Date_parse iso = None).
Proof.
  intros Hpub Hsame.
  assert (Hbadge : Manage.StatusBadge Date_parse now m
                   = if Manage.isExpired Date_parse now m
                     then Manage.PublicExpired else Manage.PublicActive).
  { unfold Manage.StatusBadge. rewrite Hpub. reflexivity. }
  assert (Hext : Manage.extendEnabled Date_parse now m
                 = Manage.isExpired Date_parse now m).
  { unfold Manage.extendEnabled. rewrite Hpub. reflexivity. }
  rewrite Hbadge, Hext.
  assert (Hne : lit "오늘 종료" <> []) by (vm_compute; discriminate).
  assert (Hne' : forall l, ToString l ++ lit "일 남음" <> []).
  { intros l. generalize (ToString l). intros [|c x];
      [vm_compute; discriminate|discriminate]. }
  pose proof days_label_not_ends_today as Hdiff.
  unfold Manage.isExpired, Gallery.leftText, Gallery.daysLeft.
  rewrite Hpub, Hsame. cbv zeta. cbn [negb].
  change (24 * 60 * 60 * 1000) with msPerDay.
  revert Hne Hne' Hdiff.
  generalize (lit "오늘 종료"). generalize (lit "일 남음").
  intros days today Hne Hne' Hdiff.
  destruct (Manage.public_until m) as [iso|].
  2:{ split; [split; [discriminate|intros H; symmetry in H; contradiction]|].
      split; [split; [discriminate|intros H; symmetry in H; contradiction]|].
      split; [split; [intros _; left; reflexivity|reflexivity]|].
      split; [intros iso t [=]|].
      split; [intros _; split; reflexivity|].
      split; [intros _; left; reflexivity|reflexivity]. }
  destruct iso as [|c iso]; cbn [Manage.truthy negb].
  { split; [split; [discriminate|intros H; symmetry in H; contradiction]|].
    split; [split; [discriminate|intros H; symmetry in H; contradiction]|].
    split; [split; [intros _; left; reflexivity|reflexivity]|].
    split; [intros iso t [= <-] H; destruct H; reflexivity|].
    split; [intros _; split; reflexivity|].
    split; [intros _; right; left; reflexivity|reflexivity]. }
  destruct (Date_parse (c :: iso)) as [t|] eqn:Hparse.
  2:{ split; [split; [discriminate|intros H; symmetry in H; contradiction]|].
      split; [split; [discriminate|intros H; symmetry in H; contradiction]|].
      split; [split; [intros _; left; reflexivity|reflexivity]|].
      split; [intros iso' t [= <-] _ Ht; congruence|].
      split; [intros _; split; reflexivity|].
      split; [|reflexivity].
      intros _. right; right. exists (c :: iso). split; [reflexivity|exact Hparse]. }
  pose proof (GalleryFacts.ceil_div_spec (t - now) msPerDay
                ltac:(unfold msPerDay; lia)) as Hc.
  set (d := ceil_div (t - now) msPerDay) in *.
  assert (Hday : 0 < msPerDay) by (unfold msPerDay; lia).
  assert (Hnot : ~ (Some (c :: iso) = None \/ Some (c :: iso) = Some []
                    \/ exists iso', Some (c :: iso) = Some iso'
                                    /\ Date_parse iso' = None)).
  { intros [H|[H|(iso' & [= <-] & H)]]; congruence. }
  destruct (Z.leb_spec t now) as [Hle|Hgt];
    destruct (Z.leb_spec d 0) as [Hd|Hd]; try nia.
  - split; [split; reflexivity|]. split; [split; reflexivity|].
    split.
    { split; [discriminate|].
      intros [H|(l & _ & H)]; [contradiction|].
      symmetry in H. destruct (Hdiff _ H). }
    split.
    { intros iso' t' [= <-] _ Ht'. rewrite Hparse in Ht'.
      injection Ht' as <-. fold d.
      split; [intros Hlt; lia|intros _; split; reflexivity]. }
    split; [intros H; destruct (Hnot H)|].
    split; [intros H; contradiction|intros H; destruct (Hnot H)].
  - split; [split; [discriminate|intros H; destruct (Hdiff _ H)]|].
    split; [split; [discriminate|intros H; destruct (Hdiff _ H)]|].
    split.
    { split; [|reflexivity]. intros _. right. exists d.
      split; [lia|reflexivity]. }
    split.
    { intros iso' t' [= <-] _ Ht'. rewrite Hparse in Ht'.
      injection Ht' as <-. fold d.
      split; [|intros Hle; lia]. intros _.
      split; [lia|]. split; [exact Hc|]. split; reflexivity. }
    split; [intros H; destruct (Hnot H)|].
    split; [intros H; destruct (Hne' _ H)|intros H; destruct (Hnot H)].
Qed.
Lemma gallery_label_matches_badge_witness :
  Manage.StatusBadge DateString.Date_parse_iso Samples.now0 Samples.shown
  = Manage.PublicExpired
  <-> Gallery.leftText DateString.Date_parse_iso Samples.now0 Samples.hung
      = lit "오늘 종료".
Proof.
  exact (proj1 (gallery_label_matches_badge DateString.Date_parse_iso
                  Samples.now0 Samples.shown Samples.hung
                  eq_refl eq_refl)).
Defined.

Lemma alphabet_no_white_space c :
  In c Manage.alphabet -> is_white_space c = false.
Proof.
  revert c.
  apply (proj1 (List.Forall_forall (fun c => is_white_space c = false)
                  Manage.alphabet)).
  vm_compute.
  repeat (constructor; [reflexivity|]). constructor.
Qed.

(** X21. A generated invite code opens the invite page. A token of at
    least 6 symbols, so the 28 of the call site and the 24 of the
    default, has no white space to trim, and the invite page sends both
    lookups with exactly the token that the link shown on the manage
    page ends with. *)
Theorem generated_token_opens_invite_page
  (random : nat -> byte) (len : nat) (origin : jsstring) (pn : Manage.Panel)
  (getPublicUrl : jsstring -> jsstring)
  (guest_resp : Invite.response Invite.Entry)
  (art_resp : Invite.response Invite.ArtworkRowFromRPC)
  (guest_first : bool) (pg : Invite.Page) (calls : list Invite.call) :
  (6 <= len)%nat ->
  let token := Manage.makeToken random len in
  Manage.inviteLink (Some origin) (Manage.setInviteToken token pn)
  = origin ++ lit "/invite/" ++ token
  /\ trim token = token
  /\ snd (Invite.loadAll getPublicUrl token guest_resp art_resp guest_first
            pg calls)
     = calls ++ [Invite.get_guestbook_entries_by_token token;
                 Invite.get_artworks_by_token token].
Proof.
  intros Hlen token.
  pose proof (ManageInviteFacts.makeToken_length random len) as Hl.
  pose proof (ManageInviteFacts.makeToken_symbols random len) as Hsym.
  fold token in Hl, Hsym.
  assert (Htrim : trim token = token).
  { destruct token as [|c s] eqn:E; [reflexivity|].
    destruct (exists_last (l := c :: s) ltac:(discriminate))
      as (front & c' & Hlast).
    apply (UploadMore.trim_unpadded c s front c' Hlast).
    - apply alphabet_no_white_space.
      exact (Forall_inv Hsym).
    - apply alphabet_no_white_space.
      rewrite Hlast in Hsym. apply Forall_app in Hsym.
      exact (Forall_inv (proj2 Hsym)). }
  split.
  { unfold Manage.inviteLink. cbn [Manage.inviteToken Manage.setInviteToken].
    destruct token; [cbn in Hl; lia|reflexivity]. }
  split; [exact Htrim|].
  apply InviteFacts.loadAll_valid. rewrite Htrim, Hl. exact Hlen.
Qed.

Lemma generated_token_opens_invite_page_witness :
  trim (Manage.makeToken Samples.counting 28)
  = Manage.makeToken Samples.counting 28.
Proof.
  exact (proj1 (proj2 (generated_token_opens_invite_page Samples.counting 28
                         (lit "https://kids.example") Samples.panel0
                         (fun v => v)
                         {| Invite.data := None; Invite.error := None |}
                         {| Invite.data := None; Invite.error := None |}
                         true
                         {| Invite.artworks := []; Invite.entries := [];
                            Invite.status := []; Invite.debug := [];
                            Invite.loading := true |}
                         [] ltac:(lia)))).
Defined.

End CrossPageFacts.

(* ===================================================================== *)
(** ** Login and password pages *)
(* ===================================================================== *)

Module LoginFacts.
Import JS Login.

Lemma take_id_chars_sound n s m rest :
  take_id_chars n s = (m, rest) ->
  s = m ++ rest /\ Forall (fun c => is_id_char c = true) m
  /\ (length m <= n)%nat.
Proof.
  revert s m rest. induction n as [|n IH]; intros s m rest; cbn [take_id_chars].
  - destruct s; intros [= <- <-]; (split; [reflexivity|split; [constructor|cbn; lia]]).
  - destruct s as [|c r]; [intros [= <- <-]; (split; [reflexivity|split; [constructor|cbn; lia]])|].
    destruct (is_id_char c) eqn:Hc.
    + destruct (take_id_chars n r) as [m' rest'] eqn:E. intros [= <- <-].
      destruct (IH _ _ _ E) as (-> & Hm & Hl).
      split; [reflexivity|]. split; [constructor; assumption|cbn; lia].
    + intros [= <- <-]. (split; [reflexivity|split; [constructor|cbn; lia]]).
Qed.

Lemma take_id_chars_all n u :
  Forall (fun c => is_id_char c = true) u -> (length u <= n)%nat ->
  take_id_chars n u = (u, []).
Proof.
  revert u. induction n as [|n IH]; intros u Hu Hl.
  - destruct u; [reflexivity|cbn in Hl; lia].
  - destruct u as [|c r]; [reflexivity|]. cbn [take_id_chars].
    rewrite (Forall_inv Hu), (IH r (Forall_inv_tail Hu)) by (cbn in Hl; lia).
    reflexivity.
Qed.

(** The test of the user-name pattern, said without the matcher. *)
Lemma id_regex_test_spec u :
  id_regex_test u = true
  <-> (3 <= length u <= 30)%nat /\ Forall (fun c => is_id_char c = true) u.
Proof.
  unfold id_regex_test. split.
  - destruct (take_id_chars 30 u) as [m rest] eqn:E.
    destruct (take_id_chars_sound _ _ _ _ E) as (-> & Hm & Hl).
    rewrite andb_true_iff, Nat.leb_le. intros [H3 Hr].
    destruct rest; [|discriminate]. rewrite app_nil_r. repeat split; assumption || lia.
  - intros [[H3 H30] Hu]. rewrite (take_id_chars_all 30 u Hu H30).
    apply andb_true_iff. split; [apply Nat.leb_le; exact H3|reflexivity].
Qed.

(** X22. Signing in. A sign-in is requested exactly when a user name and a
    password were typed and the user name, trimmed and lower-cased, has 3
    to 30 code units, each a lower-case letter, a digit, a dot, an
    underscore or a dash. The request carries that name followed by
    [@love.you] and the password as typed. After a refused sign-in the
    form is released; after an accepted one it stays busy and the page is
    replaced by the home page. Without a request nothing is sent, the
    busy mark is as before, and a message is shown. *)
Theorem handleLogin_outcome
  (toLowerCase : jsstring -> jsstring) (sign_error : option jsstring)
  (pg : Page) :
  let u := toLowerCase (trim (username pg)) in
  let asked :=
    username pg <> [] /\ password pg <> []
    /\ (3 <= length u <= 30)%nat
    /\ Forall (fun c => is_id_char c = true) u in
  exists pg' effects,
    handleLogin toLowerCase sign_error pg = (pg', effects)
    /\ username pg' = username pg /\ password pg' = password pg
    /\ (asked ->
        exists rest,
          effects
          = signInWithPassword (u ++ lit "@love.you") (password pg) :: rest
          /\ (sign_error = None ->
              rest = [router_replace (lit "/")] /\ busy pg' = true)
          /\ (sign_error <> None -> rest = [] /\ busy pg' = false))
    /\ (~ asked ->
        effects = [] /\ busy pg' = busy pg /\ message pg' <> []).
Proof.
  intros u asked. subst asked. unfold handleLogin, usernameToEmail.
  cbv zeta. fold u.
  assert (Hmail : lit "@" ++ FIXED_DOMAIN = lit "@love.you")
    by (vm_compute; reflexivity).
  rewrite Hmail. clear Hmail.
  assert (Hm1 : lit "아이디/비밀번호를 입력해줘." <> []) by (vm_compute; discriminate).
  assert (Hm2 : err_username <> []) by (vm_compute; discriminate).
  revert Hm1 Hm2.
  repeat match goal with
         | |- context [lit ?text] =>
           let l := fresh "text" in generalize (lit text); intros l
         end.
  generalize err_username. intros err Hm1 Hm2.
  pose proof (id_regex_test_spec u) as Hspec.
  destruct (username pg) as [|c name] eqn:Hname; cbn [Manage.truthy negb orb].
  { eexists _, _. split; [reflexivity|]. cbn [username password setMessage].
    split; [exact Hname|]. split; [reflexivity|].
    split; [intros (H & _); destruct H; reflexivity|].
    intros _. repeat split. exact Hm1. }
  destruct (password pg) as [|c' pw] eqn:Hpw; cbn [Manage.truthy negb orb].
  { eexists _, _. split; [reflexivity|]. cbn [username password setMessage].
    split; [exact Hname|]. split; [exact Hpw|].
    split; [intros (_ & H & _); destruct H; reflexivity|].
    intros _. repeat split. exact Hm1. }
  destruct (id_regex_test u); cbn [negb].
  - assert (Hok : (3 <= length u <= 30)%nat
                  /\ Forall (fun c => is_id_char c = true) u)
      by (apply Hspec; reflexivity).
    destruct sign_error as [e|];
      (eexists _, _; split; [reflexivity|]);
      cbn [username password busy message setMessage setBusy];
      (split; [exact Hname|]); (split; [exact Hpw|]);
      (split; [|intros Hn; destruct Hn; repeat split; try discriminate;
                 apply Hok]);
      intros _; eexists; (split; [rewrite Hpw; reflexivity|]).
    + split; [discriminate|intros _; split; reflexivity].
    + split; [intros _; split; reflexivity|intros H; destruct H; reflexivity].
  - assert (Hbad : ~ ((3 <= length u <= 30)%nat
                      /\ Forall (fun c => is_id_char c = true) u))
      by (intros H; apply Hspec in H; discriminate).
    eexists _, _. split; [reflexivity|].
    cbn [username password busy message setMessage].
    split; [exact Hname|]. split; [exact Hpw|].
    split; [intros (_ & _ & H1 & H2); destruct Hbad; split; assumption|].
    intros _. repeat split. exact Hm2.
Qed.

Lemma handleLogin_outcome_witness :
  exists pg',
    handleLogin Samples.lower_ascii None Samples.login_form
    = (pg', [signInWithPassword (lit "rangmin@love.you") (lit "secret-1");
             router_replace (lit "/")])
    /\ busy pg' = true.
Proof.
  destruct (handleLogin_outcome Samples.lower_ascii None Samples.login_form)
    as (pg' & effects & Hrun & _ & _ & Hasked & _).
  destruct Hasked as (rest & -> & Hok & _).
  { split; [vm_compute; discriminate|]. split; [vm_compute; discriminate|].
    split; [vm_compute; lia|]. vm_compute.
    repeat (constructor; [reflexivity|]). constructor. }
  destruct (Hok eq_refl) as [-> Hbusy].
  exists pg'. split; [|exact Hbusy]. rewrite Hrun.
  vm_compute. reflexivity.
Defined.

End LoginFacts.

Module PasswordFacts.
Import JS Password.

(** X23. Changing the password. The new password is sent exactly when no
    save is in flight, it has at least 8 code units and both fields hold
    the same text; it is sent once, as typed. The move to the home page
    is scheduled only after the service accepted it. The handler leaves
    both fields as typed and the saving mark as it found it, and a call
    made while a save is in flight changes nothing at all. *)
Theorem onSave_outcome (error : option jsstring) (pg : Page) :
  let acceptable :=
    saving pg = false /\ (8 <= length (pw1 pg))%nat /\ pw1 pg = pw2 pg in
  exists pg' effects,
    onSave error pg = (pg', effects)
    /\ pw1 pg' = pw1 pg /\ pw2 pg' = pw2 pg /\ saving pg' = saving pg
    /\ (acceptable ->
        exists rest,
          effects = updateUser (pw1 pg) :: rest
          /\ (error = None -> rest = [setTimeout_replace 1200 (lit "/")])
          /\ (forall text, error = Some text ->
                rest = [] /\ msg pg' = lit "변경 실패: " ++ text))
    /\ (~ acceptable ->
        effects = [] /\ (saving pg = true -> pg' = pg)
        /\ (saving pg = false -> msg pg' <> [])).
Proof.
  intros acceptable. subst acceptable. unfold onSave. cbv zeta.
  assert (Hm1 : lit "비밀번호는 8자 이상 권장" <> []) by (vm_compute; discriminate).
  assert (Hm2 : lit "비밀번호가 일치하지 않습니다." <> [])
    by (vm_compute; discriminate).
  revert Hm1 Hm2.
  repeat match goal with
         | |- context [lit ?text] =>
           let l := fresh "text" in generalize (lit text); intros l
         end.
  intros Hm1 Hm2.
  destruct (saving pg) eqn:Hs.
  { eexists _, _. split; [reflexivity|]. rewrite Hs.
    split; [reflexivity|]. split; [reflexivity|]. split; [reflexivity|].
    split; [intros (H & _); discriminate|].
    intros _. split; [reflexivity|]. split; [reflexivity|discriminate]. }
  cbn [pw1 pw2 setMsg setSaving].
  destruct (Z.ltb_spec (Z.of_nat (length (pw1 pg))) 8) as [Hshort|Hlong].
  { eexists _, _. split; [reflexivity|]. cbn [pw1 pw2 saving msg setMsg].
    split; [reflexivity|]. split; [reflexivity|]. split; [exact Hs|].
    split; [intros (_ & H & _); lia|].
    intros _. split; [reflexivity|]. split; [discriminate|intros _; exact Hm1]. }
  destruct (decide (pw1 pg = pw2 pg)) as [He|He].
  - rewrite bool_decide_eq_true_2 by exact He. cbn [negb].
    destruct error as [emsg|];
      (eexists _, _; split; [reflexivity|]);
      cbn [pw1 pw2 saving msg setMsg setSaving];
      (split; [reflexivity|]); (split; [reflexivity|]); (split; [reflexivity|]);
      (split; [|intros Hn; destruct Hn; repeat split; [lia|exact He]]);
      intros _; eexists; (split; [reflexivity|]).
    + split; [discriminate|]. intros t [= <-]. split; reflexivity.
    + split; [reflexivity|]. intros t [=].
  - rewrite bool_decide_eq_false_2 by exact He. cbn [negb].
    eexists _, _. split; [reflexivity|]. cbn [pw1 pw2 saving msg setMsg].
    split; [reflexivity|]. split; [reflexivity|]. split; [exact Hs|].
    split; [intros (_ & _ & H); contradiction|].
    intros _. split; [reflexivity|]. split; [discriminate|intros _; exact Hm2].
Qed.

Lemma onSave_outcome_witness :
  exists pg',
    onSave None Samples.password_form
    = (pg', [updateUser (lit "new-secret");
             setTimeout_replace 1200 (lit "/")]).
Proof.
  destruct (onSave_outcome None Samples.password_form)
    as (pg' & effects & Hrun & _ & _ & _ & Hok & _).
  destruct Hok as (rest & -> & Hrest & _).
  { split; [reflexivity|]. split; [vm_compute; lia|reflexivity]. }
  rewrite (Hrest eq_refl) in Hrun. exists pg'. exact Hrun.
Defined.

End PasswordFacts.

(* ===================================================================== *)
(** ** Upload page: the effects of the form *)
(* ===================================================================== *)

Module UploadEffects.
Import JS Upload JSFacts UploadFacts UploadMore.

(** What the effect on the typed date leaves in [madeAtError]. *)
Lemma madeAtError_effect_cases tza (f : UploadForm) :
  - msPerDay < tza < msPerDay ->
  exists e,
    madeAtError_effect tza f = Normal (setMadeAtError e f)
    /\ (useNow f = true -> e = None)
    /\ (useNow f = false ->
        (e = None
         /\ exists s, parseArtworkMadeAt tza (madeAtInput f)
                      = Normal {| iso := Some s; error := None |})
        \/ (exists m, e = Some m /\ truthy m = true
                      /\ parseArtworkMadeAt tza (madeAtInput f)
                         = Normal (rejected m))).
Proof.
  intros Htza. unfold madeAtError_effect.
  destruct (useNow f).
  { exists None. split; [reflexivity|]. split; [reflexivity|discriminate]. }
  destruct (made_at_regex_exec (trim (madeAtInput f)))
    as [[[[[Y M] D] H] MI]|] eqn:Hx.
  - apply pattern_of_exec in Hx.
    destruct (first_broken_rule (Number_of_digits M) (Number_of_digits D)
                (Number_of_digits H) (Number_of_digits MI)) as [r|] eqn:Hr.
    + rewrite (rejected_by_rule tza _ Y M D H MI r Hx Hr).
      exists (Some (rule_message r)). split; [reflexivity|].
      split; [discriminate|]. intros _. right. exists (rule_message r).
      split; [reflexivity|]. split; [destruct r; reflexivity|reflexivity].
    + destruct (accepted_value tza _ Y M D H MI Htza Hx Hr)
        as (_ & s & _ & Hp).
      rewrite Hp. exists None. split; [reflexivity|].
      split; [discriminate|]. intros _. left.
      split; [reflexivity|]. exists s. reflexivity.
  - unfold parseArtworkMadeAt. rewrite Hx. exists (Some err_pattern).
    split; [reflexivity|]. split; [discriminate|]. intros _. right.
    exists err_pattern. repeat split.
Qed.

(** X24. The date check of the form and the one of the handler agree.
    Once the effect on the typed date has run, a form with a name, a
    title and a file can be submitted exactly when the current date is
    used or the validator accepts the text typed; and a form that can be
    submitted is never stopped by the second check in [upload]: the
    handler goes on to ask for the profile. *)
Theorem submittable_form_passes_validator
  (tza : Z) (getPublicUrl : jsstring -> jsstring) (now1 now2 now3 : Z)
  (random_hex : jsstring) (prof : profile_response)
  (up_err db_err : option jsstring) (f : UploadForm) :
  - msPerDay < tza < msPerDay -> - maxTime <= now1 <= maxTime ->
  exists f',
    madeAtError_effect tza f = Normal f'
    /\ (truthy (trim (kidName f)) = true -> truthy (trim (title f)) = true ->
        is_Some (file f) ->
        (canSubmit f' = true
         <-> useNow f = true
             \/ exists s, parseArtworkMadeAt tza (madeAtInput f)
                          = Normal {| iso := Some s; error := None |}))
    /\ (canSubmit f' = true ->
        exists f'' rest,
          upload tza getPublicUrl now1 now2 now3 random_hex prof up_err
            db_err f'
          = Uploaded f'' (select_profile :: rest)).
Proof.
  intros Htza Hnow.
  destruct (madeAtError_effect_cases tza f Htza) as (e & He & Hnowcase & Htyped).
  exists (setMadeAtError e f). split; [exact He|].
  assert (Hcan : canSubmit (setMadeAtError e f) = true ->
                 useNow f = true
                 \/ exists s, parseArtworkMadeAt tza (madeAtInput f)
                              = Normal {| iso := Some s; error := None |}).
  { unfold canSubmit.
    cbn [kidName title file useNow madeAtError setMadeAtError].
    destruct (negb (truthy (trim (kidName f)))
              || negb (truthy (trim (title f)))
              || negb (bool_decide (is_Some (file f)))); [discriminate|].
    destruct (useNow f) eqn:Hu; [intros _; left; reflexivity|].
    destruct (Htyped eq_refl) as [(-> & s & Hs)|(m & -> & Hm & _)].
    - intros _. right. exists s. exact Hs.
    - rewrite Hm. discriminate. }
  split.
  - intros Hk Ht Hf. split; [exact Hcan|].
    unfold canSubmit.
    cbn [kidName title file useNow madeAtError setMadeAtError].
    rewrite Hk, Ht, (bool_decide_eq_true_2 _ Hf). cbn [negb orb].
    intros [Hu|(s & Hs)].
    + rewrite Hu. reflexivity.
    + destruct (useNow f) eqn:Hu; [reflexivity|].
      destruct (Htyped eq_refl) as [(-> & _)|(m & _ & _ & Hm)];
        [reflexivity|]. rewrite Hs in Hm. discriminate.
  - intros Hsub. pose proof (Hcan Hsub) as Hacc.
    pose proof (upload_made_at tza now1 (setMadeAtError e f) Htza Hnow) as Hm.
    unfold upload. rewrite Hsub. cbn [negb].
    cbv zeta in Hm |- *.
    destruct Hm as [(s & Hm & _)|(m & Hm & Hu & Hrej)].
    + rewrite Hm.
      repeat match goal with
             | |- context [lit ?text] =>
               let l := fresh "text" in generalize (lit text); intros l
             end.
      destruct (prof_error prof), (prof_family prof) as [[fam|]|];
        try (eexists _, _; reflexivity).
      destruct (truthy fam); [|eexists _, _; reflexivity].
      destruct up_err; [eexists _, _; reflexivity|].
      destruct db_err; eexists _, _; reflexivity.
    + exfalso. cbn [useNow madeAtInput setMadeAtError] in Hu, Hrej.
      destruct Hacc as [Hu'|(s & Hs)]; [congruence|].
      rewrite Hs in Hrej. discriminate.
Qed.

Lemma submittable_form_passes_validator_witness :
  - msPerDay < Samples.kst < msPerDay
  /\ - maxTime <= Samples.now0 <= maxTime
  /\ exists f',
       madeAtError_effect Samples.kst Samples.upload_form = Normal f'
       /\ canSubmit f' = true.
Proof.
  assert (H1 : - msPerDay < Samples.kst < msPerDay)
    by (vm_compute; split; reflexivity).
  assert (H2 : - maxTime <= Samples.now0 <= maxTime)
    by (vm_compute; split; discriminate).
  split; [exact H1|]. split; [exact H2|].
  destruct (submittable_form_passes_validator Samples.kst (fun v => v)
              Samples.now0 Samples.now0 Samples.now0 (lit "ab12")
              {| prof_family := Some (Some (lit "fam")); prof_error := None |}
              None None Samples.upload_form H1 H2)
    as (f' & He & Hiff & _).
  exists f'. split; [exact He|].
  apply Hiff; [vm_compute; reflexivity|vm_compute; reflexivity
              |eexists; reflexivity|].
  right. eexists. vm_compute. reflexivity.
Defined.

(** X25. The move to the manage page after an upload. While [redirectIn]
    is null the effect does nothing. From a count [n] that is not below 0
    the effect waits [n] times one second and then replaces the page by
    [/manage]; from a count below 0 it replaces the page at once. For the
    count 2 this is two seconds. *)
Theorem redirect_countdown (n : Z) (fuel : nat) :
  (Z.to_nat n < fuel)%nat ->
  countdown fuel (Some n)
  = Some (repeat 1000 (Z.to_nat n), Some (lit "/manage"))
  /\ countdown fuel None = Some ([], None).
Proof.
  intros Hfuel. split; [|destruct fuel; [lia|reflexivity]].
  remember (lit "/manage") as path eqn:Hpath.
  assert (Hstep : forall v, redirect_effect (Some v)
                            = if v <=? 0 then router_replace path
                              else setTimeout_tick 1000 (Some (v - 1))).
  { intros v. unfold redirect_effect. rewrite <- Hpath. reflexivity. }
  clear Hpath. revert n Hfuel.
  induction fuel as [|fuel IH]; intros n Hfuel; [lia|].
  cbn [countdown]. rewrite Hstep.
  destruct (Z.leb_spec n 0) as [Hn|Hn].
  - replace (Z.to_nat n) with O by lia. reflexivity.
  - rewrite (IH (n - 1)) by lia. cbn [mbind option_bind].
    replace (Z.to_nat n) with (S (Z.to_nat (n - 1))) by lia. reflexivity.
Qed.

Lemma redirect_countdown_witness :
  countdown 3 (Some 2) = Some ([1000; 1000], Some (lit "/manage")).
Proof.
  exact (proj1 (redirect_countdown 2 3 ltac:(vm_compute; lia))).
Defined.

End UploadEffects.

(* ===================================================================== *)
(** ** Manage page: opening the page *)
(* ===================================================================== *)

Module ManageStartFacts.
Import JS Manage JSFacts ManageFacts ManageInviteFacts.

(** X26. Opening the manage page. Without a session the page asks for
    nothing and moves to the login page. With one, the artworks are asked
    for only when the profile lookup succeeded and names a family, once
    and for that family; the guestbook is asked for only when the profile
    also carries an invite token, and for that token, which is the one
    then shown. The table and the bucket are read, never written. *)
Theorem run_outcome
  (session : bool) (u : user_response) (p : profile_response)
  (resp : select_response) (gb : guestbook_response)
  (pg : Page) (pn : Panel) (w : World) :
  let usable (uid fam : jsstring) :=
    user_error u = None /\ user_id_of u = Some uid /\ truthy uid = true
    /\ profile_error p = None
    /\ profile_data p ≫= row_family_id = Some fam /\ truthy fam = true in
  let token := default [] (profile_data p ≫= row_invite_token) in
  exists pg' pn' w' calls moved,
    run session u p resp gb pg pn w = (pg', pn', w', calls, moved)
    /\ artworks w' = artworks w /\ bucket w' = bucket w
    /\ (session = false ->
        pg' = pg /\ pn' = pn /\ w' = w /\ calls = []
        /\ moved = Some (lit "/login"))
    /\ (session = true -> (forall uid fam, ~ usable uid fam) ->
        log w' = log w /\ pn' = pn /\ items pg' = items pg /\ moved = None
        /\ forall t, ~ In (get_guestbook_entries_by_token t) calls)
    /\ (session = true -> forall uid fam, usable uid fam ->
        log w' = log w ++ [SelectArtworks fam]
        /\ myFamilyId pg' = Some fam
        /\ inviteToken pn' = token
        /\ moved = None
        /\ calls = [auth_getUser; select_profile uid]
                   ++ (if truthy token
                       then [get_guestbook_entries_by_token token] else [])
        /\ (error resp = None -> items pg' = default [] (data resp))
        /\ (error resp <> None -> items pg' = items pg)).
Proof.
  intros usable token. subst usable. unfold run.
  destruct session; cbn [negb].
  2:{ eexists _, _, _, _, _. split; [reflexivity|].
      split; [reflexivity|]. split; [reflexivity|].
      split; [intros _; repeat split|]. split; discriminate. }
  unfold load, loadGuestbook. cbv zeta.
  repeat match goal with
         | |- context [lit ?text] =>
           let l := fresh "text" in generalize (lit text); intros l
         end.
  destruct (fetchMyProfile_cases u p)
    as [(uid & fam & Hue & Hu & Htu & Hpe & Hf & Htf & Hfetch)
       |(Hno & prof & calls & Hfetch & Hbad & Hcalls)];
    rewrite Hfetch.
  2:{ rewrite Hbad. eexists _, _, _, _, _. split; [reflexivity|].
      split; [reflexivity|]. split; [reflexivity|].
      split; [discriminate|]. split.
      - intros _ _. repeat split. intros t Hin.
        destruct Hcalls as [->|[uid ->]]; cbn in Hin;
          repeat (destruct Hin as [Hin|Hin]; [discriminate|]); exact Hin.
      - intros _ uid fam Hus. destruct (Hno uid fam Hus). }
  cbn [profile_failure family_id invite_token truthy_opt negb orb].
  rewrite Htf. cbn [negb orb].
  change (default [] (Some fam)) with fam. subst token.
  assert (Hsame : forall uid' fam',
             user_error u = None /\ user_id_of u = Some uid'
             /\ truthy uid' = true /\ profile_error p = None
             /\ profile_data p ≫= row_family_id = Some fam'
             /\ truthy fam' = true -> uid' = uid /\ fam' = fam).
  { intros uid' fam' (_ & Hu' & _ & _ & Hf' & _). split; congruence. }
  unfold jsstring.
  destruct (error resp) as [message|] eqn:Herr;
    match goal with
    | |- context [truthy (default [] ?x)] =>
      destruct (truthy (default [] x)) eqn:Htok
    end; cbn [negb];
    try destruct (guestbook_error gb) as [gm|];
    (eexists _, _, _, _, _; split; [reflexivity|]);
    (split; [reflexivity|]); (split; [reflexivity|]);
    (split; [discriminate|]);
    (split; [intros _ Hno; destruct (Hno uid fam); repeat split; assumption|]);
    intros _ uid' fam' Hus; destruct (Hsame uid' fam' Hus) as [-> ->];
    repeat split; try discriminate; try (intros Hn; destruct Hn; reflexivity).
Qed.

Lemma run_outcome_witness :
  exists pg' pn' w' calls moved,
    run true Samples.user0 Samples.profile0 Samples.load0 Samples.guestbook0
      Samples.page0 Samples.panel0 Samples.world0
    = (pg', pn', w', calls, moved)
    /\ log w' = [SelectArtworks (lit "fam")]
    /\ calls = [auth_getUser; select_profile (lit "u1")].
Proof.
  destruct (run_outcome true Samples.user0 Samples.profile0 Samples.load0
              Samples.guestbook0 Samples.page0 Samples.panel0 Samples.world0)
    as (pg' & pn' & w' & calls & moved & Hrun & _ & _ & _ & _ & Hok).
  destruct (Hok eq_refl (lit "u1") (lit "fam")
              ltac:(repeat split; vm_compute; reflexivity))
    as (Hlog & _ & _ & _ & Hcalls & _).
  exists pg', pn', w', calls, moved. split; [exact Hrun|].
  split; [exact Hlog|exact Hcalls].
Defined.

End ManageStartFacts.
